(** * tcc-stats: statistics of GO + PPI datasets (stats.py)

    A shallow embedding of [stats.py] and the properties of its
    statistics computation.

    Conventions of the embedding.
    - Python objects with mutable attributes ([RowStats], [DatasetStats])
      are records; a method is a computation in a state-and-exception
      monad over the record.  A raised exception leaves the mutations
      made before it in place, as in Python.
    - [dict]s whose iteration order is observable (the statistics, the
      [Counter], the report) are insertion-ordered association lists;
      the row's [_data] and the two cache dicts are finite maps.
    - a Python [float] is an IEEE-754 binary64 number: [spec_float] with
      precision 53 and maximal exponent 1024; a Python [int] is a [Z].
    - strings are ASCII strings.
    - [assert] statements are executed (the interpreter runs without -O). *)

From Stdlib Require Import ZArith String Ascii List Bool Lia.
From Stdlib Require Import Floats.SpecFloat.
From stdpp Require Import base option list gmap fin_maps fin_sets strings.

Local Open Scope string_scope.
Local Open Scope Z_scope.

(* ================================================================== *)
(** * Python runtime *)
(* ================================================================== *)

Module Py.

(** Exceptions the program can raise. *)
Inductive exn : Type :=
| AssertionError
| KeyError (key : string)
| IndexError
| ZeroDivisionError
| ValueError
| OverflowError
| TypeError
| AttributeError
| RecursionError
| Exception (msg : string).

Inductive result (A : Type) : Type :=
| Ok (a : A)
| Raise (e : exn).
Arguments Ok {A} a.
Arguments Raise {A} e.

Definition is_ok {A} (r : result A) : bool :=
  match r with Ok _ => true | Raise _ => false end.

(** A method of an object of state [S]. *)
Definition M (S A : Type) : Type := S -> result A * S.

Definition ret {S A} (a : A) : M S A := fun s => (Ok a, s).
Definition raise {S A} (e : exn) : M S A := fun s => (Raise e, s).
Definition bind {S A B} (c : M S A) (k : A -> M S B) : M S B :=
  fun s => match c s with
           | (Ok a, s') => k a s'
           | (Raise e, s') => (Raise e, s')
           end.
Definition get {S} : M S S := fun s => (Ok s, s).
Definition gets {S A} (f : S -> A) : M S A := fun s => (Ok (f s), s).
Definition modify {S} (f : S -> S) : M S unit := fun s => (Ok tt, f s).
Definition lift {S A} (r : result A) : M S A := fun s => (r, s).
Definition assert {S} (b : bool) : M S unit :=
  if b then ret tt else raise AssertionError.

Declare Scope py_scope.
Delimit Scope py_scope with py.
Notation "x <- c ;; k" := (bind c (fun x => k))
  (at level 100, c at next level, right associativity) : py_scope.
Notation "c ;; k" := (bind c (fun _ => k))
  (at level 100, right associativity) : py_scope.
Local Open Scope py_scope.

(** [for x in l: body x]. *)
Fixpoint for_each {S A} (l : list A) (body : A -> M S unit) : M S unit :=
  match l with
  | [] => ret tt
  | x :: l' => body x ;; for_each l' body
  end.

(** [for x in l: acc = body x acc], for a loop that rebinds a local. *)
Fixpoint for_fold {S A B} (l : list A) (acc : B) (body : A -> B -> M S B)
  : M S B :=
  match l with
  | [] => ret acc
  | x :: l' => acc' <- body x acc ;; for_fold l' acc' body
  end.

(** The interpreter's bound on nested calls ([sys.getrecursionlimit()]). *)
Definition recursion_limit : nat := 1000.

(** ** Floats *)

Definition prec : Z := 53.
Definition emax : Z := 1024.
Definition float := spec_float.

Definition fzero : float := S754_zero false.
Definition feqb : float -> float -> bool := SFeqb.
Definition fltb : float -> float -> bool := SFltb.
Definition fleb : float -> float -> bool := SFleb.
Definition fadd : float -> float -> float := SFadd prec emax.
Definition fdiv : float -> float -> float := SFdiv prec emax.

Definition is_finite (x : float) : bool :=
  match x with S754_zero _ | S754_finite _ _ _ => true | _ => false end.

(** The decimal number [(-1)^neg * m * 10^e], rounded to the nearest
    float (ties to even); an overflow gives an infinity. *)
Definition float_of_decimal (neg : bool) (m : Z) (e : Z) : float :=
  match m with
  | Zpos p =>
      if 0 <=? e
      then binary_normalize prec emax (Zpos p * 10 ^ e) 0 neg
      else SFdiv prec emax (S754_finite neg p 0)
                           (S754_finite false (Z.to_pos (10 ^ (- e))) 0)
  | _ => S754_zero neg
  end.

(** [float(n)] for an int [n]. *)
Definition float_of_int (n : Z) : result float :=
  let x := binary_normalize prec emax n 0 false in
  if is_finite x then Ok x else Raise OverflowError.

(** The literals of [ppi_values_counts]. *)
Definition f0_150 : float := Eval vm_compute in float_of_decimal false 150 (-3).
Definition f0_400 : float := Eval vm_compute in float_of_decimal false 400 (-3).
Definition f0_700 : float := Eval vm_compute in float_of_decimal false 700 (-3).
Definition f0_900 : float := Eval vm_compute in float_of_decimal false 900 (-3).
Definition f1_000 : float := Eval vm_compute in float_of_decimal false 1000 (-3).

(** ** Numbers: [int] and [float] *)

Inductive num : Type :=
| NInt (z : Z)
| NFloat (f : float).

Definition to_float (a : num) : result float :=
  match a with
  | NInt z => float_of_int z
  | NFloat f => Ok f
  end.

Definition rbind {A B} (r : result A) (k : A -> result B) : result B :=
  match r with Ok a => k a | Raise e => Raise e end.

(** [a + b]. *)
Definition add (a b : num) : result num :=
  match a, b with
  | NInt x, NInt y => Ok (NInt (x + y))
  | _, _ =>
      rbind (to_float a) (fun fa =>
      rbind (to_float b) (fun fb => Ok (NFloat (fadd fa fb))))
  end.

(** [x / y] for two ints: the quotient rounded once. *)
Definition int_truediv (x y : Z) : result float :=
  match x, y with
  | _, Z0 => Raise ZeroDivisionError
  | Z0, _ => Ok (S754_zero (y <? 0))
  | _, _ =>
      let q := SFdiv prec emax
                 (S754_finite (x <? 0) (Z.to_pos (Z.abs x)) 0)
                 (S754_finite (y <? 0) (Z.to_pos (Z.abs y)) 0) in
      if is_finite q then Ok q else Raise OverflowError
  end.

(** [a / b] (true division). *)
Definition truediv (a b : num) : result num :=
  match a, b with
  | NInt x, NInt y => rbind (int_truediv x y) (fun q => Ok (NFloat q))
  | _, _ =>
      rbind (to_float a) (fun fa =>
      rbind (to_float b) (fun fb =>
        if feqb fb fzero then Raise ZeroDivisionError
        else Ok (NFloat (fdiv fa fb))))
  end.

(** [a > 0]. *)
Definition gt0 (a : num) : bool :=
  match a with
  | NInt z => 0 <? z
  | NFloat f => fltb fzero f
  end.

(** ** [float(s)] for a string [s] *)

Definition is_space (c : ascii) : bool :=
  let n := nat_of_ascii c in
  ((9 <=? n) && (n <=? 13) || (n =? 32))%nat.

Definition is_digit (c : ascii) : bool :=
  let n := nat_of_ascii c in ((48 <=? n) && (n <=? 57))%nat.

Definition digit_val (c : ascii) : Z := Z.of_nat (nat_of_ascii c) - 48.

Definition lower (c : ascii) : ascii :=
  let n := nat_of_ascii c in
  if ((65 <=? n) && (n <=? 90))%nat then ascii_of_nat (n + 32) else c.

Fixpoint lstrip (l : list ascii) : list ascii :=
  match l with
  | c :: l' => if is_space c then lstrip l' else l
  | [] => []
  end.

Definition strip (l : list ascii) : list ascii :=
  rev (lstrip (rev (lstrip l))).

(** A run of digits, single underscores allowed between two digits:
    the value read, the number of digits, and what follows. *)
Fixpoint digitpart (l : list ascii) (acc n : Z) : Z * Z * list ascii :=
  match l with
  | c :: l' =>
      if is_digit c then digitpart l' (10 * acc + digit_val c) (n + 1)
      else if Ascii.eqb c "_" && (0 <? n) then
        match l' with
        | d :: l'' =>
            if is_digit d then digitpart l'' (10 * acc + digit_val d) (n + 1)
            else (acc, n, l)
        | [] => (acc, n, l)
        end
      else (acc, n, l)
  | [] => (acc, n, l)
  end.

Definition read_sign (l : list ascii) : bool * list ascii :=
  match l with
  | "-"%char :: l' => (true, l')
  | "+"%char :: l' => (false, l')
  | _ => (false, l)
  end.

(** [e]/[E], an optional sign and at least one digit; no exponent is 0. *)
Definition read_exponent (l : list ascii) : option Z :=
  match l with
  | [] => Some 0
  | c :: l' =>
      if Ascii.eqb (lower c) "e" then
        let '(neg, l1) := read_sign l' in
        match digitpart l1 0 0 with
        | (v, n, []) => if 0 <? n then Some (if neg then - v else v) else None
        | _ => None
        end
      else None
  end.

Definition read_number (neg : bool) (l : list ascii) : option float :=
  let '(ip, ni, l1) := digitpart l 0 0 in
  let '(fp, nf, l2) :=
    match l1 with
    | "."%char :: l1' => digitpart l1' 0 0
    | _ => (0, 0, l1)
    end in
  if (0 <? ni) || (0 <? nf) then
    match read_exponent l2 with
    | Some e => Some (float_of_decimal neg (ip * 10 ^ nf + fp) (e - nf))
    | None => None
    end
  else None.

Definition float_of_string (s : string) : result float :=
  let '(neg, l) := read_sign (strip (list_ascii_of_string s)) in
  let w := string_of_list_ascii (map lower l) in
  if String.eqb w "inf" || String.eqb w "infinity" then Ok (S754_infinity neg)
  else if String.eqb w "nan" then Ok S754_nan
  else match read_number neg l with
       | Some x => Ok x
       | None => Raise ValueError
       end.

(** ** Insertion-ordered [dict] with string keys *)

Definition dict (V : Type) : Type := list (string * V).

Fixpoint dict_get {V} (d : dict V) (k : string) : option V :=
  match d with
  | [] => None
  | (k', v) :: d' => if String.eqb k' k then Some v else dict_get d' k
  end.

(** [d[k]]. *)
Definition getitem {V} (d : dict V) (k : string) : result V :=
  match dict_get d k with
  | Some v => Ok v
  | None => Raise (KeyError k)
  end.

(** [d[k] = v]: an existing key keeps its position, a new one goes last. *)
Fixpoint setitem {V} (d : dict V) (k : string) (v : V) : dict V :=
  match d with
  | [] => [(k, v)]
  | (k', v') :: d' =>
      if String.eqb k' k then (k', v) :: d' else (k', v') :: setitem d' k v
  end.

Definition keys {V} (d : dict V) : list string := map fst d.
Definition values {V} (d : dict V) : list V := map snd d.

(** [sum(l)] for a list of ints. *)
Definition sum (l : list Z) : Z := fold_left Z.add l 0.

(** ** [collections.Counter] *)

(** [c[k]]: a missing key counts 0. *)
Definition Counter_getitem (c : dict num) (k : string) : num :=
  match dict_get c k with
  | Some v => v
  | None => NInt 0
  end.

(** [_keep_positive]: drops the keys whose count is not [> 0]. *)
Definition _keep_positive (c : dict num) : dict num :=
  filter (fun kv => Is_true (gt0 (snd kv))) c.

(** [self += other]: adds the counts of [other], then keeps only the
    positive counts. *)
Fixpoint Counter_update_add (self other : dict num) : result (dict num) :=
  match other with
  | [] => Ok self
  | (elem, count) :: other' =>
      rbind (add (Counter_getitem self elem) count) (fun v =>
      Counter_update_add (setitem self elem v) other')
  end.

Definition Counter_iadd (self other : dict num) : result (dict num) :=
  rbind (Counter_update_add self other) (fun c => Ok (_keep_positive c)).

(** ** Strings *)

(** [s.startswith(p)]. *)
Definition startswith (s p : string) : bool := String.prefix p s.

(** [s[start:stop]]. *)
Definition slice (s : string) (start stop : Z) : string :=
  let n := Z.of_nat (String.length s) in
  let clamp i := if i <? 0 then Z.max 0 (i + n) else Z.min i n in
  let a := clamp start in
  let b := clamp stop in
  substring (Z.to_nat a) (Z.to_nat (b - a)) s.

End Py.

Import Py.
Local Open Scope py_scope.

(* ================================================================== *)
(** * Rows of a dataset (the objects [arff.load] yields) *)
(* ================================================================== *)

Module Row.

(** The keys of [_data]: every column is stored under its name and
    under its index. *)
Inductive key : Type :=
| KStr (s : string)
| KInt (i : Z).

#[global] Instance key_eq_dec : EqDecision key.
Proof. solve_decision. Defined.

#[global] Instance key_countable : Countable key :=
  inj_countable'
    (fun k => match k with KStr s => inl s | KInt i => inr i end)
    (fun x => match x with inl s => KStr s | inr i => KInt i end)
    (fun k => match k with KStr _ => eq_refl | KInt _ => eq_refl end).

Record t : Type := mk { _data : gmap key string }.

(** [row[name]]. *)
Definition getitem (row : t) (name : string) : result string :=
  match _data row !! KStr name with
  | Some v => Ok v
  | None => Raise (KeyError name)
  end.

(** [{k for k in row._data.keys() if isinstance(k, str)}]. *)
Definition str_keys (row : t) : gset string :=
  set_omap (fun k => match k with KStr s => Some s | KInt _ => None end)
           (dom (_data row)).

(** A row given by its named columns. *)
Definition of_list (l : list (string * string)) : t :=
  mk (list_to_map (map (fun kv => (KStr (fst kv), snd kv)) l)).

End Row.

(* ================================================================== *)
(** * class RowStats *)
(* ================================================================== *)

Module RowStats.

Record t : Type := mk {
  row : Row.t;
  _features_names : gmap string (gset string);
  _values_count : gmap string (dict Z)
}.

Definition __init__ (row : Row.t) : t := mk row ∅ ∅.

Definition set_features_names (k : string) (v : gset string) (self : t) : t :=
  mk (row self) (<[k := v]> (_features_names self)) (_values_count self).

Definition set_values_count (k : string) (v : dict Z) (self : t) : t :=
  mk (row self) (_features_names self) (<[k := v]> (_values_count self)).

(** [m[k]] for one of the two cache dicts. *)
Definition cache_getitem {V} (m : gmap string V) (k : string) : result V :=
  match m !! k with
  | Some v => Ok v
  | None => Raise (KeyError k)
  end.

(** [len(s)]. *)
Definition len (s : gset string) : Z := Z.of_nat (size s).

(** [self.row[name]]. *)
Definition row_getitem (name : string) : M t string :=
  self <- get ;; lift (Row.getitem (row self) name).

Definition all_features_names : M t (gset string) :=
  fn <- gets _features_names ;;
  match fn !! "all" with
  | None =>
      self <- get ;;
      let columns_names := Row.str_keys (row self) in
      modify (set_features_names "all"
                (columns_names ∖ list_to_set ["entrez"; "class"]))
  | Some _ => ret tt
  end ;;
  fn <- gets _features_names ;;
  lift (cache_getitem fn "all").

Definition go_features_names : M t (gset string) :=
  fn <- gets _features_names ;;
  match fn !! "go" with
  | None =>
      names <- all_features_names ;;
      modify (set_features_names "go"
                (filter (fun name => Is_true (startswith name "GO:")) names))
  | Some _ => ret tt
  end ;;
  fn <- gets _features_names ;;
  lift (cache_getitem fn "go").

Definition ppi_features_names : M t (gset string) :=
  fn <- gets _features_names ;;
  match fn !! "ppi" with
  | None =>
      names <- all_features_names ;;
      modify (set_features_names "ppi"
                (filter (fun name => ¬ Is_true (startswith name "GO:")) names))
  | Some _ => ret tt
  end ;;
  fn <- gets _features_names ;;
  lift (cache_getitem fn "ppi").

Definition num_features : M t Z :=
  names <- all_features_names ;; ret (len names).

Definition num_go_features : M t Z :=
  names <- go_features_names ;; ret (len names).

Definition num_ppi_features : M t Z :=
  names <- ppi_features_names ;; ret (len names).

(** [self._values_count[family][key] += 1]. *)
Definition incr (family key : string) : M t unit :=
  vc <- gets _values_count ;;
  d <- lift (cache_getitem vc family) ;;
  v <- lift (getitem d key) ;;
  modify (set_values_count family (setitem d key (v + 1))).

(** The body of the loop of [go_values_counts]. *)
Definition go_values_counts_loop (go_feature_name : string) : M t unit :=
  go_value <- row_getitem go_feature_name ;;
  assert (String.eqb go_value "0" || String.eqb go_value "1") ;;
  incr "go" go_value.

Definition go_values_counts : M t (dict Z) :=
  vc <- gets _values_count ;;
  match vc !! "go" with
  | None =>
      modify (set_values_count "go" [("0", 0); ("1", 0)]) ;;
      names <- go_features_names ;;
      for_each (elements names) go_values_counts_loop
  | Some _ => ret tt
  end ;;
  vc <- gets _values_count ;;
  lift (cache_getitem vc "go").

(** The body of the loop of [ppi_values_counts]. *)
Definition ppi_values_counts_loop (ppi_feature_name : string) : M t unit :=
  v <- row_getitem ppi_feature_name ;;
  ppi_value <- lift (float_of_string v) ;;
  if feqb ppi_value fzero then
    incr "ppi" "0"
  else if fltb fzero ppi_value && fleb ppi_value f0_150 then
    incr "ppi" "001->150"
  else if fltb f0_150 ppi_value && fleb ppi_value f0_400 then
    incr "ppi" "151->400"
  else if fltb f0_400 ppi_value && fleb ppi_value f0_700 then
    incr "ppi" "401->700"
  else if fltb f0_700 ppi_value && fleb ppi_value f0_900 then
    incr "ppi" "701->900"
  else if fltb f0_900 ppi_value && fleb ppi_value f1_000 then
    incr "ppi" "901->1000"
  else
    entrez <- row_getitem "entrez" ;;
    raise (Exception ("Invalid PPI value for " +:+ ppi_feature_name +:+
                      " on instance " +:+ entrez +:+ ".")).

Definition ppi_values_counts : M t (dict Z) :=
  vc <- gets _values_count ;;
  match vc !! "ppi" with
  | None =>
      modify (set_values_count "ppi"
                [("0", 0); ("001->150", 0); ("151->400", 0);
                 ("401->700", 0); ("701->900", 0); ("901->1000", 0)]) ;;
      names <- ppi_features_names ;;
      for_each (elements names) ppi_values_counts_loop
  | Some _ => ret tt
  end ;;
  vc <- gets _values_count ;;
  lift (cache_getitem vc "ppi").

Definition validate : M t unit :=
  nf <- num_features ;;
  ngo <- num_go_features ;;
  nppi <- num_ppi_features ;;
  assert (nf =? ngo + nppi) ;;
  ngo <- num_go_features ;;
  go <- go_values_counts ;;
  assert (ngo =? sum (values go)) ;;
  nppi <- num_ppi_features ;;
  ppi <- ppi_values_counts ;;
  assert (nppi =? sum (values ppi)).

(** [counts[key]], an int of the statistics. *)
Definition count_of (counts : M t (dict Z)) (key : string) : M t num :=
  c <- counts ;; v <- lift (getitem c key) ;; ret (NInt v).

(** [counts[key] / n]. *)
Definition ratio_of (counts : M t (dict Z)) (key : string) (n : M t Z)
  : M t num :=
  a <- count_of counts key ;;
  b <- n ;;
  lift (truediv a (NInt b)).

Definition get_stats : M t (dict num) :=
  s1 <- count_of go_values_counts "0" ;;
  s2 <- count_of go_values_counts "1" ;;
  s3 <- count_of ppi_values_counts "0" ;;
  s4 <- count_of ppi_values_counts "001->150" ;;
  s5 <- count_of ppi_values_counts "151->400" ;;
  s6 <- count_of ppi_values_counts "401->700" ;;
  s7 <- count_of ppi_values_counts "701->900" ;;
  s8 <- count_of ppi_values_counts "901->1000" ;;
  s9 <- ratio_of go_values_counts "0" num_go_features ;;
  s10 <- ratio_of go_values_counts "1" num_go_features ;;
  s11 <- ratio_of ppi_values_counts "0" num_ppi_features ;;
  s12 <- ratio_of ppi_values_counts "001->150" num_ppi_features ;;
  s13 <- ratio_of ppi_values_counts "151->400" num_ppi_features ;;
  s14 <- ratio_of ppi_values_counts "401->700" num_ppi_features ;;
  s15 <- ratio_of ppi_values_counts "701->900" num_ppi_features ;;
  s16 <- ratio_of ppi_values_counts "901->1000" num_ppi_features ;;
  ret [("#GO=0", s1); ("#GO=1", s2); ("#PPI=0", s3);
       ("#PPI=(0;150]", s4); ("#PPI=(150;400]", s5);
       ("#PPI=(400;700]", s6); ("#PPI=(700;900]", s7);
       ("#PPI=(900;1000]", s8);
       ("%GO=0", s9); ("%GO=1", s10); ("%PPI=0", s11);
       ("%PPI=(0;150]", s12); ("%PPI=(150;400]", s13);
       ("%PPI=(400;700]", s14); ("%PPI=(700;900]", s15);
       ("%PPI=(900;1000]", s16)].

End RowStats.

(* ================================================================== *)
(** * class DatasetStats *)
(* ================================================================== *)

Module DatasetStats.

(** An attribute that holds [None] is [None] here.  The [RowStats]
    objects of [_rows_stats] live in the list: a method call on one of
    them updates it in place. *)
Record t : Type := mk {
  dataset : list Row.t;
  _num_positive_instances : option Z;
  _num_negative_instances : option Z;
  _num_features : option Z;
  _num_go_features : option Z;
  _num_ppi_features : option Z;
  _rows_stats : option (list RowStats.t);
  _avg_rows_stats : option (dict num)
}.

Definition __init__ (dataset : list Row.t) : t :=
  mk dataset None None None None None None None.

Definition set_num_positive_instances (v : option Z) (self : t) : t :=
  mk (dataset self) v (_num_negative_instances self) (_num_features self)
     (_num_go_features self) (_num_ppi_features self) (_rows_stats self)
     (_avg_rows_stats self).

Definition set_num_negative_instances (v : option Z) (self : t) : t :=
  mk (dataset self) (_num_positive_instances self) v (_num_features self)
     (_num_go_features self) (_num_ppi_features self) (_rows_stats self)
     (_avg_rows_stats self).

Definition set_num_features (v : option Z) (self : t) : t :=
  mk (dataset self) (_num_positive_instances self)
     (_num_negative_instances self) v
     (_num_go_features self) (_num_ppi_features self) (_rows_stats self)
     (_avg_rows_stats self).

Definition set_num_go_features (v : option Z) (self : t) : t :=
  mk (dataset self) (_num_positive_instances self)
     (_num_negative_instances self) (_num_features self)
     v (_num_ppi_features self) (_rows_stats self) (_avg_rows_stats self).

Definition set_num_ppi_features (v : option Z) (self : t) : t :=
  mk (dataset self) (_num_positive_instances self)
     (_num_negative_instances self) (_num_features self)
     (_num_go_features self) v (_rows_stats self) (_avg_rows_stats self).

Definition set_rows_stats (v : option (list RowStats.t)) (self : t) : t :=
  mk (dataset self) (_num_positive_instances self)
     (_num_negative_instances self) (_num_features self)
     (_num_go_features self) (_num_ppi_features self) v
     (_avg_rows_stats self).

Definition set_avg_rows_stats (v : option (dict num)) (self : t) : t :=
  mk (dataset self) (_num_positive_instances self)
     (_num_negative_instances self) (_num_features self)
     (_num_go_features self) (_num_ppi_features self) (_rows_stats self) v.

(** The value of an attribute where the code needs an int, a list or a
    dict: [None] there is a [TypeError]. *)
Definition attr {A} (f : t -> option A) : M t A :=
  fun self =>
    match f self with
    | Some a => (Ok a, self)
    | None => (Raise TypeError, self)
    end.

(** A method call [self._rows_stats[i].c()]: runs [c] on the [i]-th
    [RowStats] object, which keeps what [c] cached. *)
Definition at_row {A} (i : nat) (c : M RowStats.t A) : M t A :=
  fun self =>
    match _rows_stats self with
    | None => (Raise TypeError, self)
    | Some l =>
        match l !! i with
        | None => (Raise IndexError, self)
        | Some r =>
            let (res, r') := c r in
            (res, set_rows_stats (Some (<[i := r']> l)) self)
        end
    end.

Section Methods.

(** [self._calculate], for the calls the properties make. *)
Variable self_calculate : M t unit.

Definition num_positive_instances' : M t Z :=
  v <- gets _num_positive_instances ;;
  match v with None => self_calculate | Some _ => ret tt end ;;
  attr _num_positive_instances.

Definition num_negative_instances' : M t Z :=
  v <- gets _num_negative_instances ;;
  match v with None => self_calculate | Some _ => ret tt end ;;
  attr _num_negative_instances.

Definition num_instances' : M t Z :=
  p <- num_positive_instances' ;;
  n <- num_negative_instances' ;;
  ret (p + n).

Definition num_features' : M t Z :=
  v <- gets _num_features ;;
  match v with None => self_calculate | Some _ => ret tt end ;;
  attr _num_features.

Definition num_go_features' : M t Z :=
  v <- gets _num_go_features ;;
  match v with None => self_calculate | Some _ => ret tt end ;;
  attr _num_go_features.

Definition num_ppi_features' : M t Z :=
  v <- gets _num_ppi_features ;;
  match v with None => self_calculate | Some _ => ret tt end ;;
  attr _num_ppi_features.

Definition rows_stats' : M t (list RowStats.t) :=
  v <- gets _rows_stats ;;
  match v with None => self_calculate | Some _ => ret tt end ;;
  attr _rows_stats.

(** The body of the loop of [_validate], on the [i]-th [RowStats]. *)
Definition _validate_loop (i : nat) : M t unit :=
  at_row i RowStats.validate ;;
  nf <- gets _num_features ;;
  rnf <- at_row i RowStats.num_features ;;
  assert (bool_decide (nf = Some rnf)) ;;
  ngo <- gets _num_go_features ;;
  rngo <- at_row i RowStats.num_go_features ;;
  assert (bool_decide (ngo = Some rngo)) ;;
  nppi <- gets _num_ppi_features ;;
  rnppi <- at_row i RowStats.num_ppi_features ;;
  assert (bool_decide (nppi = Some rnppi)).

Definition _validate' : M t unit :=
  ni <- num_instances' ;;
  nn <- num_negative_instances' ;;
  np <- num_positive_instances' ;;
  assert (ni =? nn + np) ;;
  rows <- rows_stats' ;;
  for_each (seq 0 (length rows)) _validate_loop.

(** The body of the loop of [_calculate]. *)
Definition _calculate_loop (row : Row.t) : M t unit :=
  c <- lift (Row.getitem row "class") ;;
  (if String.eqb c "0" then
     n <- attr _num_negative_instances ;;
     modify (set_num_negative_instances (Some (n + 1)))
   else
     n <- attr _num_positive_instances ;;
     modify (set_num_positive_instances (Some (n + 1)))) ;;
  l <- attr _rows_stats ;;
  modify (set_rows_stats (Some (l ++ [RowStats.__init__ row])%list)).

Definition _calculate' : M t unit :=
  modify (set_num_positive_instances (Some 0)) ;;
  modify (set_num_negative_instances (Some 0)) ;;
  modify (set_rows_stats (Some [])) ;;
  rows <- gets dataset ;;
  for_each rows _calculate_loop ;;
  nf <- at_row 0 RowStats.num_features ;;
  modify (set_num_features (Some nf)) ;;
  ngo <- at_row 0 RowStats.num_go_features ;;
  modify (set_num_go_features (Some ngo)) ;;
  nppi <- at_row 0 RowStats.num_ppi_features ;;
  modify (set_num_ppi_features (Some nppi)) ;;
  _validate'.

(** The two loops of [avg_rows_stats]. *)
Definition avg_rows_stats_sum (i : nat) (summed_rows_stats : dict num)
  : M t (dict num) :=
  stats <- at_row i RowStats.get_stats ;;
  lift (Counter_iadd summed_rows_stats stats).

Definition avg_rows_stats_div (summed_rows_stats : dict num) (key : string)
  : M t unit :=
  n <- num_instances' ;;
  q <- lift (truediv (Counter_getitem summed_rows_stats key) (NInt n)) ;;
  avg <- attr _avg_rows_stats ;;
  modify (set_avg_rows_stats (Some (setitem avg key q))).

Definition avg_rows_stats' : M t (dict num) :=
  v <- gets _avg_rows_stats ;;
  match v with
  | None =>
      modify (set_avg_rows_stats (Some [])) ;;
      rows <- rows_stats' ;;
      summed_rows_stats <-
        for_fold (seq 0 (length rows)) [] avg_rows_stats_sum ;;
      for_each (keys summed_rows_stats) (avg_rows_stats_div summed_rows_stats)
  | Some _ => ret tt
  end ;;
  attr _avg_rows_stats.

(** [self.avg_rows_stats[key]]. *)
Definition avg_of (key : string) : M t num :=
  avg <- avg_rows_stats' ;; lift (getitem avg key).

Definition get_stats' : M t (dict num) :=
  s1 <- num_instances' ;;
  s2 <- num_positive_instances' ;;
  s3 <- num_negative_instances' ;;
  s4 <- (a <- num_go_features' ;; b <- num_features' ;;
         lift (truediv (NInt a) (NInt b))) ;;
  s5 <- (a <- num_ppi_features' ;; b <- num_features' ;;
         lift (truediv (NInt a) (NInt b))) ;;
  s6 <- avg_of "%GO=0" ;;
  s7 <- avg_of "%GO=1" ;;
  s8 <- avg_of "%PPI=0" ;;
  s9 <- avg_of "%PPI=(0;150]" ;;
  s10 <- avg_of "%PPI=(150;400]" ;;
  s11 <- avg_of "%PPI=(400;700]" ;;
  s12 <- avg_of "%PPI=(700;900]" ;;
  s13 <- avg_of "%PPI=(900;1000]" ;;
  ret [("#Inst", NInt s1); ("#Pos", NInt s2); ("#Neg", NInt s3);
       ("%GO", s4); ("%PPI", s5);
       ("avg%GO=0", s6); ("avg%GO=1", s7); ("avg%PPI=0", s8);
       ("avg%PPI=(0;150]", s9); ("avg%PPI=(150;400]", s10);
       ("avg%PPI=(400;700]", s11); ("avg%PPI=(700;900]", s12);
       ("avg%PPI=(900;1000]", s13)].

End Methods.

(** [_calculate] and the properties call each other; [depth] bounds the
    nesting of these calls, as the interpreter does. *)
Fixpoint _calculate_at (depth : nat) : M t unit :=
  match depth with
  | O => raise RecursionError
  | S d => _calculate' (_calculate_at d)
  end.

Definition _calculate : M t unit := _calculate_at recursion_limit.
Definition _validate : M t unit := _validate' _calculate.
Definition num_positive_instances : M t Z := num_positive_instances' _calculate.
Definition num_negative_instances : M t Z := num_negative_instances' _calculate.
Definition num_instances : M t Z := num_instances' _calculate.
Definition num_features : M t Z := num_features' _calculate.
Definition num_go_features : M t Z := num_go_features' _calculate.
Definition num_ppi_features : M t Z := num_ppi_features' _calculate.
Definition rows_stats : M t (list RowStats.t) := rows_stats' _calculate.
Definition avg_rows_stats : M t (dict num) := avg_rows_stats' _calculate.
Definition get_stats : M t (dict num) := get_stats' _calculate.

End DatasetStats.

(* ================================================================== *)
(** * main: one CSV record per dataset *)
(* ================================================================== *)

Module Main.

(** The values of a report: numbers, and the dataset's name. *)
Inductive val : Type :=
| VNum (n : num)
| VStr (s : string).

(** What [csv.DictWriter] writes: the header, and one record per row
    (the cells as values; their text is left to the [csv] module). *)
Inductive line : Type :=
| Header (fieldnames : list string)
| Record (cells : list val).

(** The standard output, and the two locals of [main]. *)
Record t : Type := mk {
  stdout : list line;
  w : list string;
  print_header : bool
}.

Definition start : t := mk [] [] true.

Definition write (l : line) (p : t) : t :=
  mk (stdout p ++ [l])%list (w p) (print_header p).
Definition set_w (fieldnames : list string) (p : t) : t :=
  mk (stdout p) fieldnames (print_header p).
Definition set_print_header (b : bool) (p : t) : t :=
  mk (stdout p) (w p) b.

(** [w.writeheader()]. *)
Definition writeheader : M t unit :=
  fieldnames <- gets w ;; modify (write (Header fieldnames)).

(** [w.writerow(d)]: a key outside the field names is a [ValueError];
    a missing field is written as the empty string. *)
Definition writerow (d : dict val) : M t unit :=
  fieldnames <- gets w ;;
  if forallb (fun k => existsb (String.eqb k) fieldnames) (keys d) then
    modify (write (Record (map (fun k => match dict_get d k with
                                         | Some v => v
                                         | None => VStr ""
                                         end) fieldnames)))
  else raise ValueError.

(** [DatasetStats(dataset).get_stats()] on a new object. *)
Definition new_dataset_stats (dataset : list Row.t) : M t (dict num) :=
  lift (fst (DatasetStats.get_stats (DatasetStats.__init__ dataset))).

(** The report of one dataset, as [main] hands it to the writer. *)
Definition report (arff_file_path : string) (stats : dict num) : dict val :=
  let dataset_stats := map (fun kv => (fst kv, VNum (snd kv))) stats in
  let dataset_name := slice arff_file_path 10 (-17) in
  setitem dataset_stats "Dataset" (VStr dataset_name).

(** [arff_load] stands for [arff.load] and the files it reads. *)
Definition main (arff_load : string -> result (list Row.t))
  (argv : list string) : M t unit :=
  let arff_files_paths := tail argv in
  modify (set_w []) ;;
  modify (set_print_header true) ;;
  for_each arff_files_paths (fun arff_file_path =>
    dataset <- lift (arff_load arff_file_path) ;;
    stats <- new_dataset_stats dataset ;;
    let dataset_stats := report arff_file_path stats in
    ph <- gets print_header ;;
    (if ph then
       modify (set_w (keys dataset_stats)) ;;
       writeheader ;;
       modify (set_print_header false)
     else ret tt) ;;
    writerow dataset_stats).

End Main.

(* ================================================================== *)
(** * Specification vocabulary *)
(* ================================================================== *)

Module Spec.

#[global] Instance exn_eq_dec : EqDecision exn.
Proof. solve_decision. Defined.

#[global] Instance result_eq_dec {A} `{EqDecision A} : EqDecision (result A).
Proof. solve_decision. Defined.

(** ** The feature names of a row *)

Definition is_go (name : string) : Prop := Is_true (startswith name "GO:").

Definition all_names (row : Row.t) : gset string :=
  Row.str_keys row ∖ list_to_set ["entrez"; "class"].

Definition go_names (row : Row.t) : gset string :=
  filter is_go (all_names row).

Definition ppi_names (row : Row.t) : gset string :=
  filter (fun name => ¬ is_go name) (all_names row).

(** The number of elements of [X] that satisfy [P]. *)
Definition count_where (P : string -> Prop) `{!∀ x, Decision (P x)}
  (X : gset string) : Z :=
  RowStats.len (filter P X).

(** ** What one iteration of the counting loops does *)

(** The key of [go_values_counts] a GO feature goes to. *)
Definition go_class (row : Row.t) (name : string) : result string :=
  rbind (Row.getitem row name) (fun v =>
    if String.eqb v "0" || String.eqb v "1" then Ok v
    else Raise AssertionError).

(** The key of [ppi_values_counts] a parsed PPI value goes to: the
    [if]/[elif] chain of the loop. *)
Definition bucket (x : float) : option string :=
  if feqb x fzero then Some "0"
  else if fltb fzero x && fleb x f0_150 then Some "001->150"
  else if fltb f0_150 x && fleb x f0_400 then Some "151->400"
  else if fltb f0_400 x && fleb x f0_700 then Some "401->700"
  else if fltb f0_700 x && fleb x f0_900 then Some "701->900"
  else if fltb f0_900 x && fleb x f1_000 then Some "901->1000"
  else None.

Definition invalid_ppi (name entrez : string) : exn :=
  Exception ("Invalid PPI value for " +:+ name +:+
             " on instance " +:+ entrez +:+ ".").

Definition ppi_class (row : Row.t) (name : string) : result string :=
  rbind (Row.getitem row name) (fun v =>
  rbind (float_of_string v) (fun x =>
    match bucket x with
    | Some k => Ok k
    | None => rbind (Row.getitem row "entrez") (fun entrez =>
                Raise (invalid_ppi name entrez))
    end)).

(** An iteration that classifies a feature and counts it. *)
Definition classify_step (family : string)
  (cls : Row.t -> string -> result string) (name : string)
  : M RowStats.t unit :=
  fun rs =>
    match cls (RowStats.row rs) name with
    | Ok k => RowStats.incr family k rs
    | Raise e => (Raise e, rs)
    end.

(** The classes of a list of features, up to the first failure. *)
Fixpoint classes (cls : string -> result string) (l : list string)
  : result (list string) :=
  match l with
  | [] => Ok []
  | n :: l' =>
      rbind (cls n) (fun k =>
      rbind (classes cls l') (fun ks => Ok (k :: ks)))
  end.

Definition bump (d : dict Z) (k : string) : dict Z :=
  match dict_get d k with
  | Some v => setitem d k (v + 1)
  | None => d
  end.

Definition tally (d : dict Z) (ks : list string) : dict Z :=
  fold_left bump ks d.

(** The counts before the first iteration. *)
Definition go_zero : dict Z := [("0", 0); ("1", 0)].
Definition ppi_zero : dict Z :=
  [("0", 0); ("001->150", 0); ("151->400", 0);
   ("401->700", 0); ("701->900", 0); ("901->1000", 0)].

Definition go_keys : list string := ["0"; "1"].
Definition ppi_keys : list string :=
  ["0"; "001->150"; "151->400"; "401->700"; "701->900"; "901->1000"].

(** The closed interval test of each bucket, as the loop writes it. *)
Definition in_bucket (k : string) (x : float) : bool :=
  if String.eqb k "0" then feqb x fzero
  else if String.eqb k "001->150" then fltb fzero x && fleb x f0_150
  else if String.eqb k "151->400" then fltb f0_150 x && fleb x f0_400
  else if String.eqb k "401->700" then fltb f0_400 x && fleb x f0_700
  else if String.eqb k "701->900" then fltb f0_700 x && fleb x f0_900
  else if String.eqb k "901->1000" then fltb f0_900 x && fleb x f1_000
  else false.

(** The feature [name] holds the value [v]. *)
Definition has_value (row : Row.t) (v name : string) : Prop :=
  Row.getitem row name = Ok v.

#[global] Instance has_value_dec row v name : Decision (has_value row v name).
Proof. unfold has_value. apply _. Defined.

(** The value of the feature [name], parsed, passes the test of the
    bucket [k]. *)
Definition value_in_bucket (row : Row.t) (k name : string) : bool :=
  match Row.getitem row name with
  | Ok v =>
      match float_of_string v with
      | Ok x => in_bucket k x
      | Raise _ => false
      end
  | Raise _ => false
  end.


(** ** The caches of a [RowStats] *)

(** A cached set of names, when present, is the one the property
    computes. *)
Definition coherent (rs : RowStats.t) : Prop :=
  (∀ X, RowStats._features_names rs !! "all" = Some X →
        X = all_names (RowStats.row rs)) ∧
  (∀ X, RowStats._features_names rs !! "go" = Some X →
        X = go_names (RowStats.row rs)) ∧
  (∀ X, RowStats._features_names rs !! "ppi" = Some X →
        X = ppi_names (RowStats.row rs)).

(** [rs'] is [rs] with possibly more cached. *)
Definition rs_le (rs rs' : RowStats.t) : Prop :=
  RowStats.row rs' = RowStats.row rs ∧
  RowStats._features_names rs ⊆ RowStats._features_names rs' ∧
  RowStats._values_count rs ⊆ RowStats._values_count rs'.

(** The state the name properties leave. *)
Definition with_all (rs : RowStats.t) : RowStats.t :=
  match RowStats._features_names rs !! "all" with
  | Some _ => rs
  | None => RowStats.set_features_names "all" (all_names (RowStats.row rs)) rs
  end.

Definition with_go (rs : RowStats.t) : RowStats.t :=
  match RowStats._features_names rs !! "go" with
  | Some _ => rs
  | None =>
      RowStats.set_features_names "go" (go_names (RowStats.row rs))
        (with_all rs)
  end.

Definition with_ppi (rs : RowStats.t) : RowStats.t :=
  match RowStats._features_names rs !! "ppi" with
  | Some _ => rs
  | None =>
      RowStats.set_features_names "ppi" (ppi_names (RowStats.row rs))
        (with_all rs)
  end.

(** A computation whose successful result is cached: run again on the
    state it left, or on one with more cached, it returns the same
    result and changes nothing. *)
Definition stable {A} (c : M RowStats.t A) : Prop :=
  ∀ s a s', coherent s → c s = (Ok a, s') →
    coherent s' ∧ rs_le s s' ∧
    ∀ s'', coherent s'' → rs_le s' s'' → c s'' = (Ok a, s'').

(** A [RowStats] whose two dictionaries of counts are cached. *)
Definition counted (dg dp : dict Z) (rs : RowStats.t) : Prop :=
  coherent rs ∧
  RowStats._values_count rs !! "go" = Some dg ∧
  RowStats._values_count rs !! "ppi" = Some dp.

(** ** The statistics of a row, stated on its sets of features *)

(** The number of GO features of value [v], of PPI features whose value
    is in the bucket [k]. *)
Definition go_count (row : Row.t) (v : string) : Z :=
  count_where (has_value row v) (go_names row).
Definition ppi_count (row : Row.t) (k : string) : Z :=
  count_where (fun n => Is_true (value_in_bucket row k n)) (ppi_names row).

(** The two dictionaries of counts. *)
Definition go_counts (row : Row.t) : dict Z :=
  map (fun v => (v, go_count row v)) go_keys.
Definition ppi_counts (row : Row.t) : dict Z :=
  map (fun k => (k, ppi_count row k)) ppi_keys.

(** The values of its GO features, of its PPI features, are counted
    without error. *)
Definition valid_go (row : Row.t) : bool :=
  is_ok (classes (go_class row) (elements (go_names row))).
Definition valid_ppi (row : Row.t) : bool :=
  is_ok (classes (ppi_class row) (elements (ppi_names row))).
Definition valid_row (row : Row.t) : bool := valid_go row && valid_ppi row.

(** The sixteen statistics: the eight counts, and the eight counts
    divided by the number of features of their family. *)
Definition row_stats (row : Row.t) : result (dict num) :=
  let ngo := NInt (RowStats.len (go_names row)) in
  let nppi := NInt (RowStats.len (ppi_names row)) in
  let g v := NInt (go_count row v) in
  let p k := NInt (ppi_count row k) in
  rbind (truediv (g "0") ngo) (fun r1 =>
  rbind (truediv (g "1") ngo) (fun r2 =>
  rbind (truediv (p "0") nppi) (fun r3 =>
  rbind (truediv (p "001->150") nppi) (fun r4 =>
  rbind (truediv (p "151->400") nppi) (fun r5 =>
  rbind (truediv (p "401->700") nppi) (fun r6 =>
  rbind (truediv (p "701->900") nppi) (fun r7 =>
  rbind (truediv (p "901->1000") nppi) (fun r8 =>
  Ok [("#GO=0", g "0"); ("#GO=1", g "1"); ("#PPI=0", p "0");
      ("#PPI=(0;150]", p "001->150"); ("#PPI=(150;400]", p "151->400");
      ("#PPI=(400;700]", p "401->700"); ("#PPI=(700;900]", p "701->900");
      ("#PPI=(900;1000]", p "901->1000");
      ("%GO=0", r1); ("%GO=1", r2); ("%PPI=0", r3);
      ("%PPI=(0;150]", r4); ("%PPI=(150;400]", r5);
      ("%PPI=(400;700]", r6); ("%PPI=(700;900]", r7);
      ("%PPI=(900;1000]", r8)])))))))).

(** The sum of the statistics of the rows, as the first loop of
    [avg_rows_stats] adds them to its [Counter]. *)
Definition summed_rows_stats (dataset : list Row.t) : result (dict num) :=
  fold_left (fun summed row =>
               rbind summed (fun acc =>
               rbind (row_stats row) (fun stats => Counter_iadd acc stats)))
            dataset (Ok []).

(** The sums divided by the number of instances, as its second loop
    fills [_avg_rows_stats]. *)
Definition averaged (summed : dict num) (n : Z) : result (dict num) :=
  fold_left (fun avg key =>
               rbind avg (fun d =>
               rbind (truediv (Counter_getitem summed key) (NInt n)) (fun q =>
               Ok (setitem d key q))))
            (keys summed) (Ok []).

(** A cached dictionary of counts, when present, holds the counts of
    the row. *)
Definition counts_right (rs : RowStats.t) : Prop :=
  (∀ d, RowStats._values_count rs !! "go" = Some d →
        valid_go (RowStats.row rs) = true ∧ d = go_counts (RowStats.row rs)) ∧
  (∀ d, RowStats._values_count rs !! "ppi" = Some d →
        valid_ppi (RowStats.row rs) = true ∧ d = ppi_counts (RowStats.row rs)).

(** The states of a [RowStats] no method has raised on. *)
Definition sound (rs : RowStats.t) : Prop := coherent rs ∧ counts_right rs.

(** A property kept by a computation that returns. *)
Definition keeps {S A} (P : S -> Prop) (c : M S A) : Prop :=
  ∀ s a s', P s → c s = (Ok a, s') → P s'.

(** A property kept by a computation, whatever its outcome. *)
Definition pres {S A} (P : S -> Prop) (c : M S A) : Prop :=
  ∀ s r s', P s → c s = (r, s') → P s'.

(** ** Datasets *)

(** The class of a row is "0"; it is something else. *)
Definition is_negative (row : Row.t) : Prop := Row.getitem row "class" = Ok "0".
Definition is_positive (row : Row.t) : Prop :=
  ∃ c, Row.getitem row "class" = Ok c ∧ c ≠ "0".

#[global] Instance is_negative_dec row : Decision (is_negative row).
Proof. unfold is_negative. apply _. Defined.

#[global] Instance is_positive_dec row : Decision (is_positive row).
Proof.
  unfold is_positive. destruct (Row.getitem row "class") as [c|e].
  - destruct (decide (c = "0")) as [->|Hne].
    + right. intros (c & [= <-] & H). done.
    + left. eauto.
  - right. intros (c & H & _). discriminate H.
Defined.

Definition has_class (row : Row.t) : Prop :=
  ∃ c, Row.getitem row "class" = Ok c.

Definition count_negative (dataset : list Row.t) : Z :=
  Z.of_nat (length (filter is_negative dataset)).
Definition count_positive (dataset : list Row.t) : Z :=
  Z.of_nat (length (filter is_positive dataset)).

(** The three feature counts of a row. *)
Definition feature_counts (row : Row.t) : Z * Z * Z :=
  (RowStats.len (all_names row), RowStats.len (go_names row),
   RowStats.len (ppi_names row)).

(** The report of a dataset whose first row is [row0]: the counts of
    the instances, the shares of the GO and PPI features among the
    features of [row0], and the eight averaged percentages. *)
Definition dataset_stats (dataset : list Row.t) (row0 : Row.t)
  : result (dict num) :=
  let p := count_positive dataset in
  let n := count_negative dataset in
  let nf := NInt (RowStats.len (all_names row0)) in
  rbind (truediv (NInt (RowStats.len (go_names row0))) nf) (fun s4 =>
  rbind (truediv (NInt (RowStats.len (ppi_names row0))) nf) (fun s5 =>
  rbind (rbind (summed_rows_stats dataset)
               (fun summed => averaged summed (p + n))) (fun avg =>
  rbind (getitem avg "%GO=0") (fun s6 =>
  rbind (getitem avg "%GO=1") (fun s7 =>
  rbind (getitem avg "%PPI=0") (fun s8 =>
  rbind (getitem avg "%PPI=(0;150]") (fun s9 =>
  rbind (getitem avg "%PPI=(150;400]") (fun s10 =>
  rbind (getitem avg "%PPI=(400;700]") (fun s11 =>
  rbind (getitem avg "%PPI=(700;900]") (fun s12 =>
  rbind (getitem avg "%PPI=(900;1000]") (fun s13 =>
  Ok [("#Inst", NInt (p + n)); ("#Pos", NInt p); ("#Neg", NInt n);
      ("%GO", s4); ("%PPI", s5);
      ("avg%GO=0", s6); ("avg%GO=1", s7); ("avg%PPI=0", s8);
      ("avg%PPI=(0;150]", s9); ("avg%PPI=(150;400]", s10);
      ("avg%PPI=(400;700]", s11); ("avg%PPI=(700;900]", s12);
      ("avg%PPI=(900;1000]", s13)]))))))))))).

(** The attributes [_calculate] sets are set. *)
Definition calculated (s : DatasetStats.t) : Prop :=
  is_Some (DatasetStats._num_positive_instances s) ∧
  is_Some (DatasetStats._num_negative_instances s) ∧
  is_Some (DatasetStats._num_features s) ∧
  is_Some (DatasetStats._num_go_features s) ∧
  is_Some (DatasetStats._num_ppi_features s) ∧
  is_Some (DatasetStats._rows_stats s).

(** None of them is. *)
Definition uncalculated (s : DatasetStats.t) : Prop :=
  DatasetStats._num_positive_instances s = None ∧
  DatasetStats._num_negative_instances s = None ∧
  DatasetStats._num_features s = None ∧
  DatasetStats._num_go_features s = None ∧
  DatasetStats._num_ppi_features s = None ∧
  DatasetStats._rows_stats s = None.

(** The [RowStats] objects of a [DatasetStats] are those of its rows,
    with coherent caches. *)
Definition rows_inv (dataset : list Row.t) (l : list RowStats.t) : Prop :=
  Forall2 (fun row rs => RowStats.row rs = row ∧ coherent rs) dataset l.

Definition rows_ok (s : DatasetStats.t) : Prop :=
  ∀ l, DatasetStats._rows_stats s = Some l →
    rows_inv (DatasetStats.dataset s) l.

(** The same, with sound [RowStats] objects. *)
Definition rows_sound (dataset : list Row.t) (l : list RowStats.t) : Prop :=
  Forall2 (fun row rs => RowStats.row rs = row ∧ sound rs) dataset l.

(** Two states that differ at most in their [RowStats] objects. *)
Definition same_but_rows (s s' : DatasetStats.t) : Prop :=
  DatasetStats.dataset s' = DatasetStats.dataset s ∧
  DatasetStats._num_positive_instances s'
    = DatasetStats._num_positive_instances s ∧
  DatasetStats._num_negative_instances s'
    = DatasetStats._num_negative_instances s ∧
  DatasetStats._num_features s' = DatasetStats._num_features s ∧
  DatasetStats._num_go_features s' = DatasetStats._num_go_features s ∧
  DatasetStats._num_ppi_features s' = DatasetStats._num_ppi_features s ∧
  DatasetStats._avg_rows_stats s' = DatasetStats._avg_rows_stats s.

(** The states of a [DatasetStats] between two method calls. *)
Definition ds_inv (s : DatasetStats.t) : Prop :=
  (uncalculated s ∨ calculated s) ∧ rows_ok s.

(** [s'] is [s] with possibly more computed and cached, the averages
    left aside. *)
Definition ds_le_fields (s s' : DatasetStats.t) : Prop :=
  DatasetStats.dataset s' = DatasetStats.dataset s ∧
  (∀ v, DatasetStats._num_positive_instances s = Some v →
        DatasetStats._num_positive_instances s' = Some v) ∧
  (∀ v, DatasetStats._num_negative_instances s = Some v →
        DatasetStats._num_negative_instances s' = Some v) ∧
  (∀ v, DatasetStats._num_features s = Some v →
        DatasetStats._num_features s' = Some v) ∧
  (∀ v, DatasetStats._num_go_features s = Some v →
        DatasetStats._num_go_features s' = Some v) ∧
  (∀ v, DatasetStats._num_ppi_features s = Some v →
        DatasetStats._num_ppi_features s' = Some v) ∧
  (∀ l, DatasetStats._rows_stats s = Some l →
        ∃ l', DatasetStats._rows_stats s' = Some l' ∧ Forall2 rs_le l l').

(** The same, and the averages once cached stay. *)
Definition ds_le (s s' : DatasetStats.t) : Prop :=
  ds_le_fields s s' ∧
  (∀ d, DatasetStats._avg_rows_stats s = Some d →
        DatasetStats._avg_rows_stats s' = Some d).

(** A computation that only computes and caches more. *)
Definition ds_mono {A} (c : M DatasetStats.t A) : Prop :=
  ∀ s a s', ds_inv s → c s = (Ok a, s') → ds_inv s' ∧ ds_le_fields s s'.

(** The analogue of [stable] for the methods of [DatasetStats]. *)
Definition ds_stable {A} (c : M DatasetStats.t A) : Prop :=
  ∀ s a s', ds_inv s → c s = (Ok a, s') →
    ds_inv s' ∧ ds_le s s' ∧
    ∀ s'', ds_inv s'' → ds_le s' s'' → c s'' = (Ok a, s'').

(** What a successful [_calculate] guarantees of what it is given. *)
Definition calculates (calc : M DatasetStats.t unit) : Prop :=
  ∀ s s', calc s = (Ok tt, s') →
    DatasetStats.dataset s' = DatasetStats.dataset s ∧
    DatasetStats._avg_rows_stats s' = DatasetStats._avg_rows_stats s ∧
    calculated s' ∧ rows_ok s'.

End Spec.
Import Spec.

(* ================================================================== *)
(** * Sample rows and datasets *)
(* ================================================================== *)

Module Examples.

(** Two GO features, two PPI features. *)
Definition row_2_2 (class : string) : Row.t :=
  Row.of_list [("entrez", "7157"); ("class", class);
               ("GO:1", "0"); ("GO:2", "1");
               ("ppi1", "0.0"); ("ppi2", "0.5")].

Definition dataset_3 : list Row.t := [row_2_2 "0"; row_2_2 "1"; row_2_2 "1"].

(** Two GO features, and one PPI feature in each bucket. *)
Definition row_2_6 (class : string) : Row.t :=
  Row.of_list [("entrez", "7157"); ("class", class);
               ("GO:1", "0"); ("GO:2", "1");
               ("p0", "0.0"); ("p1", "0.1"); ("p2", "0.3");
               ("p3", "0.5"); ("p4", "0.8"); ("p5", "0.95")].

Definition dataset_full : list Row.t :=
  [row_2_6 "0"; row_2_6 "1"; row_2_6 "1"].


(** A row with a single GO feature, of value [v]. *)
Definition one_go (v : string) : Row.t :=
  Row.of_list [("entrez", "7157"); ("class", "1"); ("GO:1", v)].

(** Three GO features where [row_2_2] has two. *)
Definition row_3_2 (class : string) : Row.t :=
  Row.of_list [("entrez", "672"); ("class", class);
               ("GO:1", "0"); ("GO:2", "1"); ("GO:3", "1");
               ("ppi1", "0.0"); ("ppi2", "0.5")].


Definition path : string := "data/arff/example.go-ppi.arff.txt".

(** The statistics of a row of [dataset_full]. *)
Definition stats_row_2_6 : dict num :=
  Eval vm_compute in
    match fst (RowStats.get_stats (RowStats.__init__ (row_2_6 "1")))
    with Ok stats => stats | Raise _ => [] end.

(** The statistics of [dataset_full]. *)
Definition stats_full : dict num :=
  Eval vm_compute in
    match fst (DatasetStats.get_stats (DatasetStats.__init__ dataset_full))
    with Ok stats => stats | Raise _ => [] end.

End Examples.
(* ================================================================== *)
(** * The monad *)
(* ================================================================== *)

Section Monad.
Context {S : Type}.

Lemma bind_inv {A B} (c : M S A) (k : A -> M S B) s r s' :
  bind c k s = (r, s') →
  (∃ e, c s = (Raise e, s') ∧ r = Raise e) ∨
  (∃ a s1, c s = (Ok a, s1) ∧ k a s1 = (r, s')).
Proof.
  unfold bind. destruct (c s) as [[a|e] s1]; intros H.
  - right. eauto.
  - left. injection H as <- <-. eauto.
Qed.

Lemma bind_ok_inv {A B} (c : M S A) (k : A -> M S B) s b s' :
  bind c k s = (Ok b, s') →
  ∃ a s1, c s = (Ok a, s1) ∧ k a s1 = (Ok b, s').
Proof.
  intros H. apply bind_inv in H as [(e & _ & He)|H]; [discriminate He|exact H].
Qed.

Lemma bind_ok {A B} (c : M S A) (k : A -> M S B) s a s1 :
  c s = (Ok a, s1) → bind c k s = k a s1.
Proof. unfold bind. by intros ->. Qed.

Lemma bind_raise {A B} (c : M S A) (k : A -> M S B) s e s1 :
  c s = (Raise e, s1) → bind c k s = (Raise e, s1).
Proof. unfold bind. by intros ->. Qed.

Lemma assert_ok_inv (b : bool) (s s' : S) u :
  assert b s = (Ok u, s') → b = true ∧ s' = s.
Proof. destruct b; cbn; intros H; by inversion H. Qed.

Lemma for_each_app {A} (l1 l2 : list A) (body : A -> M S unit) :
  ∀ s, for_each (l1 ++ l2) body s
       = bind (for_each l1 body) (fun _ => for_each l2 body) s.
Proof.
  induction l1 as [|x l1 IH]; intros s; cbn.
  - done.
  - unfold bind. destruct (body x s) as [[u|e] s1]; [|done].
    rewrite IH. done.
Qed.

(** ** Properties kept whatever the outcome *)

Lemma pres_ret {A} P (a : A) : pres P (ret (S:=S) a).
Proof. intros s r s' HP H. by inversion H; subst. Qed.

Lemma pres_raise {A} P e : pres P (raise (S:=S) (A:=A) e).
Proof. intros s r s' HP H. by inversion H; subst. Qed.

Lemma pres_lift {A} P (x : result A) : pres P (lift (S:=S) x).
Proof. intros s r s' HP H. by inversion H; subst. Qed.

Lemma pres_gets {A} P (f : S -> A) : pres P (gets f).
Proof. intros s r s' HP H. by inversion H; subst. Qed.

Lemma pres_get P : pres P (get (S:=S)).
Proof. intros s r s' HP H. by inversion H; subst. Qed.

Lemma pres_assert P b : pres P (assert (S:=S) b).
Proof. destruct b; [apply pres_ret|apply pres_raise]. Qed.

Lemma pres_modify P (f : S -> S) : (∀ s, P s → P (f s)) → pres P (modify f).
Proof. intros Hf s r s' HP H. inversion H; subst. auto. Qed.

Lemma pres_bind {A B} P (c : M S A) (k : A -> M S B) :
  pres P c → (∀ a, pres P (k a)) → pres P (bind c k).
Proof.
  intros Hc Hk s r s' HP H.
  apply bind_inv in H as [(e & H & _)|(a & s1 & H1 & H2)].
  - eapply Hc; eauto.
  - eapply Hk; [|exact H2]. eapply Hc; eauto.
Qed.

Lemma pres_for_each {A} P (l : list A) (body : A -> M S unit) :
  (∀ x, pres P (body x)) → pres P (for_each l body).
Proof.
  intros Hb. induction l as [|x l IH]; cbn.
  - apply pres_ret.
  - apply pres_bind; auto.
Qed.

Lemma pres_for_fold {A B} P (l : list A) (body : A -> B -> M S B) :
  (∀ x acc, pres P (body x acc)) → ∀ acc, pres P (for_fold l acc body).
Proof.
  intros Hb. induction l as [|x l IH]; intros acc; cbn.
  - apply pres_ret.
  - apply pres_bind; auto.
Qed.

End Monad.

Create HintDb pres.
#[local] Hint Resolve pres_ret pres_raise pres_lift pres_gets pres_get
  pres_assert : pres.

(** Splits a successful run of a sequence into the runs of its parts. *)
Ltac ok_inv H :=
  repeat match type of H with
  | bind _ _ _ = (Ok _, _) =>
      let a := fresh "a" in let s := fresh "s" in
      let H1 := fresh "H" in
      apply bind_ok_inv in H as (a & s & H1 & H)
  end.

(* ================================================================== *)
(** * Rows and their feature names *)
(* ================================================================== *)

Lemma elem_of_str_keys row name :
  name ∈ Row.str_keys row ↔ is_Some (Row._data row !! Row.KStr name).
Proof.
  unfold Row.str_keys. rewrite elem_of_set_omap. split.
  - intros (k & Hk & Hf). destruct k as [s|i]; [|discriminate].
    injection Hf as ->. by apply elem_of_dom.
  - intros H. exists (Row.KStr name). split; [by apply elem_of_dom|done].
Qed.

Lemma elem_of_all_names row name :
  name ∈ all_names row ↔
  is_Some (Row._data row !! Row.KStr name) ∧ name ≠ "entrez" ∧ name ≠ "class".
Proof.
  unfold all_names. rewrite elem_of_difference, elem_of_str_keys.
  rewrite elem_of_list_to_set. rewrite !elem_of_cons, elem_of_nil. tauto.
Qed.

Lemma getitem_is_Some row name :
  is_Some (Row._data row !! Row.KStr name) → ∃ v, Row.getitem row name = Ok v.
Proof. intros [v Hv]. exists v. unfold Row.getitem. by rewrite Hv. Qed.

Lemma getitem_all_names row name :
  name ∈ all_names row → ∃ v, Row.getitem row name = Ok v.
Proof. rewrite elem_of_all_names. intros [H _]. by apply getitem_is_Some. Qed.

Lemma go_names_subseteq row : go_names row ⊆ all_names row.
Proof. unfold go_names. intros x. rewrite elem_of_filter. tauto. Qed.


(** The GO names and the PPI names split the names of a row. *)
Lemma len_all_names row :
  RowStats.len (all_names row)
  = RowStats.len (go_names row) + RowStats.len (ppi_names row).
Proof.
  unfold RowStats.len, go_names, ppi_names.
  rewrite <- Nat2Z.inj_add. f_equal.
  rewrite <- size_union by apply disjoint_filter_complement.
  f_equal. symmetry. apply leibniz_equiv, filter_union_complement.
Qed.

Lemma len_nonneg X : 0 <= RowStats.len X.
Proof. unfold RowStats.len. lia. Qed.

Lemma len_zero X : RowStats.len X = 0 ↔ X = ∅.
Proof.
  unfold RowStats.len. split.
  - intros H. apply leibniz_equiv, size_empty_iff. lia.
  - intros ->. by rewrite size_empty.
Qed.

(** Counting in a set and along its enumeration agree. *)
Lemma length_filter_elements (P : string -> Prop) `{!∀ x, Decision (P x)}
  (X : gset string) :
  length (filter P (elements X)) = size (filter P X).
Proof.
  unfold size, set_size. cbn. apply Permutation_length.
  apply NoDup_Permutation.
  - apply NoDup_filter, NoDup_elements.
  - apply NoDup_elements.
  - intros x. rewrite list_elem_of_filter, !elem_of_elements, elem_of_filter.
    tauto.
Qed.

(* ================================================================== *)
(** * RowStats: the cached sets of names *)
(* ================================================================== *)

Lemma rs_le_refl rs : rs_le rs rs.
Proof. by repeat split. Qed.

Lemma rs_le_trans a b c : rs_le a b → rs_le b c → rs_le a c.
Proof.
  intros (H1 & H2 & H3) (H4 & H5 & H6). repeat split.
  - congruence.
  - by transitivity (RowStats._features_names b).
  - by transitivity (RowStats._values_count b).
Qed.

Lemma coherent_init row : coherent (RowStats.__init__ row).
Proof. repeat split; intros X H; cbn in H; by rewrite lookup_empty in H. Qed.

Lemma set_features_names_id k X rs :
  RowStats._features_names rs !! k = Some X →
  RowStats.set_features_names k X rs = rs.
Proof.
  intros H. destruct rs as [r fn vc]; cbn in *.
  unfold RowStats.set_features_names; cbn. by rewrite insert_id.
Qed.

Lemma set_values_count_id k d rs :
  RowStats._values_count rs !! k = Some d →
  RowStats.set_values_count k d rs = rs.
Proof.
  intros H. destruct rs as [r fn vc]; cbn in *.
  unfold RowStats.set_values_count; cbn. by rewrite insert_id.
Qed.

Lemma with_all_facts rs :
  coherent rs →
  RowStats.row (with_all rs) = RowStats.row rs ∧
  RowStats._values_count (with_all rs) = RowStats._values_count rs ∧
  RowStats._features_names (with_all rs) !! "all"
    = Some (all_names (RowStats.row rs)) ∧
  (∀ k, k ≠ "all" → RowStats._features_names (with_all rs) !! k
                    = RowStats._features_names rs !! k) ∧
  coherent (with_all rs) ∧ rs_le rs (with_all rs).
Proof.
  intros Hc. unfold with_all.
  destruct (RowStats._features_names rs !! "all") as [X|] eqn:E.
  - split; [done|]. split; [done|]. split; [|split; [done|]].
    + rewrite E. f_equal. by apply Hc.
    + split; [done|apply rs_le_refl].
  - destruct Hc as (H1 & H2 & H3). cbn.
    split; [done|]. split; [done|]. split; [by rewrite lookup_insert_eq|].
    split; [intros k Hk; by rewrite lookup_insert_ne|]. split.
    + split; [|split]; intros X; cbn.
      * rewrite lookup_insert_eq. rewrite ?Hr. congruence.
      * rewrite lookup_insert_ne by done. rewrite ?Hr. apply H2.
      * rewrite lookup_insert_ne by done. rewrite ?Hr. apply H3.
    + split; [done|]. split; [|done]. cbn. by apply insert_subseteq.
Qed.

Lemma all_features_names_run rs :
  coherent rs →
  RowStats.all_features_names rs = (Ok (all_names (RowStats.row rs)), with_all rs).
Proof.
  intros Hc. unfold RowStats.all_features_names, with_all, bind, gets, get,
    modify, lift, ret, RowStats.cache_getitem.
  destruct (RowStats._features_names rs !! "all") as [X|] eqn:E; cbn.
  - rewrite E. f_equal. f_equal. by apply Hc.
  - by rewrite lookup_insert_eq.
Qed.

Lemma with_go_facts rs :
  coherent rs →
  RowStats.row (with_go rs) = RowStats.row rs ∧
  RowStats._values_count (with_go rs) = RowStats._values_count rs ∧
  RowStats._features_names (with_go rs) !! "go"
    = Some (go_names (RowStats.row rs)) ∧
  coherent (with_go rs) ∧ rs_le rs (with_go rs).
Proof.
  intros Hc. unfold with_go.
  destruct (RowStats._features_names rs !! "go") as [X|] eqn:E.
  - split; [done|]. split; [done|]. split.
    + rewrite E. f_equal. by apply Hc.
    + split; [done|apply rs_le_refl].
  - destruct (with_all_facts rs Hc) as (Hr & Hv & Ha & Hk & Hc' & Hle).
    destruct Hc' as (H1 & H2 & H3). rewrite Hr in H1, H2, H3. cbn.
    split; [done|]. split; [done|]. split; [by rewrite lookup_insert_eq|].
    split.
    + split; [|split]; intros X; cbn.
      * rewrite lookup_insert_ne by done. rewrite ?Hr. apply H1.
      * rewrite lookup_insert_eq. rewrite ?Hr. congruence.
      * rewrite lookup_insert_ne by done. rewrite ?Hr. apply H3.
    + eapply rs_le_trans; [apply Hle|].
      split; [done|]. split; [|done]. cbn. apply insert_subseteq.
      rewrite Hk by done. done.
Qed.

Lemma go_features_names_run rs :
  coherent rs →
  RowStats.go_features_names rs = (Ok (go_names (RowStats.row rs)), with_go rs).
Proof.
  intros Hc. unfold RowStats.go_features_names, with_go.
  unfold bind at 1. unfold gets at 1.
  destruct (RowStats._features_names rs !! "go") as [X|] eqn:E.
  - unfold bind, gets, lift, ret, RowStats.cache_getitem. cbn.
    rewrite E. f_equal. f_equal. by apply Hc.
  - unfold bind at 1. unfold bind at 1.
    rewrite (all_features_names_run rs Hc).
    unfold bind, gets, modify, lift, RowStats.cache_getitem. cbn.
    by rewrite lookup_insert_eq.
Qed.

Lemma with_ppi_facts rs :
  coherent rs →
  RowStats.row (with_ppi rs) = RowStats.row rs ∧
  RowStats._values_count (with_ppi rs) = RowStats._values_count rs ∧
  RowStats._features_names (with_ppi rs) !! "ppi"
    = Some (ppi_names (RowStats.row rs)) ∧
  coherent (with_ppi rs) ∧ rs_le rs (with_ppi rs).
Proof.
  intros Hc. unfold with_ppi.
  destruct (RowStats._features_names rs !! "ppi") as [X|] eqn:E.
  - split; [done|]. split; [done|]. split.
    + rewrite E. f_equal. by apply Hc.
    + split; [done|apply rs_le_refl].
  - destruct (with_all_facts rs Hc) as (Hr & Hv & Ha & Hk & Hc' & Hle).
    destruct Hc' as (H1 & H2 & H3). rewrite Hr in H1, H2, H3. cbn.
    split; [done|]. split; [done|]. split; [by rewrite lookup_insert_eq|].
    split.
    + split; [|split]; intros X; cbn.
      * rewrite lookup_insert_ne by done. rewrite ?Hr. apply H1.
      * rewrite lookup_insert_ne by done. rewrite ?Hr. apply H2.
      * rewrite lookup_insert_eq. rewrite ?Hr. congruence.
    + eapply rs_le_trans; [apply Hle|].
      split; [done|]. split; [|done]. cbn. apply insert_subseteq.
      rewrite Hk by done. done.
Qed.

Lemma ppi_features_names_run rs :
  coherent rs →
  RowStats.ppi_features_names rs
  = (Ok (ppi_names (RowStats.row rs)), with_ppi rs).
Proof.
  intros Hc. unfold RowStats.ppi_features_names, with_ppi.
  unfold bind at 1. unfold gets at 1.
  destruct (RowStats._features_names rs !! "ppi") as [X|] eqn:E.
  - unfold bind, gets, lift, ret, RowStats.cache_getitem. cbn.
    rewrite E. f_equal. f_equal. by apply Hc.
  - unfold bind at 1. unfold bind at 1.
    rewrite (all_features_names_run rs Hc).
    unfold bind, gets, modify, lift, RowStats.cache_getitem. cbn.
    by rewrite lookup_insert_eq.
Qed.

Lemma num_features_run rs :
  coherent rs →
  RowStats.num_features rs
  = (Ok (RowStats.len (all_names (RowStats.row rs))), with_all rs).
Proof.
  intros Hc. unfold RowStats.num_features.
  by rewrite (bind_ok _ _ _ _ _ (all_features_names_run rs Hc)).
Qed.

Lemma num_go_features_run rs :
  coherent rs →
  RowStats.num_go_features rs
  = (Ok (RowStats.len (go_names (RowStats.row rs))), with_go rs).
Proof.
  intros Hc. unfold RowStats.num_go_features.
  by rewrite (bind_ok _ _ _ _ _ (go_features_names_run rs Hc)).
Qed.

Lemma num_ppi_features_run rs :
  coherent rs →
  RowStats.num_ppi_features rs
  = (Ok (RowStats.len (ppi_names (RowStats.row rs))), with_ppi rs).
Proof.
  intros Hc. unfold RowStats.num_ppi_features.
  by rewrite (bind_ok _ _ _ _ _ (ppi_features_names_run rs Hc)).
Qed.

(* ================================================================== *)
(** * Dicts *)
(* ================================================================== *)

Lemma string_eqb_eq a b : String.eqb a b = true ↔ a = b.
Proof. apply String.eqb_eq. Qed.

Lemma dict_get_Some_keys {V} (d : dict V) k :
  is_Some (dict_get d k) ↔ k ∈ keys d.
Proof.
  induction d as [|[k' v] d IH]; cbn.
  - split; [intros [? ?]; discriminate|intros H; by apply elem_of_nil in H].
  - rewrite elem_of_cons. destruct (String.eqb k' k) eqn:E.
    + apply String.eqb_eq in E as ->. split; eauto.
    + apply String.eqb_neq in E. rewrite IH. split; [tauto|].
      intros [->|H]; [done|exact H].
Qed.

Lemma getitem_Some {V} (d : dict V) k v :
  dict_get d k = Some v → getitem d k = Ok v.
Proof. unfold getitem. by intros ->. Qed.

Lemma getitem_Ok {V} (d : dict V) k v :
  getitem d k = Ok v → dict_get d k = Some v.
Proof. unfold getitem. destruct (dict_get d k); intros H; by inversion H. Qed.

Lemma dict_get_setitem {V} (d : dict V) k v k' :
  dict_get (setitem d k v) k'
  = if String.eqb k k' then Some v else dict_get d k'.
Proof.
  induction d as [|[k0 v0] d IH]; cbn.
  - destruct (String.eqb k k'); done.
  - destruct (String.eqb k0 k) eqn:E; cbn.
    + apply String.eqb_eq in E as ->. destruct (String.eqb k k'); done.
    + rewrite IH. destruct (String.eqb k k') eqn:E2; [|done].
      apply String.eqb_eq in E2 as ->. by rewrite E.
Qed.

Lemma keys_setitem {V} (d : dict V) k v :
  k ∈ keys d → keys (setitem d k v) = keys d.
Proof.
  induction d as [|[k0 v0] d IH]; cbn.
  - intros H. by apply elem_of_nil in H.
  - rewrite elem_of_cons. intros H.
    destruct (String.eqb k0 k) eqn:E; cbn; [done|].
    apply String.eqb_neq in E. f_equal. apply IH.
    destruct H as [->|H]; done.
Qed.

Lemma fold_left_add_acc l : ∀ a, fold_left Z.add l a = a + fold_left Z.add l 0.
Proof.
  induction l as [|y l IH]; intros a; cbn; [lia|].
  rewrite (IH (a + y)), (IH (0 + y)). lia.
Qed.

Lemma sum_cons x l : sum (x :: l) = x + sum l.
Proof. unfold sum. cbn. apply fold_left_add_acc. Qed.

Lemma values_cons {V} k (v : V) d : values ((k, v) :: d) = v :: values d.
Proof. done. Qed.

Lemma sum_values_setitem (d : dict Z) k v w :
  dict_get d k = Some v →
  sum (values (setitem d k w)) = sum (values d) + (w - v).
Proof.
  induction d as [|[k0 v0] d IH]; cbn [dict_get setitem]; [done|].
  destruct (String.eqb k0 k) eqn:E.
  - intros [= ->]. rewrite !values_cons, !sum_cons. lia.
  - intros H. rewrite !values_cons, !sum_cons, IH by done. lia.
Qed.

(** ** Tallies *)

Lemma keys_bump d k : keys (bump d k) = keys d.
Proof.
  unfold bump. destruct (dict_get d k) eqn:E; [|done].
  apply keys_setitem, dict_get_Some_keys. by rewrite E.
Qed.

Lemma keys_tally ks : ∀ d, keys (tally d ks) = keys d.
Proof.
  unfold tally. induction ks as [|k ks IH]; intros d; cbn [fold_left]; [done|].
  by rewrite IH, keys_bump.
Qed.

Lemma sum_tally ks : ∀ d,
  Forall (fun k => k ∈ keys d) ks →
  sum (values (tally d ks)) = sum (values d) + Z.of_nat (length ks).
Proof.
  unfold tally. induction ks as [|k ks IH]; intros d Hks; cbn [fold_left length].
  - lia.
  - apply Forall_cons in Hks as [Hk Hks].
    rewrite IH by (by rewrite keys_bump).
    apply dict_get_Some_keys in Hk as [v Hv].
    unfold bump. rewrite Hv. rewrite (sum_values_setitem _ _ v) by done. lia.
Qed.

Lemma dict_get_tally ks : ∀ d k,
  dict_get (tally d ks) k
  = (fun v => v + Z.of_nat (length (filter (fun k' => k' = k) ks)))
      <$> dict_get d k.
Proof.
  unfold tally. induction ks as [|k0 ks IH]; intros d k; cbn [fold_left].
  - cbn. destruct (dict_get d k); cbn; [f_equal; lia|done].
  - rewrite IH. rewrite filter_cons. unfold bump.
    destruct (dict_get d k0) as [v0|] eqn:E0.
    + rewrite dict_get_setitem. destruct (String.eqb k0 k) eqn:E.
      * apply String.eqb_eq in E as ->. rewrite E0. cbn.
        rewrite decide_True by done. cbn [length]. f_equal. lia.
      * apply String.eqb_neq in E. by rewrite decide_False.
    + destruct (decide (k0 = k)) as [->|]; [|done].
      rewrite E0. done.
Qed.

(** ** The classes of a list of features *)

Lemma classes_Ok cls l ks :
  classes cls l = Ok ks → Forall2 (fun n k => cls n = Ok k) l ks.
Proof.
  revert ks. induction l as [|n l IH]; intros ks; cbn.
  - intros [= <-]. constructor.
  - destruct (cls n) as [k|e] eqn:E; cbn; [|done].
    destruct (classes cls l) as [ks'|e]; cbn; [|done].
    intros [= <-]. constructor; auto.
Qed.

Lemma classes_Raise cls l e :
  classes cls l = Raise e → ∃ n, n ∈ l ∧ cls n = Raise e.
Proof.
  induction l as [|n l IH]; cbn; [done|].
  destruct (cls n) as [k|e'] eqn:E; cbn.
  - destruct (classes cls l) as [ks'|e'']; cbn; [done|].
    intros [= <-]. destruct IH as (n' & Hn & He); [done|].
    exists n'. split; [by right|done].
  - intros [= <-]. exists n. split; [by left|done].
Qed.


Lemma Forall2_classes_length (cls : string -> result string) l ks :
  Forall2 (fun n k => cls n = Ok k) l ks → length ks = length l.
Proof. intros H. symmetry. by eapply Forall2_length. Qed.

Lemma Forall2_classes_count (cls : string -> result string) l ks k :
  Forall2 (fun n k => cls n = Ok k) l ks →
  length (filter (fun k' => k' = k) ks)
  = length (filter (fun n => cls n = Ok k) l).
Proof.
  induction 1 as [|n k0 l ks Hn _ IH]; [done|].
  rewrite !filter_cons. rewrite Hn.
  destruct (decide (k0 = k)) as [->|Hne].
  - rewrite decide_True by done. cbn. by rewrite IH.
  - rewrite decide_False by congruence. done.
Qed.

(* ================================================================== *)
(** * RowStats: the counting loops *)
(* ================================================================== *)

Lemma set_values_count_twice k d d' rs :
  RowStats.set_values_count k d' (RowStats.set_values_count k d rs)
  = RowStats.set_values_count k d' rs.
Proof. unfold RowStats.set_values_count. cbn. by rewrite insert_insert_eq. Qed.

Lemma coherent_set_values_count k d rs :
  coherent rs → coherent (RowStats.set_values_count k d rs).
Proof. intros H. exact H. Qed.

Lemma incr_run family k rs d v :
  RowStats._values_count rs !! family = Some d →
  dict_get d k = Some v →
  RowStats.incr family k rs
  = (Ok tt, RowStats.set_values_count family (setitem d k (v + 1)) rs).
Proof.
  intros Hd Hv. unfold RowStats.incr, bind, gets, lift, modify,
    RowStats.cache_getitem. cbn. rewrite Hd. unfold getitem. by rewrite Hv.
Qed.

Lemma for_each_ext {S A} (l : list A) (f g : A -> M S unit) :
  (∀ x s, f x s = g x s) → ∀ s, for_each l f s = for_each l g s.
Proof.
  intros H. induction l as [|x l IH]; intros s; cbn; [done|].
  unfold bind. rewrite H. destruct (g x s) as [[u|e] s1]; [apply IH|done].
Qed.

Lemma classify_loop family cls l : ∀ rs d,
  RowStats._values_count rs !! family = Some d →
  (∀ n k, cls (RowStats.row rs) n = Ok k → k ∈ keys d) →
  match classes (cls (RowStats.row rs)) l with
  | Ok ks =>
      for_each l (classify_step family cls) rs
      = (Ok tt, RowStats.set_values_count family (tally d ks) rs)
  | Raise e => fst (for_each l (classify_step family cls) rs) = Raise e
  end.
Proof.
  induction l as [|n l IH]; intros rs d Hd Hk.
  - cbn. unfold ret. by rewrite set_values_count_id.
  - assert (HF : for_each (n :: l) (classify_step family cls) rs
      = match cls (RowStats.row rs) n with
        | Ok k =>
            match RowStats.incr family k rs with
            | (Ok _, s') => for_each l (classify_step family cls) s'
            | (Raise e, s') => (Raise e, s')
            end
        | Raise e => (Raise e, rs)
        end).
    { cbn [for_each]. unfold bind, classify_step at 1.
      destruct (cls (RowStats.row rs) n); done. }
    rewrite HF. clear HF. cbn [classes].
    destruct (cls (RowStats.row rs) n) as [k|e] eqn:E; cbn [rbind]; [|done].
    destruct (proj2 (dict_get_Some_keys d k) (Hk n k E)) as [v Hv].
    rewrite (incr_run _ _ _ _ _ Hd Hv).
    set (rs1 := RowStats.set_values_count family (setitem d k (v + 1)) rs).
    specialize (IH rs1 (setitem d k (v + 1))).
    assert (Hrow : RowStats.row rs1 = RowStats.row rs) by done.
    rewrite Hrow in IH.
    assert (Hb : bump d k = setitem d k (v + 1)).
    { unfold bump. by rewrite Hv. }
    destruct (classes (cls (RowStats.row rs)) l) as [ks|e]; cbn [rbind].
    + rewrite IH.
      * unfold rs1. rewrite set_values_count_twice.
        unfold tally. cbn [fold_left]. by rewrite Hb.
      * unfold rs1. cbn. by rewrite lookup_insert_eq.
      * intros n' k' H'. rewrite keys_setitem; [by eapply Hk|].
        by eapply Hk.
    + apply IH.
      * unfold rs1. cbn. by rewrite lookup_insert_eq.
      * intros n' k' H'. rewrite keys_setitem; [by eapply Hk|].
        by eapply Hk.
Qed.

Lemma row_getitem_run name rs :
  RowStats.row_getitem name rs = (Row.getitem (RowStats.row rs) name, rs).
Proof. done. Qed.

Lemma go_loop_eq name rs :
  RowStats.go_values_counts_loop name rs = classify_step "go" go_class name rs.
Proof.
  unfold RowStats.go_values_counts_loop, classify_step, go_class.
  unfold bind at 1. rewrite row_getitem_run.
  destruct (Row.getitem (RowStats.row rs) name) as [v|e]; cbn [rbind]; [|done].
  unfold bind, assert.
  destruct (String.eqb v "0" || String.eqb v "1"); done.
Qed.

Lemma ppi_loop_eq name rs :
  RowStats.ppi_values_counts_loop name rs
  = classify_step "ppi" ppi_class name rs.
Proof.
  unfold RowStats.ppi_values_counts_loop, classify_step, ppi_class.
  unfold bind at 1. rewrite row_getitem_run.
  destruct (Row.getitem (RowStats.row rs) name) as [v|e]; cbn [rbind]; [|done].
  unfold bind at 1. unfold lift at 1.
  destruct (float_of_string v) as [x|e]; cbn [rbind]; [|done].
  unfold bucket.
  repeat match goal with
  | |- context [if ?b then _ else _] => destruct b; [done|]
  end.
  unfold bind. rewrite row_getitem_run.
  destruct (Row.getitem (RowStats.row rs) "entrez"); done.
Qed.

Lemma go_class_keys row n k : go_class row n = Ok k → k ∈ go_keys.
Proof.
  unfold go_class. destruct (Row.getitem row n) as [v|]; cbn; [|done].
  destruct (String.eqb v "0") eqn:E0; cbn.
  - apply String.eqb_eq in E0 as ->. intros [= <-]. by left.
  - destruct (String.eqb v "1") eqn:E1; [|done].
    apply String.eqb_eq in E1 as ->. intros [= <-]. right. by left.
Qed.

Lemma bucket_keys x k : bucket x = Some k → k ∈ ppi_keys.
Proof.
  unfold bucket, ppi_keys.
  repeat match goal with
  | |- context [if ?b then _ else _] =>
      destruct b; [intros [= <-]; set_solver|]
  end.
  done.
Qed.

Lemma ppi_class_keys row n k : ppi_class row n = Ok k → k ∈ ppi_keys.
Proof.
  unfold ppi_class. destruct (Row.getitem row n) as [v|]; cbn; [|done].
  destruct (float_of_string v) as [x|]; cbn; [|done].
  destruct (bucket x) as [k'|] eqn:E.
  - intros [= <-]. by eapply bucket_keys.
  - destruct (Row.getitem row "entrez"); done.
Qed.

(** ** [go_values_counts] and [ppi_values_counts] *)

Lemma go_values_counts_cached rs d :
  RowStats._values_count rs !! "go" = Some d →
  RowStats.go_values_counts rs = (Ok d, rs).
Proof.
  intros H. unfold RowStats.go_values_counts, bind, gets, ret, lift,
    RowStats.cache_getitem. cbn. by rewrite H, H.
Qed.

Lemma ppi_values_counts_cached rs d :
  RowStats._values_count rs !! "ppi" = Some d →
  RowStats.ppi_values_counts rs = (Ok d, rs).
Proof.
  intros H. unfold RowStats.ppi_values_counts, bind, gets, ret, lift,
    RowStats.cache_getitem. cbn. by rewrite H, H.
Qed.

Lemma go_values_counts_run rs :
  coherent rs →
  RowStats._values_count rs !! "go" = None →
  match classes (go_class (RowStats.row rs))
                (elements (go_names (RowStats.row rs))) with
  | Ok ks =>
      RowStats.go_values_counts rs
      = (Ok (tally go_zero ks),
         RowStats.set_values_count "go" (tally go_zero ks)
           (with_go (RowStats.set_values_count "go" go_zero rs)))
  | Raise e => fst (RowStats.go_values_counts rs) = Raise e
  end.
Proof.
  intros Hc Hn.
  set (rs1 := RowStats.set_values_count "go" go_zero rs).
  assert (Hc1 : coherent rs1) by exact Hc.
  destruct (with_go_facts rs1 Hc1) as (Hr & Hv & _ & Hc2 & _).
  pose proof (classify_loop "go" go_class
    (elements (go_names (RowStats.row rs))) (with_go rs1) go_zero) as HL.
  rewrite Hr in HL. change (RowStats.row rs1) with (RowStats.row rs) in HL.
  assert (Hrun : RowStats.go_values_counts rs
    = match for_each (elements (go_names (RowStats.row rs)))
              (classify_step "go" go_class) (with_go rs1) with
      | (Ok _, s) => (RowStats.cache_getitem (RowStats._values_count s) "go", s)
      | (Raise e, s) => (Raise e, s)
      end).
  { unfold RowStats.go_values_counts.
    unfold bind at 1. unfold gets at 1. rewrite Hn.
    unfold bind at 1. unfold bind at 1. unfold modify at 1.
    fold go_zero. fold rs1.
    unfold bind at 1. rewrite (go_features_names_run rs1 Hc1).
    change (RowStats.row rs1) with (RowStats.row rs).
    rewrite (for_each_ext _ _ _ go_loop_eq).
    destruct (for_each _ _ _) as [[u|e] s]; done. }
  assert (P1 : RowStats._values_count (with_go rs1) !! "go" = Some go_zero).
  { rewrite Hv. unfold rs1. cbn. by rewrite lookup_insert_eq. }
  specialize (HL P1 (fun n k => go_class_keys _ n k)).
  rewrite Hrun.
  destruct (classes _ _) as [ks|e].
  - rewrite HL. unfold RowStats.cache_getitem, RowStats.set_values_count at 1.
    cbn [RowStats._values_count]. by rewrite lookup_insert_eq.
  - destruct (for_each _ _ _) as [[u|e'] s]; cbn in *; [discriminate HL|].
    by injection HL as ->.
Qed.

Lemma ppi_values_counts_run rs :
  coherent rs →
  RowStats._values_count rs !! "ppi" = None →
  match classes (ppi_class (RowStats.row rs))
                (elements (ppi_names (RowStats.row rs))) with
  | Ok ks =>
      RowStats.ppi_values_counts rs
      = (Ok (tally ppi_zero ks),
         RowStats.set_values_count "ppi" (tally ppi_zero ks)
           (with_ppi (RowStats.set_values_count "ppi" ppi_zero rs)))
  | Raise e => fst (RowStats.ppi_values_counts rs) = Raise e
  end.
Proof.
  intros Hc Hn.
  set (rs1 := RowStats.set_values_count "ppi" ppi_zero rs).
  assert (Hc1 : coherent rs1) by exact Hc.
  destruct (with_ppi_facts rs1 Hc1) as (Hr & Hv & _ & Hc2 & _).
  pose proof (classify_loop "ppi" ppi_class
    (elements (ppi_names (RowStats.row rs))) (with_ppi rs1) ppi_zero) as HL.
  rewrite Hr in HL. change (RowStats.row rs1) with (RowStats.row rs) in HL.
  assert (Hrun : RowStats.ppi_values_counts rs
    = match for_each (elements (ppi_names (RowStats.row rs)))
              (classify_step "ppi" ppi_class) (with_ppi rs1) with
      | (Ok _, s) => (RowStats.cache_getitem (RowStats._values_count s) "ppi", s)
      | (Raise e, s) => (Raise e, s)
      end).
  { unfold RowStats.ppi_values_counts.
    unfold bind at 1. unfold gets at 1. rewrite Hn.
    unfold bind at 1. unfold bind at 1. unfold modify at 1.
    fold ppi_zero. fold rs1.
    unfold bind at 1. rewrite (ppi_features_names_run rs1 Hc1).
    change (RowStats.row rs1) with (RowStats.row rs).
    rewrite (for_each_ext _ _ _ ppi_loop_eq).
    destruct (for_each _ _ _) as [[u|e] s]; done. }
  assert (P1 : RowStats._values_count (with_ppi rs1) !! "ppi" = Some ppi_zero).
  { rewrite Hv. unfold rs1. cbn. by rewrite lookup_insert_eq. }
  specialize (HL P1 (fun n k => ppi_class_keys _ n k)).
  rewrite Hrun.
  destruct (classes _ _) as [ks|e].
  - rewrite HL. unfold RowStats.cache_getitem, RowStats.set_values_count at 1.
    cbn [RowStats._values_count]. by rewrite lookup_insert_eq.
  - destruct (for_each _ _ _) as [[u|e'] s]; cbn in *; [discriminate HL|].
    by injection HL as ->.
Qed.

(** ** Results are cached: [stable] *)

Lemma stable_ret {A} (a : A) : stable (ret a).
Proof.
  intros s a' s' Hc H. inversion H; subst.
  split; [done|]. split; [apply rs_le_refl|done].
Qed.

Lemma stable_lift {A} (r : result A) : stable (lift r).
Proof.
  intros s a' s' Hc H. inversion H; subst.
  split; [done|]. split; [apply rs_le_refl|done].
Qed.

Lemma stable_assert b : stable (assert b).
Proof.
  destruct b; [apply stable_ret|]. intros s a s' _ H. inversion H.
Qed.

Lemma stable_bind {A B} (c : M RowStats.t A) (k : A -> M RowStats.t B) :
  stable c → (∀ a, stable (k a)) → stable (bind c k).
Proof.
  intros Hc Hk s b s' Hs H. apply bind_ok_inv in H as (a & s1 & H1 & H2).
  destruct (Hc _ _ _ Hs H1) as (Hs1 & Hle1 & Hre1).
  destruct (Hk a _ _ _ Hs1 H2) as (Hs' & Hle2 & Hre2).
  split; [done|]. split; [by eapply rs_le_trans|].
  intros s'' Hs'' Hle. rewrite (bind_ok _ _ _ a s'').
  - by apply Hre2.
  - apply Hre1; [done|]. by eapply rs_le_trans.
Qed.

Lemma with_all_id rs :
  is_Some (RowStats._features_names rs !! "all") → with_all rs = rs.
Proof. unfold with_all. by intros [X ->]. Qed.

Lemma with_go_id rs :
  is_Some (RowStats._features_names rs !! "go") → with_go rs = rs.
Proof. unfold with_go. by intros [X ->]. Qed.

Lemma with_ppi_id rs :
  is_Some (RowStats._features_names rs !! "ppi") → with_ppi rs = rs.
Proof. unfold with_ppi. by intros [X ->]. Qed.

Lemma stable_all_features_names : stable RowStats.all_features_names.
Proof.
  intros s a s' Hc H. rewrite (all_features_names_run s Hc) in H.
  injection H as <- <-.
  destruct (with_all_facts s Hc) as (Hr & Hv & Ha & _ & Hc' & Hle).
  split; [done|]. split; [done|]. intros s'' Hc'' (Hr' & Hf' & Hv').
  rewrite (all_features_names_run s'' Hc''). rewrite Hr', Hr.
  rewrite with_all_id; [done|]. exists (all_names (RowStats.row s)).
  by eapply lookup_weaken.
Qed.

Lemma stable_go_features_names : stable RowStats.go_features_names.
Proof.
  intros s a s' Hc H. rewrite (go_features_names_run s Hc) in H.
  injection H as <- <-.
  destruct (with_go_facts s Hc) as (Hr & Hv & Ha & Hc' & Hle).
  split; [done|]. split; [done|]. intros s'' Hc'' (Hr' & Hf' & Hv').
  rewrite (go_features_names_run s'' Hc''). rewrite Hr', Hr.
  rewrite with_go_id; [done|]. exists (go_names (RowStats.row s)).
  by eapply lookup_weaken.
Qed.

Lemma stable_ppi_features_names : stable RowStats.ppi_features_names.
Proof.
  intros s a s' Hc H. rewrite (ppi_features_names_run s Hc) in H.
  injection H as <- <-.
  destruct (with_ppi_facts s Hc) as (Hr & Hv & Ha & Hc' & Hle).
  split; [done|]. split; [done|]. intros s'' Hc'' (Hr' & Hf' & Hv').
  rewrite (ppi_features_names_run s'' Hc''). rewrite Hr', Hr.
  rewrite with_ppi_id; [done|]. exists (ppi_names (RowStats.row s)).
  by eapply lookup_weaken.
Qed.

Lemma stable_go_values_counts : stable RowStats.go_values_counts.
Proof.
  intros s d s' Hc H.
  destruct (RowStats._values_count s !! "go") as [d0|] eqn:E.
  - rewrite (go_values_counts_cached s d0 E) in H. injection H as <- <-.
    split; [done|]. split; [apply rs_le_refl|].
    intros s'' _ (_ & _ & Hv). apply go_values_counts_cached.
    by eapply lookup_weaken.
  - pose proof (go_values_counts_run s Hc E) as Hrun.
    destruct (classes _ _) as [ks|e].
    2:{ rewrite H in Hrun. discriminate Hrun. }
    rewrite Hrun in H. injection H as <- <-.
    set (rs1 := RowStats.set_values_count "go" go_zero s).
    assert (Hc1 : coherent rs1) by exact Hc.
    destruct (with_go_facts rs1 Hc1) as (Hr & Hv & _ & Hc2 & Hle).
    assert (Hvc : RowStats._values_count
        (RowStats.set_values_count "go" (tally go_zero ks) (with_go rs1))
        = <["go" := tally go_zero ks]> (RowStats._values_count s)).
    { cbn. rewrite Hv. unfold rs1. cbn. by rewrite insert_insert_eq. }
    split; [exact Hc2|]. split.
    + split; [exact Hr|]. split; [apply Hle|].
      rewrite Hvc. by apply insert_subseteq.
    + intros s'' _ (_ & _ & Hv''). apply go_values_counts_cached.
      eapply lookup_weaken; [|exact Hv'']. rewrite Hvc.
      by rewrite lookup_insert_eq.
Qed.

Lemma stable_ppi_values_counts : stable RowStats.ppi_values_counts.
Proof.
  intros s d s' Hc H.
  destruct (RowStats._values_count s !! "ppi") as [d0|] eqn:E.
  - rewrite (ppi_values_counts_cached s d0 E) in H. injection H as <- <-.
    split; [done|]. split; [apply rs_le_refl|].
    intros s'' _ (_ & _ & Hv). apply ppi_values_counts_cached.
    by eapply lookup_weaken.
  - pose proof (ppi_values_counts_run s Hc E) as Hrun.
    destruct (classes _ _) as [ks|e].
    2:{ rewrite H in Hrun. discriminate Hrun. }
    rewrite Hrun in H. injection H as <- <-.
    set (rs1 := RowStats.set_values_count "ppi" ppi_zero s).
    assert (Hc1 : coherent rs1) by exact Hc.
    destruct (with_ppi_facts rs1 Hc1) as (Hr & Hv & _ & Hc2 & Hle).
    assert (Hvc : RowStats._values_count
        (RowStats.set_values_count "ppi" (tally ppi_zero ks) (with_ppi rs1))
        = <["ppi" := tally ppi_zero ks]> (RowStats._values_count s)).
    { cbn. rewrite Hv. unfold rs1. cbn. by rewrite insert_insert_eq. }
    split; [exact Hc2|]. split.
    + split; [exact Hr|]. split; [apply Hle|].
      rewrite Hvc. by apply insert_subseteq.
    + intros s'' _ (_ & _ & Hv''). apply ppi_values_counts_cached.
      eapply lookup_weaken; [|exact Hv'']. rewrite Hvc.
      by rewrite lookup_insert_eq.
Qed.

Create HintDb stable.
#[local] Hint Resolve stable_ret stable_lift stable_assert
  stable_all_features_names stable_go_features_names
  stable_ppi_features_names stable_go_values_counts
  stable_ppi_values_counts : stable.

(** Proves [stable] for a sequence of stable computations. *)
Ltac stable_tac :=
  repeat first
    [ solve [eauto with stable]
    | apply stable_bind; [|intros ?; cbv beta] ].

Lemma stable_num_features : stable RowStats.num_features.
Proof. unfold RowStats.num_features. stable_tac. Qed.

Lemma stable_num_go_features : stable RowStats.num_go_features.
Proof. unfold RowStats.num_go_features. stable_tac. Qed.

Lemma stable_num_ppi_features : stable RowStats.num_ppi_features.
Proof. unfold RowStats.num_ppi_features. stable_tac. Qed.

#[local] Hint Resolve stable_num_features stable_num_go_features
  stable_num_ppi_features : stable.

Lemma stable_validate : stable RowStats.validate.
Proof. unfold RowStats.validate. stable_tac. Qed.

Lemma stable_count_of counts key :
  stable counts → stable (RowStats.count_of counts key).
Proof. intros H. unfold RowStats.count_of. stable_tac. Qed.

Lemma stable_ratio_of counts key n :
  stable counts → stable n → stable (RowStats.ratio_of counts key n).
Proof.
  intros H1 H2. unfold RowStats.ratio_of.
  apply stable_bind; [by apply stable_count_of|intros ?]. stable_tac.
Qed.

#[local] Hint Resolve stable_validate stable_count_of stable_ratio_of : stable.

Lemma stable_get_stats : stable RowStats.get_stats.
Proof. unfold RowStats.get_stats. stable_tac. Qed.

(* ================================================================== *)
(** * Floats: the order of the bucket boundaries *)
(* ================================================================== *)

Lemma fltb_pos mc ec m e :
  fltb (S754_finite false mc ec) (S754_finite false m e) = true
  ↔ ec < e ∨ (ec = e ∧ Zpos mc < Zpos m).
Proof.
  unfold fltb, SFltb, SFcompare.
  destruct (Z.compare_spec ec e); [|split; intros; [lia|done]|split; [done|lia]].
  change (Pos.compare_cont Eq mc m) with (Pos.compare mc m).
  destruct (Pos.compare_spec mc m); split; intros; try done; lia.
Qed.

Lemma fleb_pos m e mc ec :
  fleb (S754_finite false m e) (S754_finite false mc ec) = true
  ↔ e < ec ∨ (e = ec ∧ Zpos m <= Zpos mc).
Proof.
  unfold fleb, SFleb, SFcompare.
  destruct (Z.compare_spec e ec); [|split; intros; [lia|done]|split; [done|lia]].
  change (Pos.compare_cont Eq m mc) with (Pos.compare m mc).
  destruct (Pos.compare_spec m mc); split; intros; try done; lia.
Qed.

Lemma fltb_pos_false mc ec m e :
  fltb (S754_finite false mc ec) (S754_finite false m e) = false
  ↔ e < ec ∨ (ec = e ∧ Zpos m <= Zpos mc).
Proof.
  rewrite <- not_true_iff_false, fltb_pos. lia.
Qed.

Lemma fleb_pos_false m e mc ec :
  fleb (S754_finite false m e) (S754_finite false mc ec) = false
  ↔ ec < e ∨ (e = ec ∧ Zpos mc < Zpos m).
Proof.
  rewrite <- not_true_iff_false, fleb_pos. lia.
Qed.

(** Turns the comparisons of a positive finite float with the bucket
    boundaries into linear arithmetic. *)
Ltac float_order :=
  unfold f0_150, f0_400, f0_700, f0_900, f1_000 in *;
  repeat match goal with
  | H : _ && _ = true |- _ => apply andb_true_iff in H as [? ?]
  | H : _ && _ = false |- _ => apply andb_false_iff in H
  | H : fltb (S754_finite false _ _) (S754_finite false _ _) = true |- _ =>
      apply fltb_pos in H
  | H : fltb (S754_finite false _ _) (S754_finite false _ _) = false |- _ =>
      apply fltb_pos_false in H
  | H : fleb (S754_finite false _ _) (S754_finite false _ _) = true |- _ =>
      apply fleb_pos in H
  | H : fleb (S754_finite false _ _) (S754_finite false _ _) = false |- _ =>
      apply fleb_pos_false in H
  end.

Lemma fltb_negb_fleb mc ec m e :
  fltb (S754_finite false mc ec) (S754_finite false m e)
  = negb (fleb (S754_finite false m e) (S754_finite false mc ec)).
Proof.
  destruct (fleb _ _) eqn:E; cbn.
  - apply fleb_pos in E. apply fltb_pos_false. lia.
  - apply fleb_pos_false in E. apply fltb_pos. lia.
Qed.

(** The comparisons of a positive finite float with the boundaries. *)
Lemma pos_tests m e :
  let x := S754_finite false m e in
  feqb x fzero = false ∧ fltb fzero x = true ∧
  fltb f0_150 x = negb (fleb x f0_150) ∧
  fltb f0_400 x = negb (fleb x f0_400) ∧
  fltb f0_700 x = negb (fleb x f0_700) ∧
  fltb f0_900 x = negb (fleb x f0_900) ∧
  fltb f1_000 x = negb (fleb x f1_000) ∧
  (fleb x f0_150 = true → fleb x f0_400 = true) ∧
  (fleb x f0_400 = true → fleb x f0_700 = true) ∧
  (fleb x f0_700 = true → fleb x f0_900 = true) ∧
  (fleb x f0_900 = true → fleb x f1_000 = true).
Proof.
  cbv zeta. split; [done|]. split; [done|].
  repeat (split; [apply fltb_negb_fleb|]).
  unfold f0_150, f0_400, f0_700, f0_900, f1_000.
  rewrite !fleb_pos. lia.
Qed.

Lemma in_bucket_unfold x :
  in_bucket "0" x = feqb x fzero ∧
  in_bucket "001->150" x = fltb fzero x && fleb x f0_150 ∧
  in_bucket "151->400" x = fltb f0_150 x && fleb x f0_400 ∧
  in_bucket "401->700" x = fltb f0_400 x && fleb x f0_700 ∧
  in_bucket "701->900" x = fltb f0_700 x && fleb x f0_900 ∧
  in_bucket "901->1000" x = fltb f0_900 x && fleb x f1_000.
Proof. done. Qed.

(** The chain of [ppi_values_counts] and the six interval tests agree:
    the intervals are disjoint. *)
Lemma bucket_in_bucket x k :
  bucket x = Some k ↔ k ∈ ppi_keys ∧ in_bucket k x = true.
Proof.
  split.
  - intros H. split; [by eapply bucket_keys|]. revert H. unfold bucket.
    repeat match goal with
    | |- context [if ?b then _ else _] =>
        let E := fresh "E" in destruct b eqn:E; [intros [= <-]; exact E|]
    end.
    done.
  - intros [Hk H]. unfold ppi_keys in Hk.
    destruct (in_bucket_unfold x) as (I0 & I1 & I2 & I3 & I4 & I5).
    assert (Hx : (∃ m e, x = S754_finite false m e) ∨
                 (bucket x = None ∧ ∀ k, k ∈ ppi_keys → in_bucket k x = false) ∨
                 (bucket x = Some "0" ∧ ∀ k, k ∈ ppi_keys → k ≠ "0" → in_bucket k x = false)).
    { destruct x as [s|s| |[] m e]; [right; right|right; left..|left; eauto].
      - split; [done|]. intros k' Hk' Hne. unfold ppi_keys in Hk'.
        repeat (apply elem_of_cons in Hk' as [->|Hk']); try done.
        by apply elem_of_nil in Hk'.
      - split; [by destruct s|]. intros k' Hk'. unfold ppi_keys in Hk'.
        repeat (apply elem_of_cons in Hk' as [->|Hk']); try (by destruct s).
        by apply elem_of_nil in Hk'.
      - split; [done|]. intros k' Hk'. unfold ppi_keys in Hk'.
        repeat (apply elem_of_cons in Hk' as [->|Hk']); try done.
        by apply elem_of_nil in Hk'.
      - split; [done|]. intros k' Hk'. unfold ppi_keys in Hk'.
        repeat (apply elem_of_cons in Hk' as [->|Hk']); try done.
        by apply elem_of_nil in Hk'. }
    destruct Hx as [(m & e & ->)|[[_ Hx]|[Hx1 Hx2]]].
    + destruct (pos_tests m e)
        as (T0 & T1 & T2 & T3 & T4 & T5 & T6 & M1 & M2 & M3 & M4).
      cbv zeta in *. unfold bucket.
      rewrite T0, T1, T2, T3, T4, T5.
      rewrite T0 in I0. rewrite T1 in I1. rewrite T2 in I2. rewrite T3 in I3.
      rewrite T4 in I4. rewrite T5 in I5.
      clear T0 T1 T2 T3 T4 T5 T6.
      repeat (apply elem_of_cons in Hk as [->|Hk]);
        [..|by apply elem_of_nil in Hk];
        revert M1 M2 M3 M4 I0 I1 I2 I3 I4 I5 H;
        generalize (fleb (S754_finite false m e) f0_150);
        generalize (fleb (S754_finite false m e) f0_400);
        generalize (fleb (S754_finite false m e) f0_700);
        generalize (fleb (S754_finite false m e) f0_900);
        generalize (fleb (S754_finite false m e) f1_000);
        generalize (in_bucket "0" (S754_finite false m e));
        generalize (in_bucket "001->150" (S754_finite false m e));
        generalize (in_bucket "151->400" (S754_finite false m e));
        generalize (in_bucket "401->700" (S754_finite false m e));
        generalize (in_bucket "701->900" (S754_finite false m e));
        generalize (in_bucket "901->1000" (S754_finite false m e));
        intros i5 i4 i3 i2 i1 i0 e5 e4 e3 e2 e1 M1 M2 M3 M4;
        intros -> -> -> -> -> ->;
        destruct e1, e2, e3, e4, e5; cbn;
        try (discriminate M1; reflexivity); try (discriminate M2; reflexivity);
        try (discriminate M3; reflexivity); try (discriminate M4; reflexivity);
        intros; try discriminate; reflexivity.
    + rewrite (Hx k) in H; [discriminate H|]. done.
    + destruct (decide (k = "0")) as [->|Hne]; [done|].
      rewrite (Hx2 k) in H; [discriminate H|done..].
Qed.


(** ** The boundary values of the buckets *)


(* ================================================================== *)
(** * RowStats: what the counts are *)
(* ================================================================== *)

Lemma filter_ext_L (P Q : string -> Prop) `{!∀ x, Decision (P x)}
  `{!∀ x, Decision (Q x)} (X : gset string) :
  (∀ x, x ∈ X → P x ↔ Q x) → filter P X = filter Q X.
Proof.
  intros HPQ. apply set_eq. intros x. rewrite !elem_of_filter.
  split; intros [? ?]; split; try done; by apply (HPQ x).
Qed.

Lemma init_values_count row k :
  RowStats._values_count (RowStats.__init__ row) !! k = None.
Proof. apply lookup_empty. Qed.

(** The count a tally holds for [k], in terms of the set of features. *)
Lemma tally_count (cls : string -> result string) (X : gset string) ks d k v :
  classes cls (elements X) = Ok ks →
  dict_get d k = Some v →
  getitem (tally d ks) k
  = Ok (v + count_where (fun n => cls n = Ok k) X).
Proof.
  intros Hks Hv. apply classes_Ok in Hks. apply getitem_Some.
  rewrite dict_get_tally, Hv. cbn. do 2 f_equal.
  unfold count_where, RowStats.len. f_equal.
  rewrite (Forall2_classes_count _ _ _ _ Hks).
  apply length_filter_elements.
Qed.

Lemma tally_sum (cls : string -> result string) (X : gset string) ks d :
  classes cls (elements X) = Ok ks →
  (∀ n k, cls n = Ok k → k ∈ keys d) →
  sum (values (tally d ks)) = sum (values d) + RowStats.len X.
Proof.
  intros Hks Hk. apply classes_Ok in Hks. rewrite sum_tally.
  - rewrite (Forall2_classes_length _ _ _ Hks). done.
  - clear -Hks Hk. induction Hks; constructor; eauto.
Qed.

Lemma go_class_Ok row n k :
  go_class row n = Ok k ↔ Row.getitem row n = Ok k ∧ (k = "0" ∨ k = "1").
Proof.
  unfold go_class. destruct (Row.getitem row n) as [v|e]; cbn.
  - destruct (String.eqb v "0") eqn:E0; cbn.
    + apply String.eqb_eq in E0 as ->. split.
      * intros [= <-]. auto.
      * by intros [[= <-] _].
    + destruct (String.eqb v "1") eqn:E1.
      * apply String.eqb_eq in E1 as ->. split.
        -- intros [= <-]. auto.
        -- by intros [[= <-] _].
      * apply String.eqb_neq in E0, E1. split; [done|].
        intros [[= <-] [?|?]]; done.
  - split; [done|]. by intros [? _].
Qed.

Lemma go_class_Raise row n e :
  n ∈ go_names row → go_class row n = Raise e →
  e = AssertionError ∧
  Row.getitem row n ≠ Ok "0" ∧ Row.getitem row n ≠ Ok "1".
Proof.
  intros Hn. apply go_names_subseteq, getitem_all_names in Hn as [v Hv].
  unfold go_class. rewrite Hv. cbn.
  destruct (String.eqb v "0") eqn:E0; cbn; [done|].
  destruct (String.eqb v "1") eqn:E1; [done|].
  apply String.eqb_neq in E0, E1. intros [= <-].
  split; [done|]. split; congruence.
Qed.

Lemma elem_of_go_names row name :
  name ∈ go_names row ↔
  is_Some (Row._data row !! Row.KStr name) ∧ name ≠ "entrez" ∧
  name ≠ "class" ∧ startswith name "GO:" = true.
Proof.
  unfold go_names. rewrite elem_of_filter, elem_of_all_names.
  unfold is_go. rewrite Is_true_true. tauto.
Qed.


(** The outcome of [go_values_counts] on a new [RowStats]. *)
Lemma go_values_counts_init row :
  match classes (go_class row) (elements (go_names row)) with
  | Ok ks => fst (RowStats.go_values_counts (RowStats.__init__ row))
             = Ok (tally go_zero ks)
  | Raise e => fst (RowStats.go_values_counts (RowStats.__init__ row))
               = Raise e
  end.
Proof.
  pose proof (go_values_counts_run (RowStats.__init__ row)
    (coherent_init row) (init_values_count row "go")) as H.
  cbn [RowStats.row RowStats.__init__] in H.
  destruct (classes _ _); [by rewrite H|done].
Qed.

Lemma ppi_values_counts_init row :
  match classes (ppi_class row) (elements (ppi_names row)) with
  | Ok ks => fst (RowStats.ppi_values_counts (RowStats.__init__ row))
             = Ok (tally ppi_zero ks)
  | Raise e => fst (RowStats.ppi_values_counts (RowStats.__init__ row))
               = Raise e
  end.
Proof.
  pose proof (ppi_values_counts_run (RowStats.__init__ row)
    (coherent_init row) (init_values_count row "ppi")) as H.
  cbn [RowStats.row RowStats.__init__] in H.
  destruct (classes _ _); [by rewrite H|done].
Qed.

(** C3.  On a new [RowStats], [go_values_counts] raises (an
    [AssertionError]) exactly when some GO feature, that is a column
    other than [entrez] and [class] whose name starts with "GO:", holds
    a value other than "0" and "1"; a value "2" is such a value.  When
    it returns, the result has exactly the keys "0" and "1", in this
    order, and each holds the number of GO features of that value. *)
Theorem go_values_counts_spec (row : Row.t) :
  let run := fst (RowStats.go_values_counts (RowStats.__init__ row)) in
  (∀ name, name ∈ go_names row ↔
           is_Some (Row._data row !! Row.KStr name) ∧ name ≠ "entrez" ∧
           name ≠ "class" ∧ startswith name "GO:" = true) ∧
  (is_ok run = false ↔
     ∃ name, name ∈ go_names row ∧ Row.getitem row name ≠ Ok "0" ∧
             Row.getitem row name ≠ Ok "1") ∧
  (∀ e, run = Raise e → e = AssertionError) ∧
  (∀ name, name ∈ go_names row → Row.getitem row name = Ok "2" →
           run = Raise AssertionError) ∧
  (∀ d, run = Ok d →
     keys d = ["0"; "1"] ∧
     getitem d "0" = Ok (count_where (has_value row "0") (go_names row)) ∧
     getitem d "1" = Ok (count_where (has_value row "1") (go_names row)) ∧
     sum (values d) = RowStats.len (go_names row)).
Proof.
  cbv zeta. pose proof (go_values_counts_init row) as Hrun.
  split; [apply elem_of_go_names|].
  destruct (classes (go_class row) (elements (go_names row))) as [ks|e] eqn:E.
  - rewrite Hrun. split; [|split; [done|split]].
    + split; [done|]. intros (n & Hn & H0 & H1). exfalso.
      apply classes_Ok in E.
      apply elem_of_elements, list_elem_of_lookup in Hn as [i Hi].
      destruct (Forall2_lookup_l _ _ _ _ _ E Hi) as (k & _ & Hk).
      apply go_class_Ok in Hk as [Hk [->| ->]]; done.
    + intros n Hn H2. exfalso. apply classes_Ok in E.
      apply elem_of_elements, list_elem_of_lookup in Hn as [i Hi].
      destruct (Forall2_lookup_l _ _ _ _ _ E Hi) as (k & _ & Hk).
      apply go_class_Ok in Hk as [Hk [->| ->]]; congruence.
    + intros d [= <-]. split; [apply keys_tally|].
      split; [|split].
      * rewrite (tally_count (go_class row) _ _ _ _ 0 E) by done.
        f_equal. rewrite Z.add_0_l. unfold count_where. f_equal.
        apply filter_ext_L. intros n _. unfold has_value.
        rewrite go_class_Ok. intuition.
      * rewrite (tally_count (go_class row) _ _ _ _ 0 E) by done.
        f_equal. rewrite Z.add_0_l. unfold count_where. f_equal.
        apply filter_ext_L. intros n _. unfold has_value.
        rewrite go_class_Ok. intuition.
      * rewrite (tally_sum (go_class row) _ _ _ E); [done|].
        intros n k. apply go_class_keys.
  - rewrite Hrun. apply classes_Raise in E as (n & Hn & He).
    apply elem_of_elements in Hn.
    destruct (go_class_Raise _ _ _ Hn He) as (-> & H0 & H1).
    split; [|split; [|split]].
    + split; [eauto|done].
    + by intros e [= <-].
    + done.
    + done.
Qed.

(** C3, on a row of two GO features, one of each value. *)
Lemma go_values_counts_spec_witness :
  fst (RowStats.go_values_counts (RowStats.__init__ (Examples.row_2_2 "1")))
    = Ok [("0", 1); ("1", 1)] ∧
  keys [("0", 1); ("1", 1)] = ["0"; "1"] ∧
  getitem [("0", 1); ("1", 1)] "0"
    = Ok (count_where (has_value (Examples.row_2_2 "1") "0")
            (go_names (Examples.row_2_2 "1"))) ∧
  fst (RowStats.go_values_counts (RowStats.__init__ (Examples.one_go "2")))
    = Raise AssertionError.
Proof.
  pose proof (go_values_counts_spec (Examples.row_2_2 "1")) as H.
  cbv zeta in H. destruct H as (_ & _ & _ & _ & H).
  specialize (H [("0", 1); ("1", 1)] eq_refl) as (H1 & H2 & _).
  split; [reflexivity|]. split; [exact H1|]. split; [exact H2|].
  pose proof (go_values_counts_spec (Examples.one_go "2")) as H.
  cbv zeta in H. destruct H as (_ & _ & _ & H & _).
  apply (H "GO:1"); [|reflexivity].
  apply elem_of_go_names. repeat split; done.
Defined.

Lemma ppi_class_Ok row n k :
  ppi_class row n = Ok k ↔
  ∃ v x, Row.getitem row n = Ok v ∧ float_of_string v = Ok x ∧
         bucket x = Some k.
Proof.
  unfold ppi_class. destruct (Row.getitem row n) as [v|e] eqn:Ev; cbn.
  2:{ split; [done|]. by intros (? & ? & ? & _). }
  destruct (float_of_string v) as [x|e] eqn:Ex; cbn.
  2:{ split; [done|]. intros (v' & x' & Hv' & Hx' & _). congruence. }
  destruct (bucket x) as [k'|] eqn:E.
  - split.
    + intros [= <-]. eauto.
    + intros (v' & x' & Hv' & Hx' & Hb). congruence.
  - split.
    + destruct (Row.getitem row "entrez"); done.
    + intros (v' & x' & Hv' & Hx' & Hb). congruence.
Qed.

Lemma ppi_class_value_in_bucket row n k :
  k ∈ ppi_keys →
  ppi_class row n = Ok k ↔ Is_true (value_in_bucket row k n).
Proof.
  intros Hk. rewrite ppi_class_Ok, Is_true_true. unfold value_in_bucket.
  destruct (Row.getitem row n) as [v|e] eqn:Ev.
  2:{ split; [|done]. by intros (? & ? & ? & _). }
  destruct (float_of_string v) as [x|e] eqn:Ex.
  2:{ split; [|done]. intros (v' & x' & Hv' & Hx' & _). congruence. }
  split.
  - intros (v' & x' & Hv' & Hx' & H).
    assert (v' = v) as -> by congruence. assert (x' = x) as -> by congruence.
    by apply bucket_in_bucket in H as [_ H].
  - intros H. exists v, x. split; [done|]. split; [done|].
    by apply bucket_in_bucket.
Qed.





(* ================================================================== *)
(** * RowStats.validate *)
(* ================================================================== *)

Lemma bind_assert_true {S B} (k : unit -> M S B) s :
  bind (assert true) k s = k tt s.
Proof. done. Qed.






(* ================================================================== *)
(** * DatasetStats on sample datasets *)
(* ================================================================== *)

(** C1.  On the dataset of three rows with GO:1="0", GO:2="1",
    ppi1="0.0", ppi2="0.5" and classes "0", "1", "1", [get_stats] does
    not return the report: the buckets no PPI value falls in sum to 0.0,
    [Counter]'s [+=] drops the keys of such sums, and reading
    'avg%PPI=(0;150]' raises a [KeyError].  The averages that are found
    are 0.5 for '%GO=0', '%GO=1', '%PPI=0' and '%PPI=(400;700]'. *)
Theorem get_stats_dataset_3 :
  fst (DatasetStats.get_stats (DatasetStats.__init__ Examples.dataset_3))
    = Raise (KeyError "%PPI=(0;150]") ∧
  fst (DatasetStats.avg_rows_stats (DatasetStats.__init__ Examples.dataset_3))
    = Ok [("#GO=0", NFloat (S754_finite false 4503599627370496 (-52)));
          ("#GO=1", NFloat (S754_finite false 4503599627370496 (-52)));
          ("#PPI=0", NFloat (S754_finite false 4503599627370496 (-52)));
          ("#PPI=(400;700]", NFloat (S754_finite false 4503599627370496 (-52)));
          ("%GO=0", NFloat (S754_finite false 4503599627370496 (-53)));
          ("%GO=1", NFloat (S754_finite false 4503599627370496 (-53)));
          ("%PPI=0", NFloat (S754_finite false 4503599627370496 (-53)));
          ("%PPI=(400;700]", NFloat (S754_finite false 4503599627370496 (-53)))] ∧
  fst (DatasetStats.num_instances (DatasetStats.__init__ Examples.dataset_3))
    = Ok 3 ∧
  fst (DatasetStats.num_positive_instances
         (DatasetStats.__init__ Examples.dataset_3)) = Ok 2 ∧
  fst (DatasetStats.num_negative_instances
         (DatasetStats.__init__ Examples.dataset_3)) = Ok 1 ∧
  float_of_string "0.5" = Ok (S754_finite false 4503599627370496 (-53)).
Proof. repeat split; vm_compute; reflexivity. Qed.

(** C9.  On the empty dataset [get_stats] raises an [IndexError], and
    so does every property that runs [_calculate]: it reads
    [self._rows_stats[0]]. *)
Theorem get_stats_empty :
  fst (DatasetStats.get_stats (DatasetStats.__init__ [])) = Raise IndexError ∧
  fst (DatasetStats._calculate (DatasetStats.__init__ [])) = Raise IndexError ∧
  fst (DatasetStats.num_instances (DatasetStats.__init__ [])) = Raise IndexError ∧
  fst (DatasetStats.num_features (DatasetStats.__init__ [])) = Raise IndexError ∧
  fst (DatasetStats.num_go_features (DatasetStats.__init__ [])) = Raise IndexError ∧
  fst (DatasetStats.num_ppi_features (DatasetStats.__init__ [])) = Raise IndexError ∧
  fst (DatasetStats.rows_stats (DatasetStats.__init__ [])) = Raise IndexError ∧
  fst (DatasetStats.avg_rows_stats (DatasetStats.__init__ [])) = Raise IndexError ∧
  (∀ dataset stats,
     fst (DatasetStats.get_stats (DatasetStats.__init__ dataset)) = Ok stats →
     dataset ≠ []).
Proof.
  do 8 (split; [vm_compute; reflexivity|]).
  intros dataset stats H ->. vm_compute in H. discriminate H.
Qed.

(* ================================================================== *)
(** * DatasetStats: [_calculate] *)
(* ================================================================== *)

Lemma at_row_ok_inv {A} i (c : M RowStats.t A) s a s' :
  DatasetStats.at_row i c s = (Ok a, s') →
  ∃ l rs rs', DatasetStats._rows_stats s = Some l ∧ l !! i = Some rs ∧
    c rs = (Ok a, rs') ∧
    s' = DatasetStats.set_rows_stats (Some (<[i := rs']> l)) s.
Proof.
  unfold DatasetStats.at_row.
  destruct (DatasetStats._rows_stats s) as [l|]; [|done].
  destruct (l !! i) as [rs|] eqn:E; [|done].
  destruct (c rs) as [r rs'] eqn:Hc. intros [= -> <-]. eauto 10.
Qed.

Lemma at_row_run {A} i (c : M RowStats.t A) s l rs r rs' :
  DatasetStats._rows_stats s = Some l → l !! i = Some rs → c rs = (r, rs') →
  DatasetStats.at_row i c s
  = (r, DatasetStats.set_rows_stats (Some (<[i := rs']> l)) s).
Proof.
  intros Hl Hi Hc. unfold DatasetStats.at_row. by rewrite Hl, Hi, Hc.
Qed.

Lemma set_rows_stats_id s l :
  DatasetStats._rows_stats s = Some l →
  DatasetStats.set_rows_stats (Some l) s = s.
Proof. destruct s; cbn. by intros ->. Qed.

Lemma attr_run {A} (f : DatasetStats.t -> option A) s v :
  f s = Some v → DatasetStats.attr f s = (Ok v, s).
Proof. unfold DatasetStats.attr. by intros ->. Qed.

Lemma attr_ok_inv {A} (f : DatasetStats.t -> option A) s v s' :
  DatasetStats.attr f s = (Ok v, s') → f s = Some v ∧ s' = s.
Proof.
  unfold DatasetStats.attr. destruct (f s); intros H; by inversion H.
Qed.

(** ** The cached attributes *)

Section Properties.
Variable calc : M DatasetStats.t unit.

(** A property whose attribute is set returns it. *)
Lemma property_run {A} (f : DatasetStats.t -> option A) s v :
  f s = Some v →
  (x <- gets f ;;
   match x with None => calc | Some _ => ret tt end ;;
   DatasetStats.attr f) s = (Ok v, s).
Proof.
  intros H. unfold bind, gets. rewrite H. cbn. by apply attr_run.
Qed.

(** A property that returns found its attribute set, or ran
    [_calculate]. *)
Lemma property_ok_inv {A} (f : DatasetStats.t -> option A) s v s' :
  (x <- gets f ;;
   match x with None => calc | Some _ => ret tt end ;;
   DatasetStats.attr f) s = (Ok v, s') →
  f s' = Some v ∧
  ((f s = Some v ∧ s' = s) ∨ (f s = None ∧ calc s = (Ok tt, s'))).
Proof.
  unfold bind at 1. unfold gets at 1. destruct (f s) as [w|] eqn:E.
  - unfold bind, ret. intros H. apply attr_ok_inv in H as [H ->].
    split; [done|]. left. split; [congruence|done].
  - intros H. apply bind_ok_inv in H as ([] & s1 & H1 & H2).
    apply attr_ok_inv in H2 as [H2 ->]. split; [done|]. by right.
Qed.

Lemma num_instances_run s p n :
  DatasetStats._num_positive_instances s = Some p →
  DatasetStats._num_negative_instances s = Some n →
  DatasetStats.num_instances' calc s = (Ok (p + n), s).
Proof.
  intros Hp Hn. unfold DatasetStats.num_instances',
    DatasetStats.num_positive_instances',
    DatasetStats.num_negative_instances'.
  rewrite (bind_ok _ _ _ _ _ (property_run _ s p Hp)).
  by rewrite (bind_ok _ _ _ _ _ (property_run _ s n Hn)).
Qed.

End Properties.

(** ** The loop of [_calculate] *)

Lemma filter_cons_negative row rows :
  count_negative (row :: rows)
  = (if decide (is_negative row) then 1 else 0) + count_negative rows.
Proof.
  unfold count_negative. rewrite filter_cons.
  destruct (decide (is_negative row)); cbn [length]; lia.
Qed.

Lemma filter_cons_positive row rows :
  count_positive (row :: rows)
  = (if decide (is_positive row) then 1 else 0) + count_positive rows.
Proof.
  unfold count_positive. rewrite filter_cons.
  destruct (decide (is_positive row)); cbn [length]; lia.
Qed.

Lemma class_cases row c :
  Row.getitem row "class" = Ok c →
  (c = "0" ∧ is_negative row ∧ ¬ is_positive row) ∨
  (c ≠ "0" ∧ ¬ is_negative row ∧ is_positive row).
Proof.
  intros Hc. unfold is_negative, is_positive.
  destruct (decide (c = "0")) as [->|Hne].
  - left. split; [done|]. split; [done|]. intros (c & H1 & H2). congruence.
  - right. split; [done|]. split; [congruence|eauto].
Qed.

Lemma count_positive_negative rows :
  Forall has_class rows →
  count_positive rows + count_negative rows = Z.of_nat (length rows).
Proof.
  induction 1 as [|row rows [c Hc] _ IH].
  - done.
  - rewrite filter_cons_negative, filter_cons_positive. cbn [length].
    destruct (class_cases row c Hc) as [(_ & Hn & Hp)|(_ & Hn & Hp)].
    + rewrite (decide_True _ _ Hn), (decide_False _ _ Hp). lia.
    + rewrite (decide_False _ _ Hn), (decide_True _ _ Hp). lia.
Qed.

(** The state the loop leaves when every row has a class. *)
Lemma calculate_loop_run rows : ∀ s p n l,
  DatasetStats._num_positive_instances s = Some p →
  DatasetStats._num_negative_instances s = Some n →
  DatasetStats._rows_stats s = Some l →
  Forall has_class rows →
  for_each rows DatasetStats._calculate_loop s
  = (Ok tt,
     DatasetStats.mk (DatasetStats.dataset s)
       (Some (p + count_positive rows)) (Some (n + count_negative rows))
       (DatasetStats._num_features s) (DatasetStats._num_go_features s)
       (DatasetStats._num_ppi_features s)
       (Some (l ++ map RowStats.__init__ rows)%list)
       (DatasetStats._avg_rows_stats s)).
Proof.
  induction rows as [|row rows IH]; intros s p n l Hp Hn Hl Hc.
  - cbn. unfold ret. f_equal. destruct s; cbn in *. subst.
    unfold count_positive, count_negative. cbn.
    by rewrite !Z.add_0_r, app_nil_r.
  - apply Forall_cons in Hc as [[c Hc] Hcs]. cbn [for_each].
    rewrite filter_cons_negative, filter_cons_positive.
    unfold bind at 1. unfold DatasetStats._calculate_loop at 1.
    unfold bind at 1. unfold lift at 1. rewrite Hc.
    destruct (class_cases row c Hc) as [(-> & Hneg & Hpos)|(Hne & Hneg & Hpos)].
    + rewrite (decide_True _ _ Hneg), (decide_False _ _ Hpos).
      change (String.eqb "0" "0") with true. cbv iota.
      unfold bind, modify. rewrite (attr_run _ _ _ Hn). cbn.
      rewrite (attr_run _ (DatasetStats.set_num_negative_instances _ s) l Hl).
      rewrite (IH _ p (n + 1) (l ++ [RowStats.__init__ row])%list); try done.
      cbn. do 2 f_equal; [f_equal; lia|by rewrite <- app_assoc].
    + rewrite (decide_False _ _ Hneg), (decide_True _ _ Hpos).
      apply String.eqb_neq in Hne. rewrite Hne.
      unfold bind, modify. rewrite (attr_run _ _ _ Hp). cbn.
      rewrite (attr_run _ (DatasetStats.set_num_positive_instances _ s) l Hl).
      rewrite (IH _ (p + 1) n (l ++ [RowStats.__init__ row])%list); try done.
      cbn. do 2 f_equal; [f_equal; lia|by rewrite <- app_assoc].
Qed.

(** A row without a class stops the loop. *)
Lemma calculate_loop_ok_inv rows : ∀ s s',
  is_Some (DatasetStats._num_positive_instances s) →
  is_Some (DatasetStats._num_negative_instances s) →
  is_Some (DatasetStats._rows_stats s) →
  for_each rows DatasetStats._calculate_loop s = (Ok tt, s') →
  Forall has_class rows.
Proof.
  induction rows as [|row rows IH]; intros s s' Hp Hn Hl H; [constructor|].
  cbn [for_each] in H. apply bind_ok_inv in H as ([] & s1 & H1 & H2).
  assert (Hc : has_class row).
  { unfold DatasetStats._calculate_loop in H1.
    apply bind_ok_inv in H1 as (c & s2 & H1 & _).
    unfold lift in H1. exists c. congruence. }
  constructor; [done|].
  pose proof (calculate_loop_run [row] s) as Hrun.
  destruct Hp as [p Hp], Hn as [n Hn], Hl as [l Hl].
  specialize (Hrun p n l Hp Hn Hl (Forall_cons_2 _ _ _ Hc (Forall_nil_2 _))).
  cbn [for_each] in Hrun. unfold bind at 1 in Hrun. rewrite H1 in Hrun.
  unfold ret in Hrun. injection Hrun as ->.
  eapply IH; [| | |exact H2]; cbn; eauto.
Qed.

(** ** Method calls on the [RowStats] objects *)

Lemma same_but_rows_refl s : same_but_rows s s.
Proof. by repeat split. Qed.

Lemma same_but_rows_trans a b c :
  same_but_rows a b → same_but_rows b c → same_but_rows a c.
Proof.
  intros (A1 & A2 & A3 & A4 & A5 & A6 & A7) (B1 & B2 & B3 & B4 & B5 & B6 & B7).
  repeat split; congruence.
Qed.

Lemma same_but_rows_set s l : same_but_rows s (DatasetStats.set_rows_stats l s).
Proof. by repeat split. Qed.

Lemma rows_inv_init dataset : rows_inv dataset (map RowStats.__init__ dataset).
Proof.
  induction dataset as [|row rows IH]; constructor; [|exact IH].
  split; [done|apply coherent_init].
Qed.

Lemma rows_inv_insert dataset l i row rs :
  rows_inv dataset l → dataset !! i = Some row →
  RowStats.row rs = row → coherent rs →
  rows_inv dataset (<[i := rs]> l).
Proof.
  intros H Hi Hr Hc. unfold rows_inv.
  rewrite <- (list_insert_id dataset i row Hi).
  apply Forall2_insert; [exact H|done].
Qed.

(** A successful call of a stable method on the [i]-th object. *)
Lemma at_row_stable {A} i (c : M RowStats.t A) s a s' l :
  stable c →
  DatasetStats._rows_stats s = Some l →
  rows_inv (DatasetStats.dataset s) l →
  DatasetStats.at_row i c s = (Ok a, s') →
  ∃ row rs rs',
    DatasetStats.dataset s !! i = Some row ∧ l !! i = Some rs ∧
    RowStats.row rs = row ∧ coherent rs ∧ c rs = (Ok a, rs') ∧
    rs_le rs rs' ∧ coherent rs' ∧
    s' = DatasetStats.set_rows_stats (Some (<[i := rs']> l)) s ∧
    rows_inv (DatasetStats.dataset s) (<[i := rs']> l).
Proof.
  intros Hst Hl Hinv H.
  apply at_row_ok_inv in H as (l0 & rs & rs' & Hl0 & Hi & Hc & ->).
  assert (l0 = l) as -> by congruence.
  destruct (Forall2_lookup_r _ _ _ _ _ Hinv Hi) as (row & Hrow & Hr & Hcoh).
  destruct (Hst _ _ _ Hcoh Hc) as (Hcoh' & Hle & _).
  exists row, rs, rs'. split_and!; try done.
  eapply rows_inv_insert; eauto. destruct Hle as [-> _]. done.
Qed.

(** ** [_validate] *)

Lemma validate_loop_step i s s' l a b c :
  DatasetStats._rows_stats s = Some l →
  rows_inv (DatasetStats.dataset s) l →
  DatasetStats._num_features s = Some a →
  DatasetStats._num_go_features s = Some b →
  DatasetStats._num_ppi_features s = Some c →
  DatasetStats._validate_loop i s = (Ok tt, s') →
  ∃ l' row,
    DatasetStats._rows_stats s' = Some l' ∧
    rows_inv (DatasetStats.dataset s) l' ∧ length l' = length l ∧
    same_but_rows s s' ∧
    DatasetStats.dataset s !! i = Some row ∧ feature_counts row = (a, b, c).
Proof.
  intros Hl Hinv Ha Hb Hc H. unfold DatasetStats._validate_loop in H.
  apply bind_ok_inv in H as ([] & s1 & H1 & H).
  destruct (at_row_stable _ _ _ _ _ _ stable_validate Hl Hinv H1)
    as (row & rs & rs1 & Hrow & Hi & Hr & Hcoh & _ & Hle1 & Hcoh1 & -> & Hinv1).
  set (s1 := DatasetStats.set_rows_stats _ s) in *.
  assert (F1 : same_but_rows s s1) by apply same_but_rows_set.
  apply bind_ok_inv in H as (nf & s1' & Hg & H).
  unfold gets in Hg. injection Hg as <- <-.
  apply bind_ok_inv in H as (rnf & s2 & H2 & H).
  assert (Hl1 : DatasetStats._rows_stats s1 = Some (<[i:=rs1]> l)) by done.
  destruct (at_row_stable _ _ _ _ _ _ stable_num_features Hl1 Hinv1 H2)
    as (row2 & rs2 & rs2' & Hrow2 & Hi2 & Hr2 & Hcoh2 & Hn2 & Hle2 & Hcoh2'
        & -> & Hinv2).
  rewrite (num_features_run _ Hcoh2) in Hn2. injection Hn2 as <- _.
  set (s2 := DatasetStats.set_rows_stats _ s1) in *.
  apply bind_ok_inv in H as ([] & s2' & Has & H).
  apply assert_ok_inv in Has as [Has ->]. apply bool_decide_eq_true in Has.
  apply bind_ok_inv in H as (ngo & s2' & Hg & H).
  unfold gets in Hg. injection Hg as <- <-.
  apply bind_ok_inv in H as (rngo & s3 & H3 & H).
  assert (Hl2 : DatasetStats._rows_stats s2 = Some (<[i:=rs2']> (<[i:=rs1]> l)))
    by done.
  destruct (at_row_stable _ _ _ _ _ _ stable_num_go_features Hl2 Hinv2 H3)
    as (row3 & rs3 & rs3' & Hrow3 & Hi3 & Hr3 & Hcoh3 & Hn3 & Hle3 & Hcoh3'
        & -> & Hinv3).
  rewrite (num_go_features_run _ Hcoh3) in Hn3. injection Hn3 as <- _.
  set (s3 := DatasetStats.set_rows_stats _ s2) in *.
  apply bind_ok_inv in H as ([] & s3' & Hbs & H).
  apply assert_ok_inv in Hbs as [Hbs ->]. apply bool_decide_eq_true in Hbs.
  apply bind_ok_inv in H as (nppi & s3' & Hg & H).
  unfold gets in Hg. injection Hg as <- <-.
  apply bind_ok_inv in H as (rnppi & s4 & H4 & H).
  assert (Hl3 : DatasetStats._rows_stats s3
                = Some (<[i:=rs3']> (<[i:=rs2']> (<[i:=rs1]> l)))) by done.
  destruct (at_row_stable _ _ _ _ _ _ stable_num_ppi_features Hl3 Hinv3 H4)
    as (row4 & rs4 & rs4' & Hrow4 & Hi4 & Hr4 & Hcoh4 & Hn4 & Hle4 & Hcoh4'
        & -> & Hinv4).
  rewrite (num_ppi_features_run _ Hcoh4) in Hn4. injection Hn4 as <- _.
  apply assert_ok_inv in H as [Hcs ->]. apply bool_decide_eq_true in Hcs.
  eexists _, row. split; [reflexivity|]. split; [exact Hinv4|].
  split; [by rewrite !length_insert|]. split; [by repeat split|].
  split; [exact Hrow|].
  assert (row2 = row) as -> by (cbn in Hrow2; congruence).
  assert (row3 = row) as -> by (cbn in Hrow3; congruence).
  assert (row4 = row) as -> by (cbn in Hrow4; congruence).
  unfold feature_counts. rewrite Hr2 in Has. rewrite Hr3 in Hbs.
  rewrite Hr4 in Hcs. cbn in Has, Hbs, Hcs. congruence.
Qed.

Lemma validate_loop_ok idxs : ∀ s s' l a b c,
  DatasetStats._rows_stats s = Some l →
  rows_inv (DatasetStats.dataset s) l →
  DatasetStats._num_features s = Some a →
  DatasetStats._num_go_features s = Some b →
  DatasetStats._num_ppi_features s = Some c →
  for_each idxs DatasetStats._validate_loop s = (Ok tt, s') →
  ∃ l',
    DatasetStats._rows_stats s' = Some l' ∧
    rows_inv (DatasetStats.dataset s) l' ∧ length l' = length l ∧
    same_but_rows s s' ∧
    ∀ i, i ∈ idxs →
      ∃ row, DatasetStats.dataset s !! i = Some row ∧
             feature_counts row = (a, b, c).
Proof.
  induction idxs as [|i idxs IH]; intros s s' l a b c Hl Hinv Ha Hb Hc H.
  - cbn in H. injection H as <-. exists l. repeat split; try done.
    intros i Hi. by apply elem_of_nil in Hi.
  - cbn [for_each] in H. apply bind_ok_inv in H as ([] & s1 & H1 & H2).
    destruct (validate_loop_step _ _ _ _ _ _ _ Hl Hinv Ha Hb Hc H1)
      as (l1 & row & Hl1 & Hinv1 & Hlen1 & F1 & Hrow & Hfc).
    destruct F1 as (D1 & P1 & N1 & A1 & B1 & C1 & V1).
    rewrite <- D1 in Hinv1.
    destruct (IH s1 s' l1 a b c Hl1 Hinv1) as (l' & Hl' & Hinv' & Hlen' & F' & Hall);
      try congruence.
    exists l'. split; [done|]. split; [by rewrite <- D1|].
    split; [congruence|]. split.
    { eapply same_but_rows_trans; [|exact F']. by repeat split. }
    intros j Hj. apply elem_of_cons in Hj as [->|Hj]; [eauto|].
    destruct (Hall j Hj) as (row' & Hr' & Hf'). rewrite D1 in Hr'. eauto.
Qed.

Lemma validate_ok calc s s' l p n a b c :
  DatasetStats._num_positive_instances s = Some p →
  DatasetStats._num_negative_instances s = Some n →
  DatasetStats._rows_stats s = Some l →
  rows_inv (DatasetStats.dataset s) l →
  DatasetStats._num_features s = Some a →
  DatasetStats._num_go_features s = Some b →
  DatasetStats._num_ppi_features s = Some c →
  DatasetStats._validate' calc s = (Ok tt, s') →
  ∃ l',
    DatasetStats._rows_stats s' = Some l' ∧
    rows_inv (DatasetStats.dataset s) l' ∧ same_but_rows s s' ∧
    ∀ row, row ∈ DatasetStats.dataset s → feature_counts row = (a, b, c).
Proof.
  intros Hp Hn Hl Hinv Ha Hb Hc H. unfold DatasetStats._validate' in H.
  rewrite (bind_ok _ _ _ _ _ (num_instances_run calc s p n Hp Hn)) in H.
  unfold DatasetStats.num_negative_instances' in H.
  rewrite (bind_ok _ _ _ _ _ (property_run calc _ s n Hn)) in H.
  unfold DatasetStats.num_positive_instances' in H.
  rewrite (bind_ok _ _ _ _ _ (property_run calc _ s p Hp)) in H.
  apply bind_ok_inv in H as ([] & s1 & H1 & H).
  apply assert_ok_inv in H1 as [_ ->].
  unfold DatasetStats.rows_stats' in H.
  rewrite (bind_ok _ _ _ _ _ (property_run calc _ s l Hl)) in H.
  destruct (validate_loop_ok _ _ _ _ _ _ _ Hl Hinv Ha Hb Hc H)
    as (l' & Hl' & Hinv' & Hlen & F & Hall).
  exists l'. split_and!; try done.
  intros row Hrow. apply list_elem_of_lookup in Hrow as [i Hi].
  destruct (Hall i) as (row' & Hr' & Hf').
  - apply elem_of_seq. split; [lia|]. cbn.
    rewrite <- (Forall2_length _ _ _ Hinv). by eapply lookup_lt_Some.
  - congruence.
Qed.

Lemma bind_modify {S B} (f : S -> S) (k : unit -> M S B) s :
  bind (modify f) k s = k tt (f s).
Proof. done. Qed.

Lemma bind_gets {S A B} (f : S -> A) (k : A -> M S B) s :
  bind (gets f) k s = k (f s) s.
Proof. done. Qed.

(** States the list of [RowStats] objects of the state [H] runs from. *)
Ltac rows_of H Hl :=
  match type of H with
  | DatasetStats.at_row _ _ ?st = _ =>
      let L := eval cbn in (DatasetStats._rows_stats st) in
      assert (Hl : DatasetStats._rows_stats st = L) by reflexivity
  | DatasetStats._validate' _ ?st = _ =>
      let L := eval cbn in (DatasetStats._rows_stats st) in
      assert (Hl : DatasetStats._rows_stats st = L) by reflexivity
  end.

(** What [_calculate] has established when it returns. *)
Lemma calculate_ok calc s s' :
  DatasetStats._calculate' calc s = (Ok tt, s') →
  DatasetStats.dataset s' = DatasetStats.dataset s ∧
  DatasetStats._avg_rows_stats s' = DatasetStats._avg_rows_stats s ∧
  Forall has_class (DatasetStats.dataset s) ∧
  DatasetStats._num_positive_instances s'
    = Some (count_positive (DatasetStats.dataset s)) ∧
  DatasetStats._num_negative_instances s'
    = Some (count_negative (DatasetStats.dataset s)) ∧
  ∃ row0 l',
    DatasetStats.dataset s !! 0%nat = Some row0 ∧
    DatasetStats._num_features s' = Some (RowStats.len (all_names row0)) ∧
    DatasetStats._num_go_features s' = Some (RowStats.len (go_names row0)) ∧
    DatasetStats._num_ppi_features s' = Some (RowStats.len (ppi_names row0)) ∧
    DatasetStats._rows_stats s' = Some l' ∧
    rows_inv (DatasetStats.dataset s) l' ∧
    ∀ row, row ∈ DatasetStats.dataset s →
           feature_counts row = feature_counts row0.
Proof.
  intros H. unfold DatasetStats._calculate' in H.
  rewrite !bind_modify, bind_gets in H.
  set (s0 := DatasetStats.set_rows_stats (Some [])
               (DatasetStats.set_num_negative_instances (Some 0)
                  (DatasetStats.set_num_positive_instances (Some 0) s))) in *.
  change (DatasetStats.dataset s0) with (DatasetStats.dataset s) in H.
  apply bind_ok_inv in H as ([] & s1 & H1 & H).
  assert (Hcls : Forall has_class (DatasetStats.dataset s)).
  { eapply (calculate_loop_ok_inv _ s0); [..|exact H1]; cbn; eauto. }
  rewrite (calculate_loop_run _ s0 0 0 [] eq_refl eq_refl eq_refl Hcls) in H1.
  injection H1 as <-. cbn [app] in H. rewrite !Z.add_0_l in H.
  set (s1 := DatasetStats.mk _ _ _ _ _ _ _ _) in H.
  pose proof (rows_inv_init (DatasetStats.dataset s)) as Hinv1.
  (* the three reference counts *)
  apply bind_ok_inv in H as (nf & s2 & H2 & H).
  destruct (at_row_stable 0 _ s1 _ _ _ stable_num_features eq_refl Hinv1 H2)
    as (row0 & rs & rs2 & Hrow0 & Hi & Hr & Hcoh & Hn2 & _ & _ & -> & Hinv2).
  rewrite (num_features_run _ Hcoh) in Hn2. injection Hn2 as <- _.
  rewrite bind_modify in H.
  apply bind_ok_inv in H as (ngo & s3 & H3 & H).
  rows_of H3 Hl3.
  destruct (at_row_stable 0 _ _ _ _ _ stable_num_go_features Hl3 Hinv2 H3)
    as (row0' & rs' & rs3 & Hrow0' & Hi' & Hr' & Hcoh' & Hn3 & _ & _ & -> & Hinv3).
  rewrite (num_go_features_run _ Hcoh') in Hn3. injection Hn3 as <- _.
  rewrite bind_modify in H.
  apply bind_ok_inv in H as (nppi & s4 & H4 & H).
  rows_of H4 Hl4.
  destruct (at_row_stable 0 _ _ _ _ _ stable_num_ppi_features Hl4 Hinv3 H4)
    as (row0'' & rs'' & rs4 & Hrow0'' & Hi'' & Hr'' & Hcoh'' & Hn4 & _ & _ & ->
        & Hinv4).
  rewrite (num_ppi_features_run _ Hcoh'') in Hn4. injection Hn4 as <- _.
  rewrite bind_modify in H.
  cbn in Hrow0, Hrow0', Hrow0''.
  assert (row0' = row0) as -> by congruence.
  assert (row0'' = row0) as -> by congruence.
  rewrite Hr, Hr', Hr'' in H.
  rows_of H Hl5.
  match type of H with
  | DatasetStats._validate' _ ?st = _ =>
      assert (Hp5 : DatasetStats._num_positive_instances st
                = Some (count_positive (DatasetStats.dataset s)))
        by reflexivity;
      assert (Hn5 : DatasetStats._num_negative_instances st
                = Some (count_negative (DatasetStats.dataset s)))
        by reflexivity;
      assert (Ha5 : DatasetStats._num_features st
                = Some (RowStats.len (all_names row0))) by reflexivity;
      assert (Hb5 : DatasetStats._num_go_features st
                = Some (RowStats.len (go_names row0))) by reflexivity;
      assert (Hc5 : DatasetStats._num_ppi_features st
                = Some (RowStats.len (ppi_names row0))) by reflexivity
  end.
  destruct (validate_ok calc _ _ _ _ _ _ _ _ Hp5 Hn5 Hl5 Hinv4 Ha5 Hb5 Hc5 H)
    as (l' & Hl' & Hinv' & F & Hall).
  destruct F as (D & P & N & A & B & C & V). cbn in D, P, N, A, B, C, V, Hall.
  split_and!; try done.
  exists row0, l'. split_and!; try done.
Qed.

(** ** [_calculate] as the properties call it *)

Lemma calculate_unfold :
  DatasetStats._calculate
  = DatasetStats._calculate' (DatasetStats._calculate_at 999).
Proof. reflexivity. Qed.

Lemma calculates_calculate' calc : calculates (DatasetStats._calculate' calc).
Proof.
  intros s s' H. apply calculate_ok in H
    as (D & V & _ & P & N & row0 & l' & _ & A & B & C & L & Hinv & _).
  split; [done|]. split; [done|]. split.
  - unfold calculated. rewrite P, N, A, B, C, L. split_and!; eauto.
  - intros l Hl. rewrite D. congruence.
Qed.

Lemma calculates_calculate : calculates DatasetStats._calculate.
Proof. rewrite calculate_unfold. apply calculates_calculate'. Qed.

(** The first property read on a new object runs [_calculate]. *)
Lemma num_instances_init_inv calc dataset v s1 :
  calculates calc →
  DatasetStats.num_instances' calc (DatasetStats.__init__ dataset) = (Ok v, s1) →
  calc (DatasetStats.__init__ dataset) = (Ok tt, s1) ∧
  ∃ p n, DatasetStats._num_positive_instances s1 = Some p ∧
         DatasetStats._num_negative_instances s1 = Some n ∧ v = p + n.
Proof.
  intros Hcalc H. unfold DatasetStats.num_instances' in H.
  apply bind_ok_inv in H as (p & sa & Hp & H).
  apply bind_ok_inv in H as (n & sb & Hn & H).
  injection H as <- <-.
  apply property_ok_inv in Hp as [Hp' [[Hp _]|[_ Hp]]]; [discriminate Hp|].
  destruct (Hcalc _ _ Hp) as (_ & _ & (_ & [n' Hn'] & _) & _).
  apply property_ok_inv in Hn as [Hn'' [[Hn ->]|[Hn _]]]; [|congruence].
  split; [done|]. exists p, n. done.
Qed.

Lemma get_stats_ok_calculate dataset stats s' :
  DatasetStats.get_stats (DatasetStats.__init__ dataset) = (Ok stats, s') →
  ∃ s1, DatasetStats._calculate (DatasetStats.__init__ dataset) = (Ok tt, s1).
Proof.
  intros H. unfold DatasetStats.get_stats, DatasetStats.get_stats' in H.
  apply bind_ok_inv in H as (v & s1 & H1 & _).
  apply num_instances_init_inv in H1 as [H1 _]; [eauto|].
  apply calculates_calculate.
Qed.

(** The feature counts the code computes for a row. *)
Lemma feature_counts_code row :
  fst (RowStats.num_features (RowStats.__init__ row))
    = Ok (RowStats.len (all_names row)) ∧
  fst (RowStats.num_go_features (RowStats.__init__ row))
    = Ok (RowStats.len (go_names row)) ∧
  fst (RowStats.num_ppi_features (RowStats.__init__ row))
    = Ok (RowStats.len (ppi_names row)).
Proof.
  pose proof (coherent_init row) as Hc.
  rewrite (num_features_run _ Hc), (num_go_features_run _ Hc),
    (num_ppi_features_run _ Hc). done.
Qed.

(** ** main *)

Lemma main_unfold arff_load argv p :
  Main.main arff_load argv p
  = for_each (tail argv) (fun arff_file_path =>
      dataset <- lift (arff_load arff_file_path) ;;
      stats <- Main.new_dataset_stats dataset ;;
      let dataset_stats := Main.report arff_file_path stats in
      ph <- gets Main.print_header ;;
      (if ph then
         modify (Main.set_w (keys dataset_stats)) ;;
         Main.writeheader ;;
         modify (Main.set_print_header false)
       else ret tt) ;;
      Main.writerow dataset_stats)
      (Main.set_print_header true (Main.set_w [] p)).
Proof. reflexivity. Qed.

(** A dataset whose statistics fail stops [main] before it writes. *)
Lemma main_fatal arff_load prog before path after dataset p :
  arff_load path = Ok dataset →
  is_ok (fst (DatasetStats.get_stats (DatasetStats.__init__ dataset))) = false →
  is_ok (fst (Main.main arff_load (prog :: before ++ path :: after) p)) = false ∧
  Main.stdout (snd (Main.main arff_load (prog :: before ++ path :: after) p))
  = Main.stdout (snd (Main.main arff_load (prog :: before) p)).
Proof.
  intros Hload Hfail. rewrite !main_unfold. cbn [tail].
  rewrite for_each_app.
  destruct (for_each before _ _) as [[[]|e] s1] eqn:E.
  - rewrite (bind_ok _ _ _ _ _ E). cbn [for_each].
    assert (Hbody : ∀ k, bind (A:=unit)
      (dataset <- lift (arff_load path) ;;
       stats <- Main.new_dataset_stats dataset ;; k stats) (fun _ => for_each after
         (fun arff_file_path =>
            dataset <- lift (arff_load arff_file_path) ;;
            stats <- Main.new_dataset_stats dataset ;;
            let dataset_stats := Main.report arff_file_path stats in
            ph <- gets Main.print_header ;;
            (if ph then
               modify (Main.set_w (keys dataset_stats)) ;;
               Main.writeheader ;;
               modify (Main.set_print_header false)
             else ret tt) ;;
            Main.writerow dataset_stats)) s1
      = (Raise match fst (DatasetStats.get_stats (DatasetStats.__init__ dataset))
               with Raise e => e | Ok _ => TypeError end, s1)).
    { intros k. unfold bind, lift, Main.new_dataset_stats. rewrite Hload.
      destruct (fst (DatasetStats.get_stats _)); [discriminate Hfail|done]. }
    rewrite Hbody. done.
  - rewrite (bind_raise _ _ _ _ _ E). done.
Qed.

(** C4.  A dataset in which some row has a number of features, of GO
    features or of PPI features other than that of the first row makes
    [_calculate], and with it [get_stats], raise; [main] then stops
    before it writes anything for that dataset: its output is what the
    files before it gave. *)
Theorem heterogeneous_dataset_fatal (dataset : list Row.t) (i : nat)
  (row0 row : Row.t)
  (H0 : dataset !! 0%nat = Some row0) (Hi : dataset !! i = Some row)
  (Hdiff :
     fst (RowStats.num_features (RowStats.__init__ row))
       ≠ fst (RowStats.num_features (RowStats.__init__ row0)) ∨
     fst (RowStats.num_go_features (RowStats.__init__ row))
       ≠ fst (RowStats.num_go_features (RowStats.__init__ row0)) ∨
     fst (RowStats.num_ppi_features (RowStats.__init__ row))
       ≠ fst (RowStats.num_ppi_features (RowStats.__init__ row0))) :
  is_ok (fst (DatasetStats._calculate (DatasetStats.__init__ dataset))) = false ∧
  is_ok (fst (DatasetStats.get_stats (DatasetStats.__init__ dataset))) = false ∧
  ∀ arff_load prog before path after p,
    arff_load path = Ok dataset →
    is_ok (fst (Main.main arff_load (prog :: before ++ path :: after) p))
      = false ∧
    Main.stdout (snd (Main.main arff_load (prog :: before ++ path :: after) p))
    = Main.stdout (snd (Main.main arff_load (prog :: before) p)).
Proof.
  assert (Hc : is_ok (fst (DatasetStats._calculate
                             (DatasetStats.__init__ dataset))) = false).
  { destruct (DatasetStats._calculate (DatasetStats.__init__ dataset))
      as [[[]|e] s1] eqn:E; [exfalso|done].
    rewrite calculate_unfold in E.
    apply calculate_ok in E as (_ & _ & _ & _ & _ & r0 & l' & Hr0 & _ & _ & _
                                & _ & _ & Hall).
    cbn in Hr0, Hall. assert (r0 = row0) as -> by congruence.
    assert (Hin : row ∈ dataset) by (apply list_elem_of_lookup; eauto).
    specialize (Hall row Hin). unfold feature_counts in Hall.
    injection Hall as Ea Eb Ec.
    destruct (feature_counts_code row) as (A1 & B1 & C1).
    destruct (feature_counts_code row0) as (A0 & B0 & C0).
    rewrite A1, A0, B1, B0, C1, C0 in Hdiff.
    destruct Hdiff as [Hd|[Hd|Hd]]; apply Hd; congruence. }
  assert (Hg : is_ok (fst (DatasetStats.get_stats
                             (DatasetStats.__init__ dataset))) = false).
  { destruct (DatasetStats.get_stats (DatasetStats.__init__ dataset))
      as [[stats|e] s1] eqn:E; [exfalso|done].
    apply get_stats_ok_calculate in E as [s0 E]. by rewrite E in Hc. }
  split; [exact Hc|]. split; [exact Hg|].
  intros arff_load prog before path after p Hload.
  by apply (main_fatal _ _ _ _ _ dataset).
Qed.

(** C4, on a dataset whose second row has three GO features where the
    first has two. *)
Lemma heterogeneous_dataset_fatal_witness :
  is_ok (fst (DatasetStats.get_stats
                (DatasetStats.__init__
                   [Examples.row_2_2 "0"; Examples.row_3_2 "1"]))) = false.
Proof.
  refine (proj1 (proj2 (heterogeneous_dataset_fatal
    [Examples.row_2_2 "0"; Examples.row_3_2 "1"] 1
    (Examples.row_2_2 "0") (Examples.row_3_2 "1") eq_refl eq_refl _))).
  right. left. vm_compute. intros H. discriminate H.
Defined.

(* ================================================================== *)
(** * The instance counts and the report *)
(* ================================================================== *)

Lemma property_init_run {A} calc (f : DatasetStats.t -> option A) s s1 v :
  f s = None → calc s = (Ok tt, s1) → f s1 = Some v →
  (x <- gets f ;;
   match x with None => calc | Some _ => ret tt end ;;
   DatasetStats.attr f) s = (Ok v, s1).
Proof.
  intros Hn Hc Hv. rewrite bind_gets, Hn. rewrite (bind_ok _ _ _ _ _ Hc).
  by apply attr_run.
Qed.

(** The statistics [get_stats] returns, field by field. *)
Lemma get_stats_ok_inv calc s stats s' :
  DatasetStats.get_stats' calc s = (Ok stats, s') →
  ∃ v1 v2 v3 v4 v5 v6 v7 v8 v9 v10 v11 v12 v13 s1 s2 s3,
    DatasetStats.num_instances' calc s = (Ok v1, s1) ∧
    DatasetStats.num_positive_instances' calc s1 = (Ok v2, s2) ∧
    DatasetStats.num_negative_instances' calc s2 = (Ok v3, s3) ∧
    stats = [("#Inst", NInt v1); ("#Pos", NInt v2); ("#Neg", NInt v3);
             ("%GO", v4); ("%PPI", v5);
             ("avg%GO=0", v6); ("avg%GO=1", v7); ("avg%PPI=0", v8);
             ("avg%PPI=(0;150]", v9); ("avg%PPI=(150;400]", v10);
             ("avg%PPI=(400;700]", v11); ("avg%PPI=(700;900]", v12);
             ("avg%PPI=(900;1000]", v13)].
Proof.
  intros H. unfold DatasetStats.get_stats' in H.
  apply bind_ok_inv in H as (v1 & s1 & H1 & H).
  apply bind_ok_inv in H as (v2 & s2 & H2 & H).
  apply bind_ok_inv in H as (v3 & s3 & H3 & H).
  do 10 (apply bind_ok_inv in H as (? & ? & _ & H)).
  injection H as <- _. eauto 20.
Qed.

(** C6.  When [_calculate] returns on a dataset, every row has a class,
    the rows counted as negative are those of class "0", the rows
    counted as positive are the others, and the number of instances is
    the sum of the two counts, which is the number of rows.  These are
    the values of '#Neg', '#Pos' and '#Inst' in the statistics. *)
Theorem instance_counts (dataset : list Row.t)
  (Hcalc : is_ok (fst (DatasetStats._calculate
                         (DatasetStats.__init__ dataset))) = true) :
  Forall has_class dataset ∧
  (∀ row, row ∈ dataset → is_positive row ↔ ¬ is_negative row) ∧
  fst (DatasetStats.num_negative_instances (DatasetStats.__init__ dataset))
    = Ok (count_negative dataset) ∧
  fst (DatasetStats.num_positive_instances (DatasetStats.__init__ dataset))
    = Ok (count_positive dataset) ∧
  fst (DatasetStats.num_instances (DatasetStats.__init__ dataset))
    = Ok (count_positive dataset + count_negative dataset) ∧
  count_positive dataset + count_negative dataset
    = Z.of_nat (length dataset) ∧
  ∀ stats,
    fst (DatasetStats.get_stats (DatasetStats.__init__ dataset)) = Ok stats →
    getitem stats "#Neg" = Ok (NInt (count_negative dataset)) ∧
    getitem stats "#Pos" = Ok (NInt (count_positive dataset)) ∧
    getitem stats "#Inst"
      = Ok (NInt (count_positive dataset + count_negative dataset)).
Proof.
  destruct (DatasetStats._calculate (DatasetStats.__init__ dataset))
    as [[[]|e] s1] eqn:E; [|discriminate Hcalc]. clear Hcalc.
  pose proof E as E'. rewrite calculate_unfold in E'.
  apply calculate_ok in E' as (_ & _ & Hcls & P & N & _). cbn in Hcls, P, N.
  assert (Hneg : DatasetStats.num_negative_instances
                   (DatasetStats.__init__ dataset)
                 = (Ok (count_negative dataset), s1)).
  { by apply property_init_run. }
  assert (Hpos : DatasetStats.num_positive_instances
                   (DatasetStats.__init__ dataset)
                 = (Ok (count_positive dataset), s1)).
  { by apply property_init_run. }
  assert (Hinst : DatasetStats.num_instances (DatasetStats.__init__ dataset)
                  = (Ok (count_positive dataset + count_negative dataset), s1)).
  { unfold DatasetStats.num_instances, DatasetStats.num_instances'.
    fold DatasetStats.num_positive_instances.
    rewrite (bind_ok _ _ _ _ _ Hpos).
    unfold DatasetStats.num_negative_instances'.
    by rewrite (bind_ok _ _ _ _ _ (property_run _ _ s1 _ N)). }
  split; [exact Hcls|]. split.
  { intros row Hrow. rewrite Forall_forall in Hcls.
    destruct (Hcls row Hrow) as [c Hc].
    destruct (class_cases row c Hc) as [(_ & Hn & Hp)|(_ & Hn & Hp)]; tauto. }
  split; [by rewrite Hneg|]. split; [by rewrite Hpos|].
  split; [by rewrite Hinst|].
  split; [by apply count_positive_negative|].
  intros stats Hs.
  destruct (DatasetStats.get_stats (DatasetStats.__init__ dataset))
    as [r s'] eqn:Hg. cbn in Hs. subst r.
  apply get_stats_ok_inv in Hg
    as (v1 & v2 & v3 & v4 & v5 & v6 & v7 & v8 & v9 & v10 & v11 & v12 & v13
        & t1 & t2 & t3 & H1 & H2 & H3 & ->).
  fold DatasetStats.num_instances in H1. rewrite Hinst in H1.
  injection H1 as <- <-.
  unfold DatasetStats.num_positive_instances' in H2.
  rewrite (property_run _ _ s1 _ P) in H2. injection H2 as <- <-.
  unfold DatasetStats.num_negative_instances' in H3.
  rewrite (property_run _ _ s1 _ N) in H3. injection H3 as <- <-.
  done.
Qed.

(** C6, on the dataset of three rows of classes "0", "1" and "1". *)
Lemma instance_counts_witness :
  fst (DatasetStats.num_negative_instances
         (DatasetStats.__init__ Examples.dataset_3))
    = Ok (count_negative Examples.dataset_3) ∧
  fst (DatasetStats.num_positive_instances
         (DatasetStats.__init__ Examples.dataset_3))
    = Ok (count_positive Examples.dataset_3) ∧
  count_negative Examples.dataset_3 = 1 ∧
  count_positive Examples.dataset_3 = 2.
Proof.
  destruct (instance_counts Examples.dataset_3) as (_ & _ & H1 & H2 & _).
  - vm_compute. reflexivity.
  - split; [exact H1|]. split; [exact H2|].
    split; vm_compute; reflexivity.
Defined.

(** C7, as the code has it.  When [get_stats] returns, the report that
    [main] hands to the CSV writer has exactly fourteen fields: the
    thirteen statistics, from '#Inst' to 'avg%PPI=(900;1000]', in the
    order of the specification, and then 'Dataset', which [main] adds
    last; the header and the record written follow this order. *)
Theorem report_fields (dataset : list Row.t) (stats : dict num) (path : string)
  (H : fst (DatasetStats.get_stats (DatasetStats.__init__ dataset)) = Ok stats) :
  keys stats
    = ["#Inst"; "#Pos"; "#Neg"; "%GO"; "%PPI";
       "avg%GO=0"; "avg%GO=1"; "avg%PPI=0"; "avg%PPI=(0;150]";
       "avg%PPI=(150;400]"; "avg%PPI=(400;700]";
       "avg%PPI=(700;900]"; "avg%PPI=(900;1000]"] ∧
  keys (Main.report path stats)
    = ["#Inst"; "#Pos"; "#Neg"; "%GO"; "%PPI";
       "avg%GO=0"; "avg%GO=1"; "avg%PPI=0"; "avg%PPI=(0;150]";
       "avg%PPI=(150;400]"; "avg%PPI=(400;700]";
       "avg%PPI=(700;900]"; "avg%PPI=(900;1000]"; "Dataset"] ∧
  dict_get (Main.report path stats) "Dataset"
    = Some (Main.VStr (slice path 10 (-17))) ∧
  ∀ arff_load prog,
    arff_load path = Ok dataset →
    Main.main arff_load [prog; path] Main.start
    = (Ok tt,
       Main.mk [Main.Header (keys (Main.report path stats));
                Main.Record (values (Main.report path stats))]
               (keys (Main.report path stats)) false).
Proof.
  destruct (DatasetStats.get_stats (DatasetStats.__init__ dataset))
    as [r s'] eqn:Hg. cbn in H. subst r.
  pose proof Hg as Hg'. apply get_stats_ok_inv in Hg'
    as (v1 & v2 & v3 & v4 & v5 & v6 & v7 & v8 & v9 & v10 & v11 & v12 & v13
        & t1 & t2 & t3 & _ & _ & _ & Hstats).
  split; [by rewrite Hstats|]. split; [by rewrite Hstats|].
  split; [by rewrite Hstats|].
  intros arff_load prog Hload. rewrite main_unfold. cbn [tail for_each].
  rewrite !bind_modify || idtac.
  unfold bind at 1. unfold bind at 1. unfold lift at 1. rewrite Hload.
  unfold bind at 1. unfold Main.new_dataset_stats at 1. unfold lift at 1.
  rewrite Hg. cbn [fst].
  rewrite Hstats. reflexivity.
Qed.

(** C7, on a dataset with a PPI value in each bucket. *)
Lemma report_fields_witness :
  ∃ stats,
    fst (DatasetStats.get_stats (DatasetStats.__init__ Examples.dataset_full))
      = Ok stats ∧
    keys (Main.report Examples.path stats)
    = ["#Inst"; "#Pos"; "#Neg"; "%GO"; "%PPI";
       "avg%GO=0"; "avg%GO=1"; "avg%PPI=0"; "avg%PPI=(0;150]";
       "avg%PPI=(150;400]"; "avg%PPI=(400;700]";
       "avg%PPI=(700;900]"; "avg%PPI=(900;1000]"; "Dataset"].
Proof.
  destruct (fst (DatasetStats.get_stats
                   (DatasetStats.__init__ Examples.dataset_full)))
    as [stats|e] eqn:E; [|vm_compute in E; discriminate E].
  exists stats. split; [reflexivity|].
  exact (proj1 (proj2 (report_fields Examples.dataset_full stats
                         Examples.path E))).
Defined.

(** The report of the dataset with a PPI value in each bucket does not
    start with 'Dataset': its first field is '#Inst', its last one
    'Dataset', and the header [main] writes is in this order. *)
Lemma report_fields_counterexample :
  ∃ stats,
    fst (DatasetStats.get_stats (DatasetStats.__init__ Examples.dataset_full))
      = Ok stats ∧
    head (keys (Main.report Examples.path stats)) = Some "#Inst" ∧
    last (keys (Main.report Examples.path stats)) = Some "Dataset" ∧
    head (Main.stdout
            (snd (Main.main (fun _ => Ok Examples.dataset_full)
                    ["stats.py"; Examples.path] Main.start)))
    = Some (Main.Header
              ["#Inst"; "#Pos"; "#Neg"; "%GO"; "%PPI";
               "avg%GO=0"; "avg%GO=1"; "avg%PPI=0"; "avg%PPI=(0;150]";
               "avg%PPI=(150;400]"; "avg%PPI=(400;700]";
               "avg%PPI=(700;900]"; "avg%PPI=(900;1000]"; "Dataset"]).
Proof.
  eexists. split; [vm_compute; reflexivity|].
  split; [vm_compute; reflexivity|].
  split; vm_compute; reflexivity.
Qed.

(* ================================================================== *)
(** * DatasetStats: results are cached *)
(* ================================================================== *)

Lemma Forall2_rs_le_refl l : Forall2 rs_le l l.
Proof. induction l; constructor; [apply rs_le_refl|done]. Qed.

Lemma Forall2_rs_le_trans a b c :
  Forall2 rs_le a b → Forall2 rs_le b c → Forall2 rs_le a c.
Proof.
  intros H. revert c. induction H as [|x y a b Hxy _ IH]; intros c Hc.
  - by inversion Hc.
  - inversion Hc as [|? z ? c' Hyz Hbc]; subst. constructor.
    + by eapply rs_le_trans.
    + by apply IH.
Qed.

Lemma ds_le_fields_refl s : ds_le_fields s s.
Proof.
  split_and!; try done. intros l Hl. exists l. split; [done|].
  apply Forall2_rs_le_refl.
Qed.

Lemma ds_le_fields_trans a b c :
  ds_le_fields a b → ds_le_fields b c → ds_le_fields a c.
Proof.
  intros (A1 & A2 & A3 & A4 & A5 & A6 & A7) (B1 & B2 & B3 & B4 & B5 & B6 & B7).
  split_and!; eauto; try congruence.
  intros l Hl. destruct (A7 l Hl) as (l1 & Hl1 & F1).
  destruct (B7 l1 Hl1) as (l2 & Hl2 & F2). exists l2. split; [done|].
  by eapply Forall2_rs_le_trans.
Qed.

Lemma ds_le_refl s : ds_le s s.
Proof. split; [apply ds_le_fields_refl|done]. Qed.

Lemma ds_le_trans a b c : ds_le a b → ds_le b c → ds_le a c.
Proof.
  intros [A1 A2] [B1 B2]. split; [by eapply ds_le_fields_trans|eauto].
Qed.

Lemma ds_inv_init dataset : ds_inv (DatasetStats.__init__ dataset).
Proof. split; [by left|]. intros l Hl. discriminate Hl. Qed.

(** ** Closure *)

Lemma ds_stable_ret {A} (a : A) : ds_stable (ret a).
Proof.
  intros s a' s' Hs H. inversion H; subst.
  split; [done|]. split; [apply ds_le_refl|done].
Qed.

Lemma ds_stable_lift {A} (r : result A) : ds_stable (lift r).
Proof.
  intros s a' s' Hs H. inversion H; subst.
  split; [done|]. split; [apply ds_le_refl|done].
Qed.

Lemma ds_stable_bind {A B} (c : M DatasetStats.t A)
  (k : A -> M DatasetStats.t B) :
  ds_stable c → (∀ a, ds_stable (k a)) → ds_stable (bind c k).
Proof.
  intros Hc Hk s b s' Hs H. apply bind_ok_inv in H as (a & s1 & H1 & H2).
  destruct (Hc _ _ _ Hs H1) as (Hs1 & Hle1 & Hre1).
  destruct (Hk a _ _ _ Hs1 H2) as (Hs' & Hle2 & Hre2).
  split; [done|]. split; [by eapply ds_le_trans|].
  intros s'' Hs'' Hle. rewrite (bind_ok _ _ _ a s'').
  - by apply Hre2.
  - apply Hre1; [done|]. by eapply ds_le_trans.
Qed.

Lemma ds_mono_ret {A} (a : A) : ds_mono (ret a).
Proof.
  intros s a' s' Hs H. inversion H; subst. split; [done|].
  apply ds_le_fields_refl.
Qed.

Lemma ds_mono_lift {A} (r : result A) : ds_mono (lift r).
Proof.
  intros s a' s' Hs H. inversion H; subst. split; [done|].
  apply ds_le_fields_refl.
Qed.

Lemma ds_mono_attr {A} (f : DatasetStats.t -> option A) :
  ds_mono (DatasetStats.attr f).
Proof.
  intros s a s' Hs H. apply attr_ok_inv in H as [_ ->]. split; [done|].
  apply ds_le_fields_refl.
Qed.

Lemma ds_mono_bind {A B} (c : M DatasetStats.t A)
  (k : A -> M DatasetStats.t B) :
  ds_mono c → (∀ a, ds_mono (k a)) → ds_mono (bind c k).
Proof.
  intros Hc Hk s b s' Hs H. apply bind_ok_inv in H as (a & s1 & H1 & H2).
  destruct (Hc _ _ _ Hs H1) as (Hs1 & Hle1).
  destruct (Hk a _ _ _ Hs1 H2) as (Hs' & Hle2).
  split; [done|]. by eapply ds_le_fields_trans.
Qed.

Lemma ds_mono_for_each {A} (l : list A) (body : A -> M DatasetStats.t unit) :
  (∀ x, ds_mono (body x)) → ds_mono (for_each l body).
Proof.
  intros Hb. induction l as [|x l IH]; cbn [for_each].
  - apply ds_mono_ret.
  - apply ds_mono_bind; [apply Hb|intros _; apply IH].
Qed.

Lemma ds_mono_for_fold {A B} (l : list A)
  (body : A -> B -> M DatasetStats.t B) :
  (∀ x acc, ds_mono (body x acc)) → ∀ acc, ds_mono (for_fold l acc body).
Proof.
  intros Hb. induction l as [|x l IH]; intros acc; cbn [for_fold].
  - apply ds_mono_ret.
  - apply ds_mono_bind; [apply Hb|intros acc'; apply IH].
Qed.

Lemma ds_mono_set_avg d :
  ds_mono (modify (DatasetStats.set_avg_rows_stats d)).
Proof.
  intros s a s' Hs H. injection H as _ <-. split.
  - destruct Hs as [Hc Hr]. split; [exact Hc|exact Hr].
  - split_and!; try done. intros l Hl. exists l. split; [done|].
    apply Forall2_rs_le_refl.
Qed.

(** ** The properties *)

Section Cached.
Variable calc : M DatasetStats.t unit.
Hypothesis Hcalc : calculates calc.

Lemma calc_from_uncalculated s s' :
  ds_inv s → uncalculated s → calc s = (Ok tt, s') →
  ds_inv s' ∧ ds_le s s'.
Proof.
  intros Hs (U1 & U2 & U3 & U4 & U5 & U6) H.
  destruct (Hcalc _ _ H) as (D & V & Hcd & Hrows).
  split; [split; [by right|done]|].
  split; [|intros d; by rewrite V].
  split_and!; try done; intros v Hv; congruence.
Qed.

Lemma not_calculated_uncalculated s :
  ds_inv s → ¬ calculated s → uncalculated s.
Proof. intros [[H|H] _] Hn; [done|by destruct Hn]. Qed.

(** A property on an int attribute. *)
Lemma ds_stable_property (f : DatasetStats.t -> option Z) :
  (∀ s, calculated s → is_Some (f s)) →
  (∀ s s' v, ds_le_fields s s' → f s = Some v → f s' = Some v) →
  ds_stable (x <- gets f ;;
             match x with None => calc | Some _ => ret tt end ;;
             DatasetStats.attr f).
Proof.
  intros Hf Hmono s v s' Hs H.
  apply property_ok_inv in H as [Hv [[Hv0 ->]|[Hn H]]].
  - split; [done|]. split; [apply ds_le_refl|].
    intros s'' _ [Hle _]. apply property_run. by eapply Hmono.
  - assert (Hu : uncalculated s).
    { apply not_calculated_uncalculated; [done|]. intros Hc.
      destruct (Hf s Hc) as [w Hw]. congruence. }
    destruct (calc_from_uncalculated _ _ Hs Hu H) as [Hs' Hle].
    split; [done|]. split; [done|].
    intros s'' _ [Hle' _]. apply property_run. by eapply Hmono.
Qed.

Lemma ds_stable_num_positive_instances :
  ds_stable (DatasetStats.num_positive_instances' calc).
Proof.
  apply ds_stable_property.
  - by intros s (H & _).
  - intros s s' v (_ & H & _). apply H.
Qed.

Lemma ds_stable_num_negative_instances :
  ds_stable (DatasetStats.num_negative_instances' calc).
Proof.
  apply ds_stable_property.
  - by intros s (_ & H & _).
  - intros s s' v (_ & _ & H & _). apply H.
Qed.

Lemma ds_stable_num_features :
  ds_stable (DatasetStats.num_features' calc).
Proof.
  apply ds_stable_property.
  - by intros s (_ & _ & H & _).
  - intros s s' v (_ & _ & _ & H & _). apply H.
Qed.

Lemma ds_stable_num_go_features :
  ds_stable (DatasetStats.num_go_features' calc).
Proof.
  apply ds_stable_property.
  - by intros s (_ & _ & _ & H & _).
  - intros s s' v (_ & _ & _ & _ & H & _). apply H.
Qed.

Lemma ds_stable_num_ppi_features :
  ds_stable (DatasetStats.num_ppi_features' calc).
Proof.
  apply ds_stable_property.
  - by intros s (_ & _ & _ & _ & H & _).
  - intros s s' v (_ & _ & _ & _ & _ & H & _). apply H.
Qed.

Lemma ds_stable_num_instances :
  ds_stable (DatasetStats.num_instances' calc).
Proof.
  unfold DatasetStats.num_instances'.
  apply ds_stable_bind; [apply ds_stable_num_positive_instances|intros p].
  apply ds_stable_bind; [apply ds_stable_num_negative_instances|intros n].
  apply ds_stable_ret.
Qed.

Lemma ds_stable_mono {A} (c : M DatasetStats.t A) : ds_stable c → ds_mono c.
Proof.
  intros H s a s' Hs Hc. destruct (H _ _ _ Hs Hc) as (Hs' & [Hle _] & _).
  done.
Qed.

Lemma ds_mono_rows_stats : ds_mono (DatasetStats.rows_stats' calc).
Proof.
  intros s l s' Hs H. unfold DatasetStats.rows_stats' in H.
  apply property_ok_inv in H as [Hv [[Hv0 ->]|[Hn H]]].
  - split; [done|apply ds_le_fields_refl].
  - assert (Hu : uncalculated s).
    { apply not_calculated_uncalculated; [done|].
      intros (_ & _ & _ & _ & _ & [w Hw]). congruence. }
    destruct (calc_from_uncalculated _ _ Hs Hu H) as [Hs' [Hle _]]. done.
Qed.

Lemma ds_mono_at_row {A} i (c : M RowStats.t A) :
  stable c → ds_mono (DatasetStats.at_row i c).
Proof.
  intros Hst s a s' Hs H.
  pose proof H as H'. apply at_row_ok_inv in H' as (l & rs0 & rs0' & Hl & _).
  destruct Hs as [Hcu Hrows].
  destruct (at_row_stable _ _ _ _ _ _ Hst Hl (Hrows l Hl) H)
    as (row & rs & rs' & Hrow & Hi & Hr & Hcoh & Hc & Hle & Hcoh' & -> & Hinv).
  split.
  - split.
    + right. destruct Hcu as [(_ & _ & _ & _ & _ & U)|Hcd]; [congruence|].
      destruct Hcd as (C1 & C2 & C3 & C4 & C5 & C6). split_and!; done.
    + intros l' Hl'. cbn in Hl'. injection Hl' as <-. exact Hinv.
  - split_and!; try done. intros l0 Hl0. assert (l0 = l) as -> by congruence.
    eexists. split; [reflexivity|].
    rewrite <- (list_insert_id l i rs Hi) at 1.
    apply Forall2_insert; [apply Forall2_rs_le_refl|done].
Qed.

(** ** [avg_rows_stats] and [get_stats] *)

Lemma avg_rows_stats_cached s d :
  DatasetStats._avg_rows_stats s = Some d →
  DatasetStats.avg_rows_stats' calc s = (Ok d, s).
Proof.
  intros H. unfold DatasetStats.avg_rows_stats'. rewrite bind_gets, H.
  unfold bind, ret. by apply attr_run.
Qed.

Lemma ds_stable_avg_rows_stats : ds_stable (DatasetStats.avg_rows_stats' calc).
Proof.
  intros s d s' Hs H.
  destruct (DatasetStats._avg_rows_stats s) as [d0|] eqn:E.
  - rewrite (avg_rows_stats_cached s d0 E) in H. injection H as <- <-.
    split; [done|]. split; [apply ds_le_refl|].
    intros s'' _ [_ Hle]. apply avg_rows_stats_cached. by apply Hle.
  - unfold DatasetStats.avg_rows_stats' in H. rewrite bind_gets, E in H.
    apply bind_ok_inv in H as ([] & s1 & H1 & H2).
    apply attr_ok_inv in H2 as [Hd ->].
    assert (Hm : ds_mono
      (modify (DatasetStats.set_avg_rows_stats (Some [])) ;;
       rows <- DatasetStats.rows_stats' calc ;;
       summed_rows_stats <-
         for_fold (seq 0 (length rows)) []
           DatasetStats.avg_rows_stats_sum ;;
       for_each (keys summed_rows_stats)
         (DatasetStats.avg_rows_stats_div calc summed_rows_stats))).
    { apply ds_mono_bind; [apply ds_mono_set_avg|intros _].
      apply ds_mono_bind; [apply ds_mono_rows_stats|intros rows].
      apply ds_mono_bind.
      - apply ds_mono_for_fold. intros i acc.
        unfold DatasetStats.avg_rows_stats_sum.
        apply ds_mono_bind; [apply ds_mono_at_row, stable_get_stats|intros ?].
        apply ds_mono_lift.
      - intros summed. apply ds_mono_for_each. intros key.
        unfold DatasetStats.avg_rows_stats_div.
        apply ds_mono_bind;
          [apply ds_stable_mono, ds_stable_num_instances|intros ?].
        apply ds_mono_bind; [apply ds_mono_lift|intros ?].
        apply ds_mono_bind; [apply ds_mono_attr|intros ?].
        apply ds_mono_set_avg. }
    destruct (Hm _ _ _ Hs H1) as [Hs' Hle].
    split; [done|]. split.
    + split; [done|]. intros d' Hd'. congruence.
    + intros s'' _ [_ Hle']. apply avg_rows_stats_cached. by apply Hle'.
Qed.

Lemma ds_stable_get_stats : ds_stable (DatasetStats.get_stats' calc).
Proof.
  unfold DatasetStats.get_stats', DatasetStats.avg_of.
  repeat first
    [ apply ds_stable_ret | apply ds_stable_lift
    | apply ds_stable_num_instances
    | apply ds_stable_num_positive_instances
    | apply ds_stable_num_negative_instances
    | apply ds_stable_num_features | apply ds_stable_num_go_features
    | apply ds_stable_num_ppi_features | apply ds_stable_avg_rows_stats
    | apply ds_stable_bind; [|intros ?; cbv beta] ].
Qed.

End Cached.

(** C8.  When [get_stats] returns, a second call on the same object
    returns the same statistics and leaves the object as it is; this
    holds for [DatasetStats] and for [RowStats]. *)
Theorem get_stats_idempotent :
  (∀ dataset stats s',
     DatasetStats.get_stats (DatasetStats.__init__ dataset) = (Ok stats, s') →
     DatasetStats.get_stats s' = (Ok stats, s')) ∧
  (∀ row stats rs',
     RowStats.get_stats (RowStats.__init__ row) = (Ok stats, rs') →
     RowStats.get_stats rs' = (Ok stats, rs')).
Proof.
  split.
  - intros dataset stats s' H.
    destruct (ds_stable_get_stats _ calculates_calculate _ _ _
                (ds_inv_init dataset) H) as (Hs' & _ & Hre).
    apply Hre; [done|apply ds_le_refl].
  - intros row stats rs' H.
    destruct (stable_get_stats _ _ _ (coherent_init row) H) as (Hc & _ & Hre).
    apply Hre; [done|apply rs_le_refl].
Qed.

(** C8, on a dataset with a PPI value in each bucket. *)
Lemma get_stats_idempotent_witness :
  fst (DatasetStats.get_stats (DatasetStats.__init__ Examples.dataset_full))
    = Ok Examples.stats_full ∧
  fst (DatasetStats.get_stats
         (snd (DatasetStats.get_stats
                 (DatasetStats.__init__ Examples.dataset_full))))
    = Ok Examples.stats_full.
Proof.
  assert (E1 : fst (DatasetStats.get_stats
                      (DatasetStats.__init__ Examples.dataset_full))
               = Ok Examples.stats_full) by (vm_compute; reflexivity).
  split; [exact E1|].
  generalize (proj1 get_stats_idempotent Examples.dataset_full).
  generalize E1.
  generalize (DatasetStats.get_stats
                (DatasetStats.__init__ Examples.dataset_full)).
  intros [r s'] Hr Hidem. cbn [fst snd] in *. subst r.
  by rewrite (Hidem _ _ eq_refl).
Defined.

(* ================================================================== *)
(** * Floats: the quotient of two counts is finite *)
(* ================================================================== *)

Lemma digits2_pos_size p : digits2_pos p = Pos.size p.
Proof. induction p; cbn; congruence. Qed.

Lemma Zdigits2_le m k :
  0 <= m → 0 <= k → m < 2 ^ k → Zdigits2 m <= k.
Proof.
  intros Hm Hk H. destruct m as [|p|p]; [done| |lia]. cbn.
  rewrite digits2_pos_size.
  pose proof (Pos.size_le p) as Hs.
  assert (Hp : 2 ^ Zpos (Pos.size p) <= 2 * Zpos p).
  { change (2 * Zpos p) with (Zpos p~0). rewrite <- Pos2Z.inj_pow. lia. }
  destruct (Z_le_gt_dec (Zpos (Pos.size p)) k) as [|Hgt]; [done|exfalso].
  assert (2 ^ (k + 1) <= 2 ^ Zpos (Pos.size p))
    by (apply Z.pow_le_mono_r; lia).
  rewrite Z.pow_add_r, Z.pow_1_r in * by lia. lia.
Qed.

Lemma Zdigits2_nonneg m : 0 <= Zdigits2 m.
Proof. destruct m; cbn; lia. Qed.

Lemma shr_1_m mrs :
  0 <= shr_m mrs → shr_m (shr_1 mrs) = shr_m mrs / 2.
Proof.
  destruct mrs as [m r s]. unfold shr_1, shr_m. intros Hm.
  destruct m as [|[p|p|]|p]; try done; try lia.
  - apply Z.div_unique with 1; lia.
  - apply Z.div_unique with 0; lia.
Qed.

Lemma pow2_xO n : 2 ^ Zpos n~0 = 2 ^ Zpos n * 2 ^ Zpos n.
Proof. rewrite <- Z.pow_add_r by lia. f_equal. lia. Qed.

Lemma pow2_xI n : 2 ^ Zpos n~1 = 2 * 2 ^ Zpos n * 2 ^ Zpos n.
Proof.
  rewrite <- Z.mul_assoc, <- Z.pow_add_r, <- Z.pow_succ_r by lia. f_equal. lia.
Qed.

Lemma iter_pos_shr_1 n : ∀ mrs,
  0 <= shr_m mrs →
  shr_m (SpecFloat.iter_pos shr_1 n mrs) = shr_m mrs / 2 ^ Zpos n.
Proof.
  induction n as [n IH|n IH|]; intros mrs Hm; cbn [SpecFloat.iter_pos].
  - assert (H1 : 0 <= shr_m (shr_1 mrs)).
    { rewrite shr_1_m by done. apply Z.div_pos; lia. }
    assert (H2 : 0 <= shr_m (SpecFloat.iter_pos shr_1 n (shr_1 mrs))).
    { rewrite IH by done. apply Z.div_pos; lia. }
    rewrite IH, IH, shr_1_m by done.
    rewrite !Z.div_div by lia. rewrite pow2_xI. f_equal. lia.
  - assert (H2 : 0 <= shr_m (SpecFloat.iter_pos shr_1 n mrs)).
    { rewrite IH by done. apply Z.div_pos; lia. }
    rewrite IH, IH by done. rewrite Z.div_div by lia. by rewrite pow2_xO.
  - rewrite shr_1_m by done. done.
Qed.

Lemma shr_record_of_loc_m m l : shr_m (shr_record_of_loc m l) = m.
Proof. by destruct l as [|[]]. Qed.

(** [shr_fexp] divides the mantissa by a power of two and raises the
    exponent by as much. *)
Lemma shr_fexp_spec m e l :
  0 <= m →
  let e' := Z.max e (fexp prec emax (Zdigits2 m + e)) in
  snd (shr_fexp prec emax m e l) = e' ∧
  shr_m (fst (shr_fexp prec emax m e l)) = m / 2 ^ (e' - e).
Proof.
  intros Hm. cbv zeta. unfold shr_fexp, shr.
  destruct (fexp prec emax (Zdigits2 m + e) - e) as [|n|n] eqn:E; cbn [fst snd].
  - rewrite Z.max_l by lia. rewrite Z.sub_diag, Z.pow_0_r, Z.div_1_r.
    split; [done|apply shr_record_of_loc_m].
  - rewrite Z.max_r by lia. split; [lia|].
    rewrite iter_pos_shr_1 by (rewrite shr_record_of_loc_m; done).
    rewrite shr_record_of_loc_m. do 2 f_equal. lia.
  - rewrite Z.max_l by lia. rewrite Z.sub_diag, Z.pow_0_r, Z.div_1_r.
    split; [done|apply shr_record_of_loc_m].
Qed.

Lemma round_nearest_even_bounds m l :
  0 <= m → m <= round_nearest_even m l <= m + 1.
Proof.
  intros Hm. unfold round_nearest_even.
  destruct l as [|[]]; try lia. destruct (Z.even m); lia.
Qed.

Lemma fexp_le x : fexp prec emax x = Z.max (x - 53) (-1074).
Proof. done. Qed.

(** Rounding a mantissa below [2 ^ (k - e)], for [k] between -1074 and
    1023 and [e] at most 971, does not overflow. *)
Lemma binary_round_aux_finite sx m e l k :
  0 <= m → e <= k → e <= 971 → -1074 <= k <= 1023 → m < 2 ^ (k - e) →
  is_finite (binary_round_aux prec emax sx m e l) = true.
Proof.
  intros Hm Hek He Hk Hlt. unfold binary_round_aux.
  destruct (shr_fexp_spec m e l Hm) as [He1 Hm1].
  destruct (shr_fexp prec emax m e l) as [mrs1 e1]. cbn [fst snd] in *.
  rewrite <- He1 in Hm1.
  set (m1 := shr_m mrs1) in *.
  assert (Hd : Zdigits2 m <= k - e) by (apply Zdigits2_le; lia).
  assert (He1k : e1 <= k ∧ e1 <= 971).
  { subst e1. rewrite fexp_le. lia. }
  destruct He1k as [He1k He1'].
  assert (He1e : e <= e1) by lia.
  assert (Hm1pos : 0 <= m1) by (rewrite Hm1; apply Z.div_pos; lia).
  assert (Hm1lt : m1 < 2 ^ (k - e1)).
  { rewrite Hm1. apply Z.div_lt_upper_bound; [lia|].
    rewrite <- Z.pow_add_r by lia.
    replace (e1 - e + (k - e1)) with (k - e) by lia. exact Hlt. }
  pose proof (round_nearest_even_bounds m1 (loc_of_shr_record mrs1) Hm1pos) as Hr.
  set (m2 := round_nearest_even m1 (loc_of_shr_record mrs1)) in *.
  assert (Hm2 : m2 < 2 ^ (k + 1 - e1)).
  { replace (k + 1 - e1) with (k - e1 + 1) by lia.
    rewrite Z.pow_add_r, Z.pow_1_r by lia.
    assert (0 < 2 ^ (k - e1)) by (apply Z.pow_pos_nonneg; lia). lia. }
  destruct (shr_fexp_spec m2 e1 loc_Exact) as [He2 Hm2']; [lia|].
  destruct (shr_fexp prec emax m2 e1 loc_Exact) as [mrs2 e2].
  cbn [fst snd] in *. rewrite <- He2 in Hm2'.
  assert (Hd2 : Zdigits2 m2 <= k + 1 - e1) by (apply Zdigits2_le; lia).
  assert (He2k : e2 <= 971).
  { subst e2. rewrite fexp_le.
    pose proof (Zdigits2_nonneg m2). unfold emax, prec in *. lia. }
  assert (Hm2pos : 0 <= shr_m mrs2) by (rewrite Hm2'; apply Z.div_pos; lia).
  destruct (shr_m mrs2) as [|p|p]; [done| |lia].
  change (emax - prec) with 971. by rewrite (proj2 (Z.leb_le _ _) He2k).
Qed.

Lemma SFdiv_core_binary_spec m1 m2 :
  0 < m1 → 0 < m2 →
  ∃ e' l, -1074 <= e' <= 0 ∧
    SFdiv_core_binary prec emax m1 0 m2 0 = (m1 * 2 ^ (- e') / m2, e', l).
Proof.
  intros H1 H2. unfold SFdiv_core_binary. cbv zeta.
  set (e' := Z.min (fexp prec emax (Zdigits2 m1 + 0 - (Zdigits2 m2 + 0))) (0 - 0)).
  assert (He : -1074 <= e' <= 0) by (subst e'; rewrite fexp_le; lia).
  set (m' := match 0 - 0 - e' with 0 => m1 | Zpos _ => Z.shiftl m1 (0 - 0 - e') | Zneg _ => 0 end).
  assert (Hm' : m' = m1 * 2 ^ (- e')).
  { subst m'. destruct (0 - 0 - e') as [|p|p] eqn:E.
    - replace (- e') with 0 by lia. lia.
    - rewrite Z.shiftl_mul_pow2 by lia. do 2 f_equal. lia.
    - lia. }
  pose proof (Z.div_eucl_eq m' m2 ltac:(lia)) as Hq.
  unfold Z.div. destruct (Z.div_eucl m' m2) as [q r] eqn:E.
  exists e', (new_location m2 r). split; [done|].
  rewrite <- Hm'. unfold Z.div. by rewrite E.
Qed.

Lemma SFdiv_counts_finite pa pb :
  (pa <= pb)%positive →
  is_finite (SFdiv prec emax (S754_finite false pa 0) (S754_finite false pb 0)) = true.
Proof.
  intros Hle. unfold SFdiv.
  destruct (SFdiv_core_binary_spec (Zpos pa) (Zpos pb)) as (e' & l & He & ->);
    [lia|lia|].
  assert (H2 : 0 < 2 ^ (- e')) by (apply Z.pow_pos_nonneg; lia).
  apply binary_round_aux_finite with (k := 1); try lia.
  - apply Z.div_pos; lia.
  - apply Z.div_lt_upper_bound; [lia|].
    replace (1 - e') with (1 + - e') by lia.
    rewrite Z.pow_add_r, Z.pow_1_r by lia. nia.
Qed.

(** A count divided by a total that is positive and no smaller gives a
    float: the division cannot overflow. *)
Lemma int_truediv_counts a b :
  0 <= a <= b → 0 < b → ∃ q, int_truediv a b = Ok q.
Proof.
  intros Ha Hb. unfold int_truediv.
  destruct b as [|pb|pb]; [lia| |lia].
  destruct a as [|pa|pa]; [by eexists| |lia].
  change (Zpos pa <? 0) with false. change (Zpos pb <? 0) with false.
  cbn [Z.abs Z.to_pos].
  rewrite SFdiv_counts_finite by lia. by eexists.
Qed.

Lemma truediv_counts a b :
  0 <= a <= b → 0 < b → ∃ q, truediv (NInt a) (NInt b) = Ok q.
Proof.
  intros Ha Hb. destruct (int_truediv_counts a b Ha Hb) as [q Hq].
  unfold truediv. rewrite Hq. by eexists.
Qed.

Lemma truediv_zero a : truediv (NInt a) (NInt 0) = Raise ZeroDivisionError.
Proof. unfold truediv, int_truediv. by destruct a. Qed.

Lemma truediv_int_ok_inv a b q :
  truediv (NInt a) (NInt b) = Ok q → b ≠ 0.
Proof. intros H ->. by rewrite truediv_zero in H. Qed.

(* ================================================================== *)
(** * Rows without GO features or without PPI features *)
(* ================================================================== *)

Lemma count_where_bounds (P : string -> Prop) `{!∀ x, Decision (P x)}
  (X : gset string) :
  0 <= count_where P X <= RowStats.len X.
Proof.
  unfold count_where, RowStats.len. split; [lia|].
  apply Nat2Z.inj_le, subseteq_size.
  intros x Hx. by apply elem_of_filter in Hx as [_ ?].
Qed.

Lemma bind_fst_raise {S A B} (c : M S A) (k : A -> M S B) s e :
  fst (c s) = Raise e → fst (bind c k s) = Raise e.
Proof. unfold bind. destruct (c s) as [[a|e'] s1]; cbn; [done|congruence]. Qed.

Lemma stable_step {A B} (c : M RowStats.t A) (k : A -> M RowStats.t B)
  s b s' :
  stable c → coherent s → bind c k s = (Ok b, s') →
  ∃ a s1, c s = (Ok a, s1) ∧ coherent s1 ∧
          RowStats.row s1 = RowStats.row s ∧ k a s1 = (Ok b, s').
Proof.
  intros Hst Hc H. apply bind_ok_inv in H as (a & s1 & H1 & H).
  destruct (Hst _ _ _ Hc H1) as (Hc1 & (Hr & _) & _). eauto 10.
Qed.

Lemma count_of_run (counts : M RowStats.t (dict Z)) key s d v s1 :
  counts s = (Ok d, s1) → getitem d key = Ok v →
  RowStats.count_of counts key s = (Ok (NInt v), s1).
Proof.
  intros H G. unfold RowStats.count_of. rewrite (bind_ok _ _ _ _ _ H).
  unfold bind, lift, ret. by rewrite G.
Qed.

Lemma count_of_ok_inv (counts : M RowStats.t (dict Z)) key s a s' :
  RowStats.count_of counts key s = (Ok a, s') →
  ∃ d v, counts s = (Ok d, s') ∧ getitem d key = Ok v ∧ a = NInt v.
Proof.
  unfold RowStats.count_of. intros H.
  apply bind_ok_inv in H as (d & s1 & H1 & H).
  apply bind_ok_inv in H as (v & s2 & H2 & H).
  unfold lift in H2. injection H2 as H2 <-.
  unfold ret in H. injection H as <- <-. eauto.
Qed.

Lemma ratio_of_run (counts : M RowStats.t (dict Z)) key n s d v s1 b s2 :
  counts s = (Ok d, s1) → getitem d key = Ok v → n s1 = (Ok b, s2) →
  RowStats.ratio_of counts key n s = (truediv (NInt v) (NInt b), s2).
Proof.
  intros H G Hn. unfold RowStats.ratio_of.
  rewrite (bind_ok _ _ _ _ _ (count_of_run _ _ _ _ _ _ H G)).
  by rewrite (bind_ok _ _ _ _ _ Hn).
Qed.

(** A ratio that is computed divided by a number that is not zero. *)
Lemma ratio_of_ok_inv (counts : M RowStats.t (dict Z)) key n s q s' :
  stable counts → coherent s →
  RowStats.ratio_of counts key n s = (Ok q, s') →
  ∃ s1 b, coherent s1 ∧ RowStats.row s1 = RowStats.row s ∧
          n s1 = (Ok b, s') ∧ b ≠ 0.
Proof.
  intros Hst Hc H. unfold RowStats.ratio_of in H.
  apply stable_step in H as (a & s1 & H1 & Hc1 & Hr1 & H);
    [|by apply stable_count_of|done].
  apply count_of_ok_inv in H1 as (d & v & _ & _ & ->).
  apply bind_ok_inv in H as (b & s2 & H2 & H).
  unfold lift in H. injection H as H <-.
  exists s1, b. split_and!; try done. by eapply truediv_int_ok_inv.
Qed.

(** [get_stats] returns only for a row that has GO features and PPI
    features. *)
Lemma get_stats_ok_features rs stats rs' :
  coherent rs → RowStats.get_stats rs = (Ok stats, rs') →
  go_names (RowStats.row rs) ≠ ∅ ∧ ppi_names (RowStats.row rs) ≠ ∅.
Proof.
  intros Hc H. unfold RowStats.get_stats in H.
  pose proof stable_go_values_counts as Sg.
  pose proof stable_ppi_values_counts as Sp.
  apply stable_step in H as (v1 & t1 & _ & C1 & R1 & H);
    [|by apply stable_count_of|done].
  apply stable_step in H as (v2 & t2 & _ & C2 & R2 & H);
    [|by apply stable_count_of|done].
  apply stable_step in H as (v3 & t3 & _ & C3 & R3 & H);
    [|by apply stable_count_of|done].
  apply stable_step in H as (v4 & t4 & _ & C4 & R4 & H);
    [|by apply stable_count_of|done].
  apply stable_step in H as (v5 & t5 & _ & C5 & R5 & H);
    [|by apply stable_count_of|done].
  apply stable_step in H as (v6 & t6 & _ & C6 & R6 & H);
    [|by apply stable_count_of|done].
  apply stable_step in H as (v7 & t7 & _ & C7 & R7 & H);
    [|by apply stable_count_of|done].
  apply stable_step in H as (v8 & t8 & _ & C8 & R8 & H);
    [|by apply stable_count_of|done].
  assert (R : RowStats.row t8 = RowStats.row rs) by congruence.
  clear R1 R2 R3 R4 R5 R6 R7 R8 C1 C2 C3 C4 C5 C6 C7.
  apply stable_step in H as (v9 & t9 & H9 & C9 & R9 & H);
    [|by apply stable_ratio_of, stable_num_go_features|done].
  apply stable_step in H as (v10 & t10 & _ & C10 & R10 & H);
    [|by apply stable_ratio_of, stable_num_go_features|done].
  apply bind_ok_inv in H as (v11 & t11 & H11 & _).
  apply ratio_of_ok_inv in H9 as (u & b & Cu & Ru & Hb & Hne); [|done..].
  apply ratio_of_ok_inv in H11 as (w & c & Cw & Rw & Hc' & Hne'); [|done..].
  rewrite num_go_features_run in Hb by done. injection Hb as <- _.
  rewrite num_ppi_features_run in Hc' by done. injection Hc' as <- _.
  rewrite len_zero in Hne, Hne'.
  split; congruence.
Qed.

(** ** The statistics once both dictionaries are cached *)

Lemma counted_with_go dg dp s : counted dg dp s → counted dg dp (with_go s).
Proof.
  intros (Hc & Hg & Hp).
  destruct (with_go_facts s Hc) as (_ & Hv & _ & Hc' & _).
  split; [done|]. by rewrite Hv.
Qed.

Lemma counted_with_ppi dg dp s : counted dg dp s → counted dg dp (with_ppi s).
Proof.
  intros (Hc & Hg & Hp).
  destruct (with_ppi_facts s Hc) as (_ & Hv & _ & Hc' & _).
  split; [done|]. by rewrite Hv.
Qed.

Lemma count_go_counted dg dp s key v :
  counted dg dp s → getitem dg key = Ok v →
  RowStats.count_of RowStats.go_values_counts key s = (Ok (NInt v), s).
Proof.
  intros (_ & Hg & _) G. eapply count_of_run; [|done].
  by apply go_values_counts_cached.
Qed.

Lemma count_ppi_counted dg dp s key v :
  counted dg dp s → getitem dp key = Ok v →
  RowStats.count_of RowStats.ppi_values_counts key s = (Ok (NInt v), s).
Proof.
  intros (_ & _ & Hp) G. eapply count_of_run; [|done].
  by apply ppi_values_counts_cached.
Qed.

Lemma ratio_go_counted dg dp s key v :
  counted dg dp s → getitem dg key = Ok v →
  RowStats.ratio_of RowStats.go_values_counts key RowStats.num_go_features s
  = (truediv (NInt v) (NInt (RowStats.len (go_names (RowStats.row s)))),
     with_go s).
Proof.
  intros (Hc & Hg & _) G. eapply ratio_of_run; [|done|].
  - by apply go_values_counts_cached.
  - by apply num_go_features_run.
Qed.

Lemma ratio_ppi_counted dg dp s key v :
  counted dg dp s → getitem dp key = Ok v →
  RowStats.ratio_of RowStats.ppi_values_counts key RowStats.num_ppi_features s
  = (truediv (NInt v) (NInt (RowStats.len (ppi_names (RowStats.row s)))),
     with_ppi s).
Proof.
  intros (Hc & _ & Hp) G. eapply ratio_of_run; [|done|].
  - by apply ppi_values_counts_cached.
  - by apply num_ppi_features_run.
Qed.









(* ================================================================== *)
(** * Datasets with a row without GO features or PPI features *)
(* ================================================================== *)









(* ================================================================== *)
(** * main: the name of a dataset and the lines written *)
(* ================================================================== *)

Lemma substring_0_0 s : substring 0 0 s = "".
Proof. by destruct s. Qed.

Lemma substring_n_0 n : ∀ s, substring n 0 s = "".
Proof.
  induction n as [|n IH]; intros s; [apply substring_0_0|].
  destruct s as [|c s]; [done|]. cbn. apply IH.
Qed.

Lemma substring_prefix m q : substring 0 (String.length m) (m ++ q) = m.
Proof.
  induction m as [|c m IH]; simpl; [apply substring_0_0|]. by f_equal.
Qed.

Lemma substring_middle p m q :
  substring (String.length p) (String.length m) (p ++ m ++ q) = m.
Proof.
  induction p as [|c p IH]; [exact (substring_prefix m q)|simpl; apply IH].
Qed.

Lemma length_append (a b : string) :
  String.length (a ++ b) = (String.length a + String.length b)%nat.
Proof. induction a as [|c a IH]; simpl; [done|]. by f_equal. Qed.

(** [path[10:-17]] drops the first 10 and the last 17 characters. *)
Lemma slice_10_17 prefix name suffix :
  String.length prefix = 10%nat → String.length suffix = 17%nat →
  slice (prefix ++ name ++ suffix) 10 (-17) = name.
Proof.
  intros Hp Hs. unfold slice. rewrite !length_append, Hp, Hs.
  change (10 <? 0) with false. change (-17 <? 0) with true. cbv iota.
  rewrite Z.min_l, Z.max_r by lia.
  replace (Z.to_nat 10) with (String.length prefix) by (rewrite Hp; lia).
  replace (Z.to_nat _) with (String.length name) by lia.
  apply substring_middle.
Qed.

Lemma slice_short path :
  (String.length path <= 27)%nat → slice path 10 (-17) = "".
Proof.
  intros H. unfold slice.
  change (10 <? 0) with false. change (-17 <? 0) with true. cbv iota.
  replace (Z.to_nat (_ - _)) with 0%nat by lia. apply substring_n_0.
Qed.

Lemma dict_get_setitem_same {V} (d : dict V) k v :
  dict_get (setitem d k v) k = Some v.
Proof. by rewrite dict_get_setitem, String.eqb_refl. Qed.

(** The body of the loop of [main]. *)
Local Abbreviation main_body arff_load :=
  (fun arff_file_path =>
     dataset <- lift (arff_load arff_file_path) ;;
     stats <- Main.new_dataset_stats dataset ;;
     let dataset_stats := Main.report arff_file_path stats in
     ph <- gets Main.print_header ;;
     (if ph then
        modify (Main.set_w (keys dataset_stats)) ;;
        Main.writeheader ;;
        modify (Main.set_print_header false)
      else ret tt) ;;
     Main.writerow dataset_stats).

Local Abbreviation report_fieldnames :=
  ["#Inst"; "#Pos"; "#Neg"; "%GO"; "%PPI";
   "avg%GO=0"; "avg%GO=1"; "avg%PPI=0"; "avg%PPI=(0;150]";
   "avg%PPI=(150;400]"; "avg%PPI=(400;700]";
   "avg%PPI=(700;900]"; "avg%PPI=(900;1000]"; "Dataset"].

(** The report of a dataset whose statistics are computed: [main]
    writes its values, after the header when it is the first. *)
Lemma main_body_run arff_load path dataset stats p :
  arff_load path = Ok dataset →
  fst (DatasetStats.get_stats (DatasetStats.__init__ dataset)) = Ok stats →
  keys (Main.report path stats) = report_fieldnames ∧
  (Main.print_header p = true →
   main_body arff_load path p
   = (Ok tt,
      Main.mk (Main.stdout p ++ [Main.Header report_fieldnames;
                                 Main.Record (values (Main.report path stats))])
        report_fieldnames false)) ∧
  (Main.print_header p = false → Main.w p = report_fieldnames →
   main_body arff_load path p
   = (Ok tt,
      Main.mk (Main.stdout p ++ [Main.Record (values (Main.report path stats))])
        report_fieldnames false)).
Proof.
  intros Hload H.
  destruct (DatasetStats.get_stats (DatasetStats.__init__ dataset))
    as [r s'] eqn:Hg. cbn in H. subst r.
  pose proof Hg as Hg'. apply get_stats_ok_inv in Hg'
    as (v1 & v2 & v3 & v4 & v5 & v6 & v7 & v8 & v9 & v10 & v11 & v12 & v13
        & t1 & t2 & t3 & _ & _ & _ & ->).
  split; [reflexivity|].
  assert (Hpre : ∀ k : dict num -> M Main.t unit,
            (dataset <- lift (arff_load path) ;;
             stats <- Main.new_dataset_stats dataset ;; k stats) p
            = k [("#Inst", NInt v1); ("#Pos", NInt v2); ("#Neg", NInt v3);
                 ("%GO", v4); ("%PPI", v5);
                 ("avg%GO=0", v6); ("avg%GO=1", v7); ("avg%PPI=0", v8);
                 ("avg%PPI=(0;150]", v9); ("avg%PPI=(150;400]", v10);
                 ("avg%PPI=(400;700]", v11); ("avg%PPI=(700;900]", v12);
                 ("avg%PPI=(900;1000]", v13)] p).
  { intros k. unfold bind at 1. unfold lift at 1. rewrite Hload.
    unfold bind at 1. unfold Main.new_dataset_stats, lift. by rewrite Hg. }
  split.
  - intros Hph. rewrite Hpre. rewrite bind_gets, Hph.
    destruct p as [out w ph].
    cbn -[slice]. unfold modify, Main.write, Main.set_print_header, Main.set_w.
    cbn [Main.stdout Main.w Main.print_header]. by rewrite <- app_assoc.
  - intros Hph Hw. rewrite Hpre. rewrite bind_gets, Hph.
    destruct p as [out w ph]. cbn in Hw, Hph. subst w ph. reflexivity.
Qed.

(** The files after the first. *)
Lemma main_loop_run arff_load paths : ∀ reports p,
  Forall2 (fun path r => ∃ dataset stats,
             arff_load path = Ok dataset ∧
             fst (DatasetStats.get_stats (DatasetStats.__init__ dataset))
               = Ok stats ∧
             r = Main.report path stats) paths reports →
  Main.print_header p = false → Main.w p = report_fieldnames →
  for_each paths (main_body arff_load) p
  = (Ok tt,
     Main.mk (Main.stdout p ++ map (fun r => Main.Record (values r)) reports)
       report_fieldnames false).
Proof.
  induction paths as [|path paths IH]; intros reports p HF Hph Hw.
  - apply Forall2_nil_inv_l in HF as ->. cbn. rewrite app_nil_r.
    destruct p; cbn in *. by subst.
  - apply Forall2_cons_inv_l in HF
      as (r & reports' & (dataset & stats & Hl & Hs & ->) & HF & ->).
    cbn [for_each].
    destruct (main_body_run arff_load path dataset stats p Hl Hs)
      as (_ & _ & Hstep).
    rewrite (bind_ok _ _ _ _ _ (Hstep Hph Hw)).
    rewrite (IH reports' _ HF); [|reflexivity..]. cbn [Main.stdout map].
    by rewrite <- app_assoc.
Qed.

(** X1.  When every file named on the command line loads and its
    statistics are computed, [main] returns after it wrote the header
    once, taken from the first report, and then one record per file, in
    the order of the command line, each holding the 14 values of the
    report of its file; without a file it writes nothing. *)
Theorem main_output (arff_load : string -> result (list Row.t))
  (prog : string) (paths : list string) (reports : list (dict Main.val))
  (Hfiles : Forall2 (fun path r => ∃ dataset stats,
               arff_load path = Ok dataset ∧
               fst (DatasetStats.get_stats (DatasetStats.__init__ dataset))
                 = Ok stats ∧
               r = Main.report path stats) paths reports) :
  Forall (fun r => keys r = report_fieldnames) reports ∧
  fst (Main.main arff_load (prog :: paths) Main.start) = Ok tt ∧
  Main.stdout (snd (Main.main arff_load (prog :: paths) Main.start))
  = match reports with
    | [] => []
    | _ :: _ => Main.Header report_fieldnames
                :: map (fun r => Main.Record (values r)) reports
    end.
Proof.
  split.
  { induction Hfiles as [|path r paths reports (ds & st & Hl & Hs & ->) _ IH];
      constructor; [|exact IH].
    by destruct (main_body_run arff_load path ds st Main.start Hl Hs)
      as (? & _). }
  rewrite main_unfold. cbn [tail].
  destruct Hfiles as [|path r paths reports (ds & st & Hl & Hs & ->) HF];
    [done|].
  cbn [for_each].
  destruct (main_body_run arff_load path ds st
              (Main.set_print_header true (Main.set_w [] Main.start)) Hl Hs)
    as (_ & Hstep & _).
  rewrite (bind_ok _ _ _ _ _ (Hstep eq_refl)).
  rewrite (main_loop_run arff_load paths reports _ HF); [|reflexivity..].
  done.
Qed.

(** X1, on the same file named twice. *)
Lemma main_output_witness :
  Main.stdout (snd (Main.main (fun _ => Ok Examples.dataset_full)
                      ["stats.py"; Examples.path; Examples.path] Main.start))
  = [Main.Header report_fieldnames;
     Main.Record (values (Main.report Examples.path Examples.stats_full));
     Main.Record (values (Main.report Examples.path Examples.stats_full))].
Proof.
  refine (proj2 (proj2 (main_output (fun _ => Ok Examples.dataset_full)
            "stats.py" [Examples.path; Examples.path]
            [Main.report Examples.path Examples.stats_full;
             Main.report Examples.path Examples.stats_full] _))).
  assert (H : fst (DatasetStats.get_stats
                     (DatasetStats.__init__ Examples.dataset_full))
              = Ok Examples.stats_full) by (vm_compute; reflexivity).
  repeat constructor; exists Examples.dataset_full, Examples.stats_full;
    (split; [reflexivity|split; [exact H|reflexivity]]).
Defined.

(** X2.  The name of a dataset is the path of its file without its
    first 10 and its last 17 characters, and is empty for a path of at
    most 27 characters; it is the value of the field 'Dataset'. *)
Theorem report_dataset_name :
  (∀ prefix name suffix stats,
     String.length prefix = 10%nat → String.length suffix = 17%nat →
     dict_get (Main.report (prefix ++ name ++ suffix) stats) "Dataset"
     = Some (Main.VStr name)) ∧
  (∀ path stats,
     (String.length path <= 27)%nat →
     dict_get (Main.report path stats) "Dataset" = Some (Main.VStr "")).
Proof.
  split.
  - intros prefix name suffix stats Hp Hs. unfold Main.report.
    by rewrite dict_get_setitem_same, slice_10_17.
  - intros path stats H. unfold Main.report.
    by rewrite dict_get_setitem_same, slice_short.
Qed.

(* ================================================================== *)
(** * RowStats: the counts as numbers of features *)
(* ================================================================== *)

(** Two dictionaries with the same keys, none twice, and the same
    value under each are equal. *)
Lemma dict_ext {V} (d d' : dict V) :
  keys d = keys d' → NoDup (keys d) →
  (∀ k, k ∈ keys d → dict_get d k = dict_get d' k) → d = d'.
Proof.
  revert d'. induction d as [|[k v] d IH]; intros [|[k' v'] d'] Hk Hnd H;
    try done.
  cbn in Hk. injection Hk as -> Hk. apply NoDup_cons in Hnd as [Hnotin Hnd].
  pose proof (H k' ltac:(by left)) as Hv. cbn in Hv.
  rewrite String.eqb_refl in Hv. injection Hv as ->.
  f_equal. apply IH; [done..|]. intros k Hin.
  pose proof (H k ltac:(by right)) as Hg. cbn in Hg.
  destruct (String.eqb k' k) eqn:E; [|done].
  apply String.eqb_eq in E as ->. done.
Qed.

Lemma getitem_map_keys {V} (f : string -> V) ks k :
  k ∈ ks → dict_get (map (fun k => (k, f k)) ks) k = Some (f k).
Proof.
  induction ks as [|k' ks IH]; intros Hk; [by apply elem_of_nil in Hk|].
  cbn. destruct (String.eqb k' k) eqn:E.
  - apply String.eqb_eq in E as ->. done.
  - apply elem_of_cons in Hk as [->|Hk]; [by rewrite String.eqb_refl in E|].
    by apply IH.
Qed.

(** The dictionary the loop of [go_values_counts] fills. *)
Lemma tally_go_counts row ks :
  classes (go_class row) (elements (go_names row)) = Ok ks →
  tally go_zero ks = go_counts row.
Proof.
  intros E. apply dict_ext.
  - by rewrite keys_tally.
  - rewrite keys_tally. apply (bool_decide_unpack _). by vm_compute.
  - rewrite keys_tally. intros k Hk. change (keys go_zero) with go_keys in Hk.
    unfold go_counts. rewrite (getitem_map_keys (go_count row)) by done.
    assert (Hz : dict_get go_zero k = Some 0).
    { unfold go_keys in Hk. rewrite !elem_of_cons in Hk.
      destruct Hk as [->|[->|Hn]]; [done..|by apply elem_of_nil in Hn]. }
    apply getitem_Ok. rewrite (tally_count (go_class row) _ _ _ _ 0 E Hz).
    f_equal. rewrite Z.add_0_l. unfold go_count, count_where. f_equal.
    apply filter_ext_L. intros n _. unfold has_value.
    rewrite go_class_Ok. unfold go_keys in Hk. rewrite !elem_of_cons in Hk.
    destruct Hk as [->|[->|Hn]]; [intuition..|by apply elem_of_nil in Hn].
Qed.

Lemma tally_ppi_counts row ks :
  classes (ppi_class row) (elements (ppi_names row)) = Ok ks →
  tally ppi_zero ks = ppi_counts row.
Proof.
  intros E. apply dict_ext.
  - by rewrite keys_tally.
  - rewrite keys_tally. apply (bool_decide_unpack _). by vm_compute.
  - rewrite keys_tally. intros k Hk. change (keys ppi_zero) with ppi_keys in Hk.
    unfold ppi_counts. rewrite (getitem_map_keys (ppi_count row)) by done.
    assert (Hz : dict_get ppi_zero k = Some 0).
    { unfold ppi_keys in Hk.
      repeat (apply elem_of_cons in Hk as [->|Hk]); try done.
      by apply elem_of_nil in Hk. }
    apply getitem_Ok. rewrite (tally_count (ppi_class row) _ _ _ _ 0 E Hz).
    f_equal. rewrite Z.add_0_l. unfold ppi_count, count_where. f_equal.
    apply filter_ext_L. intros n _. by apply ppi_class_value_in_bucket.
Qed.

(** ** Properties kept by the computations that return *)

Section Keeps.
Context {S : Type} (P : S -> Prop).

Lemma keeps_ret {A} (a : A) : keeps P (ret a).
Proof. intros s a' s' H [= _ <-]. done. Qed.

Lemma keeps_lift {A} (r : result A) : keeps P (lift r).
Proof. intros s a s' H [= _ <-]. done. Qed.

Lemma keeps_gets {A} (f : S -> A) : keeps P (gets f).
Proof. intros s a s' H [= _ <-]. done. Qed.

Lemma keeps_assert b : keeps P (assert b).
Proof. intros s a s' H Ha. by apply assert_ok_inv in Ha as [_ ->]. Qed.

Lemma keeps_bind {A B} (c : M S A) (k : A -> M S B) :
  keeps P c → (∀ a, keeps P (k a)) → keeps P (bind c k).
Proof.
  intros Hc Hk s b s' H Hb. apply bind_ok_inv in Hb as (a & s1 & H1 & H2).
  eapply Hk; [|exact H2]. by eapply Hc.
Qed.

Lemma keeps_for_each {A} (l : list A) (body : A -> M S unit) :
  (∀ x, keeps P (body x)) → keeps P (for_each l body).
Proof.
  intros Hb. induction l as [|x l IH]; cbn [for_each].
  - apply keeps_ret.
  - apply keeps_bind; [apply Hb|intros _; exact IH].
Qed.

Lemma keeps_for_fold {A B} (l : list A) (body : A -> B -> M S B) :
  (∀ x acc, keeps P (body x acc)) → ∀ acc, keeps P (for_fold l acc body).
Proof.
  intros Hb. induction l as [|x l IH]; intros acc; cbn [for_fold].
  - apply keeps_ret.
  - apply keeps_bind; [apply Hb|intros acc'; apply IH].
Qed.

End Keeps.

(** ** The states of a [RowStats] no method has raised on *)

Lemma sound_init row : sound (RowStats.__init__ row).
Proof.
  split; [apply coherent_init|].
  split; intros d H; cbn in H; by rewrite lookup_empty in H.
Qed.

Lemma counts_right_same rs rs' :
  RowStats.row rs' = RowStats.row rs →
  RowStats._values_count rs' = RowStats._values_count rs →
  counts_right rs → counts_right rs'.
Proof. intros Hr Hv [Hg Hp]. unfold counts_right. rewrite Hr, Hv. done. Qed.

Lemma sound_with_all rs : sound rs → sound (with_all rs).
Proof.
  intros [Hc Hr]. destruct (with_all_facts rs Hc) as (R & V & _ & _ & C & _).
  split; [done|]. by eapply counts_right_same.
Qed.

Lemma sound_with_go rs : sound rs → sound (with_go rs).
Proof.
  intros [Hc Hr]. destruct (with_go_facts rs Hc) as (R & V & _ & C & _).
  split; [done|]. by eapply counts_right_same.
Qed.

Lemma sound_with_ppi rs : sound rs → sound (with_ppi rs).
Proof.
  intros [Hc Hr]. destruct (with_ppi_facts rs Hc) as (R & V & _ & C & _).
  split; [done|]. by eapply counts_right_same.
Qed.

Lemma row_with_all rs : coherent rs → RowStats.row (with_all rs) = RowStats.row rs.
Proof. intros Hc. by destruct (with_all_facts rs Hc) as (-> & _). Qed.

Lemma row_with_ppi rs : coherent rs → RowStats.row (with_ppi rs) = RowStats.row rs.
Proof. intros Hc. by destruct (with_ppi_facts rs Hc) as (-> & _). Qed.

Lemma values_with_all rs :
  coherent rs → RowStats._values_count (with_all rs) = RowStats._values_count rs.
Proof. intros Hc. by destruct (with_all_facts rs Hc) as (_ & -> & _). Qed.

Lemma values_with_go rs :
  coherent rs → RowStats._values_count (with_go rs) = RowStats._values_count rs.
Proof. intros Hc. by destruct (with_go_facts rs Hc) as (_ & -> & _). Qed.

Lemma values_with_ppi rs :
  coherent rs → RowStats._values_count (with_ppi rs) = RowStats._values_count rs.
Proof. intros Hc. by destruct (with_ppi_facts rs Hc) as (_ & -> & _). Qed.

(** [go_values_counts] on a sound state: the counts of the row, cached
    from then on, or the exception of the first GO value refused. *)
Lemma go_values_counts_sound rs :
  sound rs →
  match classes (go_class (RowStats.row rs))
                (elements (go_names (RowStats.row rs))) with
  | Ok _ =>
      ∃ rs', RowStats.go_values_counts rs
             = (Ok (go_counts (RowStats.row rs)), rs') ∧
             sound rs' ∧ RowStats.row rs' = RowStats.row rs ∧
             RowStats._values_count rs' !! "go"
               = Some (go_counts (RowStats.row rs)) ∧
             RowStats._values_count rs' !! "ppi"
               = RowStats._values_count rs !! "ppi"
  | Raise e => fst (RowStats.go_values_counts rs) = Raise e
  end.
Proof.
  intros Hs. pose proof Hs as [Hc [Hg Hp]].
  destruct (RowStats._values_count rs !! "go") as [d|] eqn:E.
  - destruct (Hg d eq_refl) as [Hv ->]. unfold valid_go in Hv.
    destruct (classes _ _) as [ks|e]; [|done].
    exists rs. rewrite (go_values_counts_cached rs _ E).
    split; [done|]. split; [exact Hs|]. by rewrite E.
  - pose proof (go_values_counts_run rs Hc E) as Hrun.
    destruct (classes _ _) as [ks|e] eqn:Hks; [|done].
    rewrite (tally_go_counts _ _ Hks) in Hrun.
    eexists. split; [exact Hrun|].
    destruct (stable_go_values_counts _ _ _ Hc Hrun) as (Hc' & (Hr' & _) & _).
    assert (Hgo' : RowStats._values_count
                     (RowStats.set_values_count "go" (go_counts (RowStats.row rs))
                        (with_go (RowStats.set_values_count "go" go_zero rs)))
                   !! "go" = Some (go_counts (RowStats.row rs))).
    { cbn. by rewrite lookup_insert_eq. }
    assert (Hppi' : RowStats._values_count
                      (RowStats.set_values_count "go" (go_counts (RowStats.row rs))
                         (with_go (RowStats.set_values_count "go" go_zero rs)))
                    !! "ppi" = RowStats._values_count rs !! "ppi").
    { cbn. rewrite lookup_insert_ne by done.
      rewrite values_with_go.
      - cbn. by rewrite lookup_insert_ne.
      - destruct Hc as (A & B & C). repeat split; intros X HX; cbn in *; auto. }
    split_and!; try done. split; [done|]. split.
    + intros d Hd. rewrite Hgo' in Hd. injection Hd as <-. rewrite Hr'.
      split; [|done]. unfold valid_go. by rewrite Hks.
    + intros d Hd. rewrite Hppi' in Hd. rewrite Hr'. by apply Hp.
Qed.

Lemma ppi_values_counts_sound rs :
  sound rs →
  match classes (ppi_class (RowStats.row rs))
                (elements (ppi_names (RowStats.row rs))) with
  | Ok _ =>
      ∃ rs', RowStats.ppi_values_counts rs
             = (Ok (ppi_counts (RowStats.row rs)), rs') ∧
             sound rs' ∧ RowStats.row rs' = RowStats.row rs ∧
             RowStats._values_count rs' !! "ppi"
               = Some (ppi_counts (RowStats.row rs)) ∧
             RowStats._values_count rs' !! "go"
               = RowStats._values_count rs !! "go"
  | Raise e => fst (RowStats.ppi_values_counts rs) = Raise e
  end.
Proof.
  intros Hs. pose proof Hs as [Hc [Hg Hp]].
  destruct (RowStats._values_count rs !! "ppi") as [d|] eqn:E.
  - destruct (Hp d eq_refl) as [Hv ->]. unfold valid_ppi in Hv.
    destruct (classes _ _) as [ks|e]; [|done].
    exists rs. rewrite (ppi_values_counts_cached rs _ E).
    split; [done|]. split; [exact Hs|]. by rewrite E.
  - pose proof (ppi_values_counts_run rs Hc E) as Hrun.
    destruct (classes _ _) as [ks|e] eqn:Hks; [|done].
    rewrite (tally_ppi_counts _ _ Hks) in Hrun.
    eexists. split; [exact Hrun|].
    destruct (stable_ppi_values_counts _ _ _ Hc Hrun) as (Hc' & (Hr' & _) & _).
    assert (Hppi' : RowStats._values_count
                     (RowStats.set_values_count "ppi" (ppi_counts (RowStats.row rs))
                        (with_ppi (RowStats.set_values_count "ppi" ppi_zero rs)))
                   !! "ppi" = Some (ppi_counts (RowStats.row rs))).
    { cbn. by rewrite lookup_insert_eq. }
    assert (Hgo' : RowStats._values_count
                      (RowStats.set_values_count "ppi" (ppi_counts (RowStats.row rs))
                         (with_ppi (RowStats.set_values_count "ppi" ppi_zero rs)))
                    !! "go" = RowStats._values_count rs !! "go").
    { cbn. rewrite lookup_insert_ne by done.
      rewrite values_with_ppi.
      - cbn. by rewrite lookup_insert_ne.
      - destruct Hc as (A & B & C). repeat split; intros X HX; cbn in *; auto. }
    split_and!; try done. split; [done|]. split.
    + intros d Hd. rewrite Hgo' in Hd. rewrite Hr'. by apply Hg.
    + intros d Hd. rewrite Hppi' in Hd. injection Hd as <-. rewrite Hr'.
      split; [|done]. unfold valid_ppi. by rewrite Hks.
Qed.

Lemma with_all_row rs : RowStats.row (with_all rs) = RowStats.row rs.
Proof. unfold with_all. by destruct (_ !! _). Qed.

Lemma with_go_row rs : RowStats.row (with_go rs) = RowStats.row rs.
Proof. unfold with_go. destruct (_ !! _); [done|]. apply with_all_row. Qed.

Lemma with_ppi_row rs : RowStats.row (with_ppi rs) = RowStats.row rs.
Proof. unfold with_ppi. destruct (_ !! _); [done|]. apply with_all_row. Qed.

Lemma sum_go_counts row :
  valid_go row = true → sum (values (go_counts row)) = RowStats.len (go_names row).
Proof.
  unfold valid_go. destruct (classes _ _) as [ks|e] eqn:E; [intros _|done].
  rewrite <- (tally_go_counts _ _ E).
  rewrite (tally_sum (go_class row) _ _ _ E); [done|].
  intros n k. apply go_class_keys.
Qed.

Lemma sum_ppi_counts row :
  valid_ppi row = true →
  sum (values (ppi_counts row)) = RowStats.len (ppi_names row).
Proof.
  unfold valid_ppi. destruct (classes _ _) as [ks|e] eqn:E; [intros _|done].
  rewrite <- (tally_ppi_counts _ _ E).
  rewrite (tally_sum (ppi_class row) _ _ _ E); [done|].
  intros n k. apply ppi_class_keys.
Qed.

(** The three numbers of features, on a sound state. *)
Lemma num_features_sound rs :
  sound rs →
  RowStats.num_features rs
  = (Ok (RowStats.len (all_names (RowStats.row rs))), with_all rs).
Proof. intros [Hc _]. by apply num_features_run. Qed.

Lemma num_go_features_sound rs :
  sound rs →
  RowStats.num_go_features rs
  = (Ok (RowStats.len (go_names (RowStats.row rs))), with_go rs).
Proof. intros [Hc _]. by apply num_go_features_run. Qed.

Lemma num_ppi_features_sound rs :
  sound rs →
  RowStats.num_ppi_features rs
  = (Ok (RowStats.len (ppi_names (RowStats.row rs))), with_ppi rs).
Proof. intros [Hc _]. by apply num_ppi_features_run. Qed.

(** [validate] on a sound state: it returns when the values of the row
    are counted without error, and raises the exception of the counting
    otherwise; its own assertions hold. *)
Lemma validate_sound rs :
  sound rs →
  match classes (go_class (RowStats.row rs))
                (elements (go_names (RowStats.row rs))),
        classes (ppi_class (RowStats.row rs))
                (elements (ppi_names (RowStats.row rs))) with
  | Ok _, Ok _ =>
      ∃ rs', RowStats.validate rs = (Ok tt, rs') ∧
             sound rs' ∧ RowStats.row rs' = RowStats.row rs ∧
             counted (go_counts (RowStats.row rs))
                     (ppi_counts (RowStats.row rs)) rs'
  | Raise e, _ => fst (RowStats.validate rs) = Raise e
  | Ok _, Raise e => fst (RowStats.validate rs) = Raise e
  end.
Proof.
  intros S0. unfold RowStats.validate.
  rewrite (bind_ok _ _ _ _ _ (num_features_sound _ S0)).
  pose proof (sound_with_all _ S0) as S1.
  rewrite (bind_ok _ _ _ _ _ (num_go_features_sound _ S1)).
  pose proof (sound_with_go _ S1) as S2.
  rewrite (bind_ok _ _ _ _ _ (num_ppi_features_sound _ S2)).
  pose proof (sound_with_ppi _ S2) as S3.
  rewrite !with_go_row, !with_all_row.
  rewrite (proj2 (Z.eqb_eq _ _) (len_all_names (RowStats.row rs))).
  rewrite bind_assert_true.
  rewrite (bind_ok _ _ _ _ _ (num_go_features_sound _ S3)).
  pose proof (sound_with_go _ S3) as S4.
  set (rs4 := with_go (with_ppi (with_go (with_all rs)))) in *.
  assert (R4 : RowStats.row rs4 = RowStats.row rs).
  { unfold rs4. by rewrite with_go_row, with_ppi_row, with_go_row, with_all_row. }
  rewrite with_ppi_row, with_go_row, with_all_row.
  pose proof (go_values_counts_sound rs4 S4) as Hgo. rewrite R4 in Hgo.
  destruct (classes (go_class _) _) as [kg|e] eqn:Hkg;
    [|by apply bind_fst_raise].
  destruct Hgo as (rs5 & Hgo & S5 & R5 & G5 & P5).
  rewrite (bind_ok _ _ _ _ _ Hgo).
  rewrite sum_go_counts by (unfold valid_go; by rewrite Hkg).
  rewrite Z.eqb_refl, bind_assert_true.
  rewrite (bind_ok _ _ _ _ _ (num_ppi_features_sound _ S5)).
  pose proof (sound_with_ppi _ S5) as S6.
  set (rs6 := with_ppi rs5) in *.
  assert (R6 : RowStats.row rs6 = RowStats.row rs).
  { unfold rs6. rewrite with_ppi_row. congruence. }
  rewrite R5.
  pose proof (ppi_values_counts_sound rs6 S6) as Hppi. rewrite R6 in Hppi.
  destruct (classes (ppi_class _) _) as [kp|e] eqn:Hkp;
    [|by apply bind_fst_raise].
  destruct Hppi as (rs7 & Hppi & S7 & R7 & P7 & G7).
  rewrite (bind_ok _ _ _ _ _ Hppi).
  rewrite sum_ppi_counts by (unfold valid_ppi; by rewrite Hkp).
  rewrite Z.eqb_refl. exists rs7. split; [done|]. split; [done|].
  split; [congruence|]. split; [apply S7|]. split; [|done].
  rewrite G7. unfold rs6. rewrite values_with_ppi by apply S5. done.
Qed.

Lemma bind_ratio_go {B} dg dp s key v (k : num -> M RowStats.t B) :
  counted dg dp s → getitem dg key = Ok v →
  bind (RowStats.ratio_of RowStats.go_values_counts key
          RowStats.num_go_features) k s
  = match truediv (NInt v) (NInt (RowStats.len (go_names (RowStats.row s)))) with
    | Ok q => k q (with_go s)
    | Raise e => (Raise e, with_go s)
    end.
Proof.
  intros Hc Hg. unfold bind. by rewrite (ratio_go_counted _ _ _ _ _ Hc Hg).
Qed.

Lemma bind_ratio_ppi {B} dg dp s key v (k : num -> M RowStats.t B) :
  counted dg dp s → getitem dp key = Ok v →
  bind (RowStats.ratio_of RowStats.ppi_values_counts key
          RowStats.num_ppi_features) k s
  = match truediv (NInt v) (NInt (RowStats.len (ppi_names (RowStats.row s)))) with
    | Ok q => k q (with_ppi s)
    | Raise e => (Raise e, with_ppi s)
    end.
Proof.
  intros Hc Hg. unfold bind. by rewrite (ratio_ppi_counted _ _ _ _ _ Hc Hg).
Qed.

Ltac key_tac := unfold go_keys, ppi_keys; rewrite !elem_of_cons; auto 10.

Lemma getitem_go_counts row k :
  k ∈ go_keys → getitem (go_counts row) k = Ok (go_count row k).
Proof.
  intros H. apply getitem_Some. unfold go_counts.
  by rewrite (getitem_map_keys (go_count row)).
Qed.

Lemma getitem_ppi_counts row k :
  k ∈ ppi_keys → getitem (ppi_counts row) k = Ok (ppi_count row k).
Proof.
  intros H. apply getitem_Some. unfold ppi_counts.
  by rewrite (getitem_map_keys (ppi_count row)).
Qed.

Ltac row_tac := repeat first [rewrite with_go_row | rewrite with_ppi_row].

Ltac counted_tac H :=
  repeat first [apply counted_with_go | apply counted_with_ppi]; exact H.

Ltac sound_tac H :=
  repeat first [apply sound_with_go | apply sound_with_ppi]; exact H.

(** [get_stats] on a sound state: the statistics of the row, or the
    exception of the counting. *)
Lemma get_stats_sound rs :
  sound rs →
  match classes (go_class (RowStats.row rs))
                (elements (go_names (RowStats.row rs))),
        classes (ppi_class (RowStats.row rs))
                (elements (ppi_names (RowStats.row rs))) with
  | Ok _, Ok _ =>
      ∃ rs', RowStats.get_stats rs = (row_stats (RowStats.row rs), rs') ∧
             sound rs' ∧ RowStats.row rs' = RowStats.row rs
  | Raise e, _ => fst (RowStats.get_stats rs) = Raise e
  | Ok _, Raise e => fst (RowStats.get_stats rs) = Raise e
  end.
Proof.
  intros S0. unfold RowStats.get_stats.
  pose proof (go_values_counts_sound rs S0) as Hgo.
  destruct (classes (go_class _) _) as [kg|e] eqn:Hkg;
    [|unfold RowStats.count_of; by do 2 apply bind_fst_raise].
  destruct Hgo as (rs1 & Hgo & S1 & R1 & G1 & P1).
  rewrite (bind_ok _ _ _ _ _
             (count_of_run _ "0" _ _ _ _ Hgo
                (getitem_go_counts _ "0" ltac:(key_tac)))). cbv beta.
  rewrite (bind_ok _ _ _ _ _
             (count_of_run _ "1" _ _ _ _ (go_values_counts_cached rs1 _ G1)
                (getitem_go_counts _ "1" ltac:(key_tac)))). cbv beta.
  pose proof (ppi_values_counts_sound rs1 S1) as Hppi. rewrite R1 in Hppi.
  destruct (classes (ppi_class _) _) as [kp|e] eqn:Hkp;
    [|unfold RowStats.count_of; by do 2 apply bind_fst_raise].
  destruct Hppi as (rs2 & Hppi & S2 & R2 & P2 & G2).
  assert (Hcnt : counted (go_counts (RowStats.row rs))
                         (ppi_counts (RowStats.row rs)) rs2).
  { split; [apply S2|]. split; [congruence|done]. }
  rewrite (bind_ok _ _ _ _ _
             (count_of_run _ "0" _ _ _ _ Hppi
                (getitem_ppi_counts _ "0" ltac:(key_tac)))). cbv beta.
  rewrite (bind_ok _ _ _ _ _
             (count_ppi_counted _ _ _ "001->150" _ Hcnt
                (getitem_ppi_counts _ "001->150" ltac:(key_tac)))).
  cbv beta.
  rewrite (bind_ok _ _ _ _ _
             (count_ppi_counted _ _ _ "151->400" _ Hcnt
                (getitem_ppi_counts _ "151->400" ltac:(key_tac)))).
  cbv beta.
  rewrite (bind_ok _ _ _ _ _
             (count_ppi_counted _ _ _ "401->700" _ Hcnt
                (getitem_ppi_counts _ "401->700" ltac:(key_tac)))).
  cbv beta.
  rewrite (bind_ok _ _ _ _ _
             (count_ppi_counted _ _ _ "701->900" _ Hcnt
                (getitem_ppi_counts _ "701->900" ltac:(key_tac)))).
  cbv beta.
  rewrite (bind_ok _ _ _ _ _
             (count_ppi_counted _ _ _ "901->1000" _ Hcnt
                (getitem_ppi_counts _ "901->1000" ltac:(key_tac)))).
  cbv beta.
  assert (R : RowStats.row rs2 = RowStats.row rs) by congruence.
  unfold row_stats. cbv zeta.
  erewrite bind_ratio_go;
    [|counted_tac Hcnt|apply getitem_go_counts; key_tac].
  row_tac; rewrite R.
  destruct (truediv _ _) as [q1|e1]; cbn [rbind];
    [|eexists; split; [reflexivity|split; [sound_tac S2|
       by row_tac]]].
  erewrite bind_ratio_go;
    [|counted_tac Hcnt|apply getitem_go_counts; key_tac].
  row_tac; rewrite R.
  destruct (truediv _ _) as [q2|e2]; cbn [rbind];
    [|eexists; split; [reflexivity|split; [sound_tac S2|
       by row_tac]]].
  erewrite bind_ratio_ppi;
    [|counted_tac Hcnt|apply getitem_ppi_counts; key_tac].
  row_tac; rewrite R.
  destruct (truediv _ _) as [q3|e3]; cbn [rbind];
    [|eexists; split; [reflexivity|split; [sound_tac S2|
       by row_tac]]].
  erewrite bind_ratio_ppi;
    [|counted_tac Hcnt|apply getitem_ppi_counts; key_tac].
  row_tac; rewrite R.
  destruct (truediv _ _) as [q4|e4]; cbn [rbind];
    [|eexists; split; [reflexivity|split; [sound_tac S2|
       by row_tac]]].
  erewrite bind_ratio_ppi;
    [|counted_tac Hcnt|apply getitem_ppi_counts; key_tac].
  row_tac; rewrite R.
  destruct (truediv _ _) as [q5|e5]; cbn [rbind];
    [|eexists; split; [reflexivity|split; [sound_tac S2|
       by row_tac]]].
  erewrite bind_ratio_ppi;
    [|counted_tac Hcnt|apply getitem_ppi_counts; key_tac].
  row_tac; rewrite R.
  destruct (truediv _ _) as [q6|e6]; cbn [rbind];
    [|eexists; split; [reflexivity|split; [sound_tac S2|
       by row_tac]]].
  erewrite bind_ratio_ppi;
    [|counted_tac Hcnt|apply getitem_ppi_counts; key_tac].
  row_tac; rewrite R.
  destruct (truediv _ _) as [q7|e7]; cbn [rbind];
    [|eexists; split; [reflexivity|split; [sound_tac S2|
       by row_tac]]].
  erewrite bind_ratio_ppi;
    [|counted_tac Hcnt|apply getitem_ppi_counts; key_tac].
  row_tac; rewrite R.
  destruct (truediv _ _) as [q8|e8]; cbn [rbind];
    eexists; (split; [reflexivity|split; [sound_tac S2|
       by row_tac]]).
Qed.

Lemma valid_go_init row :
  valid_go row = is_ok (fst (RowStats.go_values_counts (RowStats.__init__ row))).
Proof.
  unfold valid_go. pose proof (go_values_counts_init row) as H.
  destruct (classes _ _); by rewrite H.
Qed.

Lemma valid_ppi_init row :
  valid_ppi row
  = is_ok (fst (RowStats.ppi_values_counts (RowStats.__init__ row))).
Proof.
  unfold valid_ppi. pose proof (ppi_values_counts_init row) as H.
  destruct (classes _ _); by rewrite H.
Qed.

Lemma len_pos X : X ≠ ∅ → 0 < RowStats.len X.
Proof.
  intros H. pose proof (len_nonneg X).
  destruct (decide (RowStats.len X = 0)) as [E|E]; [|lia].
  by apply len_zero in E.
Qed.

(** The statistics of a row that has GO and PPI features are defined. *)
Lemma row_stats_ok row :
  go_names row ≠ ∅ → ppi_names row ≠ ∅ → ∃ stats, row_stats row = Ok stats.
Proof.
  intros Hg%len_pos Hp%len_pos. unfold row_stats. cbv zeta.
  repeat match goal with
  | |- context [truediv (NInt (go_count row ?v)) _] =>
      let q := fresh "q" in let Hq := fresh "Hq" in
      destruct (truediv_counts (go_count row v) _
                  (count_where_bounds _ _) Hg) as [q Hq];
      rewrite Hq; clear Hq; cbn [rbind]
  | |- context [truediv (NInt (ppi_count row ?k)) _] =>
      let q := fresh "q" in let Hq := fresh "Hq" in
      destruct (truediv_counts (ppi_count row k) _
                  (count_where_bounds _ _) Hp) as [q Hq];
      rewrite Hq; clear Hq; cbn [rbind]
  end.
  by eexists.
Qed.

(** X3.  When [get_stats] returns on a new [RowStats], the statistics
    are, in this order, the numbers of GO features of value "0" and
    "1", the numbers of PPI features in each of the six buckets, and
    each of these eight counts divided by the number of features of its
    family.  The two GO counts add up to the number of GO features, the
    six PPI counts to the number of PPI features, and neither number is
    zero. *)
Theorem row_get_stats_spec (row : Row.t) (stats : dict num)
  (H : fst (RowStats.get_stats (RowStats.__init__ row)) = Ok stats) :
  let ngo := RowStats.len (go_names row) in
  let nppi := RowStats.len (ppi_names row) in
  keys stats
    = ["#GO=0"; "#GO=1"; "#PPI=0"; "#PPI=(0;150]"; "#PPI=(150;400]";
       "#PPI=(400;700]"; "#PPI=(700;900]"; "#PPI=(900;1000]";
       "%GO=0"; "%GO=1"; "%PPI=0"; "%PPI=(0;150]"; "%PPI=(150;400]";
       "%PPI=(400;700]"; "%PPI=(700;900]"; "%PPI=(900;1000]"] ∧
  (getitem stats "#GO=0" = Ok (NInt (go_count row "0")) ∧
   getitem stats "#GO=1" = Ok (NInt (go_count row "1")) ∧
   getitem stats "#PPI=0" = Ok (NInt (ppi_count row "0")) ∧
   getitem stats "#PPI=(0;150]" = Ok (NInt (ppi_count row "001->150")) ∧
   getitem stats "#PPI=(150;400]" = Ok (NInt (ppi_count row "151->400")) ∧
   getitem stats "#PPI=(400;700]" = Ok (NInt (ppi_count row "401->700")) ∧
   getitem stats "#PPI=(700;900]" = Ok (NInt (ppi_count row "701->900")) ∧
   getitem stats "#PPI=(900;1000]" = Ok (NInt (ppi_count row "901->1000"))) ∧
  (getitem stats "%GO=0" = truediv (NInt (go_count row "0")) (NInt ngo) ∧
   getitem stats "%GO=1" = truediv (NInt (go_count row "1")) (NInt ngo) ∧
   getitem stats "%PPI=0" = truediv (NInt (ppi_count row "0")) (NInt nppi) ∧
   getitem stats "%PPI=(0;150]"
     = truediv (NInt (ppi_count row "001->150")) (NInt nppi) ∧
   getitem stats "%PPI=(150;400]"
     = truediv (NInt (ppi_count row "151->400")) (NInt nppi) ∧
   getitem stats "%PPI=(400;700]"
     = truediv (NInt (ppi_count row "401->700")) (NInt nppi) ∧
   getitem stats "%PPI=(700;900]"
     = truediv (NInt (ppi_count row "701->900")) (NInt nppi) ∧
   getitem stats "%PPI=(900;1000]"
     = truediv (NInt (ppi_count row "901->1000")) (NInt nppi)) ∧
  go_count row "0" + go_count row "1" = ngo ∧
  ppi_count row "0" + ppi_count row "001->150" + ppi_count row "151->400"
  + ppi_count row "401->700" + ppi_count row "701->900"
  + ppi_count row "901->1000" = nppi ∧
  0 < ngo ∧ 0 < nppi.
Proof.
  cbv zeta.
  pose proof (get_stats_sound _ (sound_init row)) as Hs.
  change (RowStats.row (RowStats.__init__ row)) with row in Hs.
  destruct (classes (go_class row) _) as [kg|e] eqn:Hkg; [|congruence].
  destruct (classes (ppi_class row) _) as [kp|e] eqn:Hkp; [|congruence].
  destruct Hs as (rs' & Hs & _). rewrite Hs in H. cbn [fst] in H. clear Hs.
  assert (Hg : sum (values (go_counts row)) = RowStats.len (go_names row)).
  { apply sum_go_counts. unfold valid_go. by rewrite Hkg. }
  assert (Hp : sum (values (ppi_counts row)) = RowStats.len (ppi_names row)).
  { apply sum_ppi_counts. unfold valid_ppi. by rewrite Hkp. }
  unfold row_stats in H. cbv zeta in H.
  destruct (truediv (NInt (go_count row "0")) _) as [q1|] eqn:E1;
    [|discriminate H].
  destruct (truediv (NInt (go_count row "1")) _) as [q2|] eqn:E2;
    [|discriminate H].
  destruct (truediv (NInt (ppi_count row "0")) _) as [q3|] eqn:E3;
    [|discriminate H].
  destruct (truediv (NInt (ppi_count row "001->150")) _) as [q4|] eqn:E4;
    [|discriminate H].
  destruct (truediv (NInt (ppi_count row "151->400")) _) as [q5|] eqn:E5;
    [|discriminate H].
  destruct (truediv (NInt (ppi_count row "401->700")) _) as [q6|] eqn:E6;
    [|discriminate H].
  destruct (truediv (NInt (ppi_count row "701->900")) _) as [q7|] eqn:E7;
    [|discriminate H].
  destruct (truediv (NInt (ppi_count row "901->1000")) _) as [q8|] eqn:E8;
    [|discriminate H].
  cbn [rbind] in H. injection H as <-.
  split; [reflexivity|]. split; [by repeat split|].
  split; [by repeat split|].
  apply truediv_int_ok_inv in E1, E3.
  pose proof (len_nonneg (go_names row)).
  pose proof (len_nonneg (ppi_names row)).
  unfold go_counts, ppi_counts, go_keys, ppi_keys, sum in Hg, Hp.
  cbn [map values snd fold_left] in Hg, Hp. lia.
Qed.

(** X3, on a row with two GO features and a PPI feature in each bucket. *)
Lemma row_get_stats_spec_witness :
  fst (RowStats.get_stats (RowStats.__init__ (Examples.row_2_6 "1")))
    = Ok Examples.stats_row_2_6 ∧
  getitem Examples.stats_row_2_6 "#GO=0"
    = Ok (NInt (go_count (Examples.row_2_6 "1") "0")) ∧
  getitem Examples.stats_row_2_6 "%PPI=(0;150]"
    = truediv (NInt (ppi_count (Examples.row_2_6 "1") "001->150"))
        (NInt (RowStats.len (ppi_names (Examples.row_2_6 "1")))).
Proof.
  assert (H : fst (RowStats.get_stats
                     (RowStats.__init__ (Examples.row_2_6 "1")))
              = Ok Examples.stats_row_2_6) by (vm_compute; reflexivity).
  split; [exact H|].
  generalize (row_get_stats_spec _ _ H). cbv zeta.
  intros (_ & (H1 & _) & (_ & _ & _ & H2 & _) & _). split; [exact H1|exact H2].
Defined.

(** X4.  On a new [RowStats], [validate] raises only what the counting
    of the values raises: it returns exactly when [go_values_counts]
    and [ppi_values_counts] both return, it raises the exception of
    [go_values_counts] when there is one, and otherwise that of
    [ppi_values_counts]; its three assertions hold whenever they are
    reached. *)
Theorem validate_outcome (row : Row.t) :
  let go := fst (RowStats.go_values_counts (RowStats.__init__ row)) in
  let ppi := fst (RowStats.ppi_values_counts (RowStats.__init__ row)) in
  let outcome := fst (RowStats.validate (RowStats.__init__ row)) in
  (is_ok outcome = true ↔ is_ok go = true ∧ is_ok ppi = true) ∧
  (∀ e, go = Raise e → outcome = Raise e) ∧
  (∀ e, is_ok go = true → ppi = Raise e → outcome = Raise e).
Proof.
  cbv zeta.
  pose proof (validate_sound _ (sound_init row)) as Hv.
  change (RowStats.row (RowStats.__init__ row)) with row in Hv.
  pose proof (go_values_counts_init row) as Hg.
  pose proof (ppi_values_counts_init row) as Hp.
  destruct (classes (go_class row) _) as [kg|eg];
    destruct (classes (ppi_class row) _) as [kp|ep];
    rewrite Hg, Hp; try destruct Hv as (rs' & -> & _); try rewrite Hv;
    cbn [fst is_ok]; split_and!; try done; try tauto; try congruence;
    intuition congruence.
Qed.

(** X5.  [get_stats] returns on a new [RowStats] exactly when
    [validate] does and the row has a GO feature and a PPI feature. *)
Theorem row_get_stats_returns (row : Row.t) :
  is_ok (fst (RowStats.get_stats (RowStats.__init__ row))) = true ↔
  is_ok (fst (RowStats.validate (RowStats.__init__ row))) = true ∧
  fst (RowStats.num_go_features (RowStats.__init__ row)) ≠ Ok 0 ∧
  fst (RowStats.num_ppi_features (RowStats.__init__ row)) ≠ Ok 0.
Proof.
  pose proof (get_stats_sound _ (sound_init row)) as Hs.
  pose proof (validate_sound _ (sound_init row)) as Hv.
  change (RowStats.row (RowStats.__init__ row)) with row in Hs, Hv.
  destruct (feature_counts_code row) as (_ & -> & ->).
  assert (Hz : ∀ X, Ok (RowStats.len X) ≠ Ok 0 ↔ X ≠ ∅).
  { intros X. rewrite <- len_zero. split; [congruence|]. intros H [= E]. done. }
  rewrite !Hz.
  destruct (classes (go_class row) _) as [kg|eg];
    [|rewrite Hs, Hv; cbn; intuition congruence].
  destruct (classes (ppi_class row) _) as [kp|ep];
    [|rewrite Hs, Hv; cbn; intuition congruence].
  destruct Hs as (rs' & Hs & _). destruct Hv as (rs'' & Hv & _).
  rewrite Hs, Hv. cbn [fst is_ok]. split.
  - intros Hok. split; [done|].
    destruct (row_stats row) as [stats|e] eqn:E; [|done].
    by destruct (get_stats_ok_features _ _ _ (coherent_init row) Hs).
  - intros (_ & G & P). by destruct (row_stats_ok row G P) as [stats ->].
Qed.

(* ================================================================== *)
(** * RowStats: a counting method that raised *)
(* ================================================================== *)

(** The state a counting loop leaves when it raises: the counts of the
    features before the one refused. *)
Lemma classify_loop_raise family cls l : ∀ rs d e s',
  RowStats._values_count rs !! family = Some d →
  (∀ n k, cls (RowStats.row rs) n = Ok k → k ∈ keys d) →
  for_each l (classify_step family cls) rs = (Raise e, s') →
  ∃ ks, s' = RowStats.set_values_count family (tally d ks) rs ∧
        Forall (fun k => k ∈ keys d) ks ∧ (length ks < length l)%nat.
Proof.
  induction l as [|n l IH]; intros rs d e s' Hd Hk H; [discriminate H|].
  cbn [for_each] in H. unfold bind at 1, classify_step at 1 in H.
  destruct (cls (RowStats.row rs) n) as [k|e0] eqn:E.
  - destruct (proj2 (dict_get_Some_keys d k) (Hk n k E)) as [v Hv].
    rewrite (incr_run _ _ _ _ _ Hd Hv) in H.
    set (rs1 := RowStats.set_values_count family (setitem d k (v + 1)) rs) in *.
    assert (Hkeys : keys (setitem d k (v + 1)) = keys d)
      by (apply keys_setitem; by eapply Hk).
    destruct (IH rs1 (setitem d k (v + 1)) e s') as (ks & -> & Hks & Hlen).
    + unfold rs1. cbn. by rewrite lookup_insert_eq.
    + intros n' k' H'. rewrite Hkeys. by eapply Hk.
    + exact H.
    + exists (k :: ks). split; [|split].
      * unfold rs1. rewrite set_values_count_twice. unfold tally.
        cbn [fold_left]. unfold bump. by rewrite Hv.
      * constructor; [by eapply Hk|]. by rewrite Hkeys in Hks.
      * cbn [length]. lia.
  - injection H as <- <-. exists []. split; [|split].
    + by rewrite set_values_count_id.
    + constructor.
    + cbn [length]. lia.
Qed.

Lemma go_values_counts_unfold rs :
  coherent rs → RowStats._values_count rs !! "go" = None →
  RowStats.go_values_counts rs
  = match for_each (elements (go_names (RowStats.row rs)))
            (classify_step "go" go_class)
            (with_go (RowStats.set_values_count "go" go_zero rs)) with
    | (Ok _, s) => (RowStats.cache_getitem (RowStats._values_count s) "go", s)
    | (Raise e, s) => (Raise e, s)
    end.
Proof.
  intros Hc Hn. set (rs1 := RowStats.set_values_count "go" go_zero rs).
  assert (Hc1 : coherent rs1) by exact Hc.
  unfold RowStats.go_values_counts.
  unfold bind at 1. unfold gets at 1. rewrite Hn.
  unfold bind at 1. unfold bind at 1. unfold modify at 1.
  fold go_zero. fold rs1.
  unfold bind at 1. rewrite (go_features_names_run rs1 Hc1).
  change (RowStats.row rs1) with (RowStats.row rs).
  rewrite (for_each_ext _ _ _ go_loop_eq).
  destruct (for_each _ _ _) as [[u|e] s]; done.
Qed.

Lemma ppi_values_counts_unfold rs :
  coherent rs → RowStats._values_count rs !! "ppi" = None →
  RowStats.ppi_values_counts rs
  = match for_each (elements (ppi_names (RowStats.row rs)))
            (classify_step "ppi" ppi_class)
            (with_ppi (RowStats.set_values_count "ppi" ppi_zero rs)) with
    | (Ok _, s) => (RowStats.cache_getitem (RowStats._values_count s) "ppi", s)
    | (Raise e, s) => (Raise e, s)
    end.
Proof.
  intros Hc Hn. set (rs1 := RowStats.set_values_count "ppi" ppi_zero rs).
  assert (Hc1 : coherent rs1) by exact Hc.
  unfold RowStats.ppi_values_counts.
  unfold bind at 1. unfold gets at 1. rewrite Hn.
  unfold bind at 1. unfold bind at 1. unfold modify at 1.
  fold ppi_zero. fold rs1.
  unfold bind at 1. rewrite (ppi_features_names_run rs1 Hc1).
  change (RowStats.row rs1) with (RowStats.row rs).
  rewrite (for_each_ext _ _ _ ppi_loop_eq).
  destruct (for_each _ _ _) as [[u|e] s]; done.
Qed.

(** What [go_values_counts] leaves on a new [RowStats] when it raises. *)
Lemma go_values_counts_raise_state row e s' :
  RowStats.go_values_counts (RowStats.__init__ row) = (Raise e, s') →
  ∃ d, coherent s' ∧ RowStats.row s' = row ∧
       RowStats._values_count s' !! "go" = Some d ∧
       keys d = go_keys ∧ sum (values d) < RowStats.len (go_names row).
Proof.
  intros H.
  rewrite (go_values_counts_unfold _ (coherent_init row) (lookup_empty _)) in H.
  change (RowStats.row (RowStats.__init__ row)) with row in H.
  set (rs1 := RowStats.set_values_count "go" go_zero (RowStats.__init__ row)) in *.
  assert (Hc1 : coherent rs1) by apply coherent_init.
  destruct (with_go_facts rs1 Hc1) as (Hr & Hv & _ & Hc2 & _).
  assert (P1 : RowStats._values_count (with_go rs1) !! "go" = Some go_zero).
  { rewrite Hv. unfold rs1. cbn. by rewrite lookup_insert_eq. }
  destruct (for_each _ _ _) as [[u|e'] s] eqn:E.
  - exfalso. pose proof (classify_loop "go" go_class (elements (go_names row))
                           (with_go rs1) go_zero P1
                           (fun n k => go_class_keys _ n k)) as HL.
    rewrite Hr in HL. change (RowStats.row rs1) with row in HL.
    destruct (classes _ _) as [ks|e0].
    + rewrite E in HL. injection HL as HL. subst s.
      unfold RowStats.cache_getitem, RowStats.set_values_count in H.
      cbn [RowStats._values_count] in H.
      by rewrite lookup_insert_eq in H.
    + rewrite E in HL. discriminate HL.
  - injection H as <- <-.
    destruct (classify_loop_raise _ _ _ _ _ _ _ P1
                (fun n k => go_class_keys _ n k) E) as (ks & -> & Hks & Hlen).
    exists (tally go_zero ks). split_and!.
    + exact Hc2.
    + exact Hr.
    + cbn. by rewrite lookup_insert_eq.
    + apply keys_tally.
    + rewrite sum_tally by done. change (sum (values go_zero)) with 0.
      unfold RowStats.len, size, set_size. cbn. lia.
Qed.

Lemma ppi_values_counts_raise_state row e s' :
  RowStats.ppi_values_counts (RowStats.__init__ row) = (Raise e, s') →
  ∃ d, coherent s' ∧ RowStats.row s' = row ∧
       RowStats._values_count s' !! "ppi" = Some d ∧
       keys d = ppi_keys ∧ sum (values d) < RowStats.len (ppi_names row).
Proof.
  intros H.
  rewrite (ppi_values_counts_unfold _ (coherent_init row) (lookup_empty _)) in H.
  change (RowStats.row (RowStats.__init__ row)) with row in H.
  set (rs1 := RowStats.set_values_count "ppi" ppi_zero (RowStats.__init__ row)) in *.
  assert (Hc1 : coherent rs1) by apply coherent_init.
  destruct (with_ppi_facts rs1 Hc1) as (Hr & Hv & _ & Hc2 & _).
  assert (P1 : RowStats._values_count (with_ppi rs1) !! "ppi" = Some ppi_zero).
  { rewrite Hv. unfold rs1. cbn. by rewrite lookup_insert_eq. }
  destruct (for_each _ _ _) as [[u|e'] s] eqn:E.
  - exfalso. pose proof (classify_loop "ppi" ppi_class (elements (ppi_names row))
                           (with_ppi rs1) ppi_zero P1
                           (fun n k => ppi_class_keys _ n k)) as HL.
    rewrite Hr in HL. change (RowStats.row rs1) with row in HL.
    destruct (classes _ _) as [ks|e0].
    + rewrite E in HL. injection HL as HL. subst s.
      unfold RowStats.cache_getitem, RowStats.set_values_count in H.
      cbn [RowStats._values_count] in H.
      by rewrite lookup_insert_eq in H.
    + rewrite E in HL. discriminate HL.
  - injection H as <- <-.
    destruct (classify_loop_raise _ _ _ _ _ _ _ P1
                (fun n k => ppi_class_keys _ n k) E) as (ks & -> & Hks & Hlen).
    exists (tally ppi_zero ks). split_and!.
    + exact Hc2.
    + exact Hr.
    + cbn. by rewrite lookup_insert_eq.
    + apply keys_tally.
    + rewrite sum_tally by done. change (sum (values ppi_zero)) with 0.
      unfold RowStats.len, size, set_size. cbn. lia.
Qed.

Lemma bind_assert_false {S B} (k : unit -> M S B) s :
  bind (assert false) k s = (Raise AssertionError, s).
Proof. done. Qed.

(** [validate] up to its reading of [go_values_counts]. *)
Lemma validate_unfold rs :
  coherent rs →
  ∃ rs4, coherent rs4 ∧ rs_le rs rs4 ∧
    RowStats._values_count rs4 = RowStats._values_count rs ∧
    RowStats.validate rs
    = (go <- RowStats.go_values_counts ;;
       assert (RowStats.len (go_names (RowStats.row rs)) =? sum (values go)) ;;
       nppi <- RowStats.num_ppi_features ;;
       ppi <- RowStats.ppi_values_counts ;;
       assert (nppi =? sum (values ppi))) rs4.
Proof.
  intros Hc. unfold RowStats.validate.
  rewrite (bind_ok _ _ _ _ _ (num_features_run rs Hc)).
  destruct (with_all_facts rs Hc) as (R1 & V1 & _ & _ & C1 & L1).
  rewrite (bind_ok _ _ _ _ _ (num_go_features_run _ C1)).
  destruct (with_go_facts _ C1) as (R2 & V2 & _ & C2 & L2).
  rewrite (bind_ok _ _ _ _ _ (num_ppi_features_run _ C2)).
  destruct (with_ppi_facts _ C2) as (R3 & V3 & _ & C3 & L3).
  rewrite R2, R1.
  rewrite (proj2 (Z.eqb_eq _ _) (len_all_names (RowStats.row rs))).
  rewrite bind_assert_true.
  rewrite (bind_ok _ _ _ _ _ (num_go_features_run _ C3)).
  destruct (with_go_facts _ C3) as (R4 & V4 & _ & C4 & L4).
  rewrite R3, R2, R1.
  eexists. split; [exact C4|]. split.
  { eapply rs_le_trans; [|exact L4]. eapply rs_le_trans; [|exact L3].
    eapply rs_le_trans; [exact L1|exact L2]. }
  split; [congruence|reflexivity].
Qed.

(** X6.  A counting method raises once: the dictionary it was filling
    stays in [_values_count], so the next read returns it, with counts
    that add up to less than the number of features of the family.
    [validate] then fails, by its own assertion when the counting of
    the GO values had raised. *)
Theorem counts_raise_once :
  (∀ row e s',
     RowStats.go_values_counts (RowStats.__init__ row) = (Raise e, s') →
     ∃ d, RowStats.go_values_counts s' = (Ok d, s') ∧
          keys d = ["0"; "1"] ∧
          sum (values d) < RowStats.len (go_names row) ∧
          fst (RowStats.validate s') = Raise AssertionError) ∧
  (∀ row e s',
     RowStats.ppi_values_counts (RowStats.__init__ row) = (Raise e, s') →
     ∃ d, RowStats.ppi_values_counts s' = (Ok d, s') ∧
          keys d = ["0"; "001->150"; "151->400"; "401->700"; "701->900";
                    "901->1000"] ∧
          sum (values d) < RowStats.len (ppi_names row) ∧
          is_ok (fst (RowStats.validate s')) = false).
Proof.
  split.
  - intros row e s' H.
    destruct (go_values_counts_raise_state row e s' H)
      as (d & Hc & Hr & Hd & Hk & Hs).
    exists d. split; [by apply go_values_counts_cached|]. split; [exact Hk|].
    split; [exact Hs|].
    destruct (validate_unfold s' Hc) as (rs4 & C4 & L4 & V4 & ->).
    rewrite <- V4 in Hd.
    rewrite (bind_ok _ _ _ _ _ (go_values_counts_cached rs4 d Hd)).
    rewrite Hr. rewrite (proj2 (Z.eqb_neq _ _)) by lia. done.
  - intros row e s' H.
    destruct (ppi_values_counts_raise_state row e s' H)
      as (d & Hc & Hr & Hd & Hk & Hs).
    exists d. split; [by apply ppi_values_counts_cached|]. split; [exact Hk|].
    split; [exact Hs|].
    destruct (validate_unfold s' Hc) as (rs4 & C4 & L4 & V4 & ->).
    rewrite <- V4 in Hd.
    destruct (RowStats.go_values_counts rs4) as [[dg|eg] rs5] eqn:Hg;
      [|by rewrite (bind_raise _ _ _ _ _ Hg)].
    rewrite (bind_ok _ _ _ _ _ Hg).
    destruct (stable_go_values_counts _ _ _ C4 Hg) as (C5 & (R5 & _ & V5) & _).
    destruct (RowStats.len (go_names (RowStats.row s')) =? sum (values dg));
      [rewrite bind_assert_true|done].
    rewrite (bind_ok _ _ _ _ _ (num_ppi_features_run _ C5)).
    destruct (with_ppi_facts _ C5) as (R6 & V6 & _ & C6 & _).
    assert (Hd6 : RowStats._values_count (with_ppi rs5) !! "ppi" = Some d).
    { rewrite V6. by eapply lookup_weaken. }
    rewrite (bind_ok _ _ _ _ _ (ppi_values_counts_cached _ d Hd6)).
    destruct L4 as (R4 & _). rewrite R5, R4, Hr.
    by rewrite (proj2 (Z.eqb_neq _ _)) by lia.
Qed.

(** X6, on a row whose single GO feature holds "2". *)
Lemma counts_raise_once_witness :
  fst (RowStats.go_values_counts (RowStats.__init__ (Examples.one_go "2")))
    = Raise AssertionError ∧
  is_ok (fst (RowStats.go_values_counts
                (snd (RowStats.go_values_counts
                        (RowStats.__init__ (Examples.one_go "2")))))) = true ∧
  fst (RowStats.validate
         (snd (RowStats.go_values_counts
                 (RowStats.__init__ (Examples.one_go "2")))))
    = Raise AssertionError.
Proof.
  assert (E1 : fst (RowStats.go_values_counts
                      (RowStats.__init__ (Examples.one_go "2")))
               = Raise AssertionError) by (vm_compute; reflexivity).
  split; [exact E1|].
  generalize (proj1 counts_raise_once (Examples.one_go "2")).
  generalize E1.
  generalize (RowStats.go_values_counts
                (RowStats.__init__ (Examples.one_go "2"))).
  intros [r s'] Hr Honce. cbn [fst snd] in *. subst r.
  destruct (Honce _ _ eq_refl) as (d & Hd & _ & _ & Hv).
  split; [by rewrite Hd|exact Hv].
Defined.

(* ================================================================== *)
(** * DatasetStats: when [_calculate] returns *)
(* ================================================================== *)

Lemma rows_sound_init dataset :
  rows_sound dataset (map RowStats.__init__ dataset).
Proof.
  induction dataset as [|row rows IH]; constructor; [|exact IH].
  split; [done|apply sound_init].
Qed.

Lemma rows_sound_lookup dataset l i row :
  rows_sound dataset l → dataset !! i = Some row →
  ∃ rs, l !! i = Some rs ∧ RowStats.row rs = row ∧ sound rs.
Proof.
  intros H Hi. destruct (Forall2_lookup_l _ _ _ _ _ H Hi) as (rs & ? & ? & ?).
  eauto.
Qed.

Lemma rows_sound_insert dataset l i row rs :
  rows_sound dataset l → dataset !! i = Some row →
  RowStats.row rs = row → sound rs →
  rows_sound dataset (<[i := rs]> l).
Proof.
  intros H Hi Hr Hs. unfold rows_sound.
  rewrite <- (list_insert_id dataset i row Hi).
  apply Forall2_insert; [exact H|done].
Qed.

Lemma rows_sound_inv dataset l : rows_sound dataset l → rows_inv dataset l.
Proof.
  intros H. eapply Forall2_impl; [exact H|]. by intros row rs [Hr [Hc _]].
Qed.

(** A method of the [i]-th [RowStats] that returns on sound states and
    keeps them sound. *)
Lemma at_row_sound {A} i (c : M RowStats.t A) s l row a :
  DatasetStats._rows_stats s = Some l →
  rows_sound (DatasetStats.dataset s) l →
  DatasetStats.dataset s !! i = Some row →
  (∀ rs, sound rs → RowStats.row rs = row →
         ∃ rs', c rs = (Ok a, rs') ∧ sound rs' ∧ RowStats.row rs' = row) →
  ∃ l', DatasetStats.at_row i c s
        = (Ok a, DatasetStats.set_rows_stats (Some l') s) ∧
        rows_sound (DatasetStats.dataset s) l' ∧ length l' = length l.
Proof.
  intros Hl Hs Hi Hc.
  destruct (rows_sound_lookup _ _ _ _ Hs Hi) as (rs & Hrs & Hr & Hsd).
  destruct (Hc rs Hsd Hr) as (rs' & Hrun & Hsd' & Hr').
  exists (<[i := rs']> l). split; [by eapply at_row_run|].
  split; [by eapply rows_sound_insert|by rewrite length_insert].
Qed.

(** A method of the [i]-th [RowStats] that raises. *)
Lemma at_row_raise {A} i (c : M RowStats.t A) s l row :
  DatasetStats._rows_stats s = Some l →
  rows_sound (DatasetStats.dataset s) l →
  DatasetStats.dataset s !! i = Some row →
  (∀ rs, sound rs → RowStats.row rs = row → is_ok (fst (c rs)) = false) →
  is_ok (fst (DatasetStats.at_row i c s)) = false.
Proof.
  intros Hl Hs Hi Hc.
  destruct (rows_sound_lookup _ _ _ _ Hs Hi) as (rs & Hrs & Hr & Hsd).
  specialize (Hc rs Hsd Hr).
  destruct (c rs) as [r rs'] eqn:E.
  by rewrite (at_row_run _ _ _ _ _ _ _ Hl Hrs E).
Qed.

Lemma validate_sound_ok rs row :
  sound rs → RowStats.row rs = row → valid_row row = true →
  ∃ rs', RowStats.validate rs = (Ok tt, rs') ∧ sound rs' ∧
         RowStats.row rs' = row.
Proof.
  intros Hs <- Hv. pose proof (validate_sound rs Hs) as H.
  unfold valid_row, valid_go, valid_ppi in Hv.
  apply andb_true_iff in Hv as [Hg Hp].
  destruct (classes (go_class _) _); [|done].
  destruct (classes (ppi_class _) _); [|done].
  destruct H as (rs' & ? & ? & ? & _). eauto.
Qed.

Lemma validate_sound_raise rs row :
  sound rs → RowStats.row rs = row → valid_row row = false →
  is_ok (fst (RowStats.validate rs)) = false.
Proof.
  intros Hs <- Hv. pose proof (validate_sound rs Hs) as H.
  unfold valid_row, valid_go, valid_ppi in Hv.
  destruct (classes (go_class _) _); [|by rewrite H].
  destruct (classes (ppi_class _) _); [done|by rewrite H].
Qed.

Lemma num_features_sound_ok rs row :
  sound rs → RowStats.row rs = row →
  ∃ rs', RowStats.num_features rs = (Ok (RowStats.len (all_names row)), rs') ∧
         sound rs' ∧ RowStats.row rs' = row.
Proof.
  intros Hs <-. eexists. split; [by apply num_features_sound|].
  split; [by apply sound_with_all|apply with_all_row].
Qed.

Lemma num_go_features_sound_ok rs row :
  sound rs → RowStats.row rs = row →
  ∃ rs', RowStats.num_go_features rs
         = (Ok (RowStats.len (go_names row)), rs') ∧
         sound rs' ∧ RowStats.row rs' = row.
Proof.
  intros Hs <-. eexists. split; [by apply num_go_features_sound|].
  split; [by apply sound_with_go|apply with_go_row].
Qed.

Lemma num_ppi_features_sound_ok rs row :
  sound rs → RowStats.row rs = row →
  ∃ rs', RowStats.num_ppi_features rs
         = (Ok (RowStats.len (ppi_names row)), rs') ∧
         sound rs' ∧ RowStats.row rs' = row.
Proof.
  intros Hs <-. eexists. split; [by apply num_ppi_features_sound|].
  split; [by apply sound_with_ppi|apply with_ppi_row].
Qed.

(** One iteration of the loop of [_validate], on sound [RowStats]
    objects: it returns when the values of the row are valid and its
    three numbers of features are the reference ones, and raises
    otherwise. *)
Lemma validate_loop_sound i s l row a b c :
  DatasetStats._rows_stats s = Some l →
  rows_sound (DatasetStats.dataset s) l →
  DatasetStats._num_features s = Some a →
  DatasetStats._num_go_features s = Some b →
  DatasetStats._num_ppi_features s = Some c →
  DatasetStats.dataset s !! i = Some row →
  if valid_row row && bool_decide (feature_counts row = (a, b, c)) then
    ∃ l', DatasetStats._validate_loop i s
          = (Ok tt, DatasetStats.set_rows_stats (Some l') s) ∧
          rows_sound (DatasetStats.dataset s) l' ∧ length l' = length l
  else is_ok (fst (DatasetStats._validate_loop i s)) = false.
Proof.
  intros Hl Hs Ha Hb Hc Hi. unfold DatasetStats._validate_loop.
  destruct (valid_row row) eqn:Hv; cbn [andb].
  2:{ destruct (DatasetStats.at_row i RowStats.validate s) as [[u|e] s1] eqn:E;
        [|by rewrite (bind_raise _ _ _ _ _ E)].
      pose proof (at_row_raise i RowStats.validate s l row Hl Hs Hi
                    (fun rs H1 H2 => validate_sound_raise rs row H1 H2 Hv)) as F.
      by rewrite E in F. }
  destruct (at_row_sound i RowStats.validate s l row tt Hl Hs Hi
              (fun rs H1 H2 => validate_sound_ok rs row H1 H2 Hv))
    as (l1 & E1 & S1 & L1).
  rewrite (bind_ok _ _ _ _ _ E1). rewrite bind_gets.
  set (s1 := DatasetStats.set_rows_stats (Some l1) s) in *.
  destruct (at_row_sound i RowStats.num_features s1 l1 row _ eq_refl S1 Hi
              (fun rs H1 H2 => num_features_sound_ok rs row H1 H2))
    as (l2 & E2 & S2 & L2).
  rewrite (bind_ok _ _ _ _ _ E2).
  change (DatasetStats.set_rows_stats (Some l2) s1)
    with (DatasetStats.set_rows_stats (Some l2) s) in *.
  set (s2 := DatasetStats.set_rows_stats (Some l2) s) in *.
  change (DatasetStats._num_features s1) with (DatasetStats._num_features s).
  rewrite Ha.
  destruct (decide (a = RowStats.len (all_names row))) as [->|Hna].
  2:{ rewrite bool_decide_eq_false_2 by (unfold feature_counts; congruence).
      rewrite bool_decide_eq_false_2 by congruence. done. }
  rewrite (bool_decide_eq_true_2 (Some _ = Some _)) by done.
  rewrite bind_assert_true, bind_gets.
  destruct (at_row_sound i RowStats.num_go_features s2 l2 row _ eq_refl S2 Hi
              (fun rs H1 H2 => num_go_features_sound_ok rs row H1 H2))
    as (l3 & E3 & S3 & L3).
  rewrite (bind_ok _ _ _ _ _ E3).
  change (DatasetStats.set_rows_stats (Some l3) s2)
    with (DatasetStats.set_rows_stats (Some l3) s) in *.
  set (s3 := DatasetStats.set_rows_stats (Some l3) s) in *.
  change (DatasetStats._num_go_features s2)
    with (DatasetStats._num_go_features s).
  rewrite Hb.
  destruct (decide (b = RowStats.len (go_names row))) as [->|Hnb].
  2:{ rewrite (bool_decide_eq_false_2 (feature_counts _ = _))
        by (unfold feature_counts; congruence).
      rewrite bool_decide_eq_false_2 by congruence. done. }
  rewrite (bool_decide_eq_true_2 (Some _ = Some _)) by done.
  rewrite bind_assert_true, bind_gets.
  destruct (at_row_sound i RowStats.num_ppi_features s3 l3 row _ eq_refl S3 Hi
              (fun rs H1 H2 => num_ppi_features_sound_ok rs row H1 H2))
    as (l4 & E4 & S4 & L4).
  rewrite (bind_ok _ _ _ _ _ E4).
  change (DatasetStats.set_rows_stats (Some l4) s3)
    with (DatasetStats.set_rows_stats (Some l4) s) in *.
  change (DatasetStats._num_ppi_features s3)
    with (DatasetStats._num_ppi_features s).
  rewrite Hc.
  destruct (decide (c = RowStats.len (ppi_names row))) as [->|Hnc].
  2:{ rewrite (bool_decide_eq_false_2 (feature_counts _ = _))
        by (unfold feature_counts; congruence).
      rewrite bool_decide_eq_false_2 by congruence. done. }
  rewrite (bool_decide_eq_true_2 (Some _ = Some _)) by done.
  rewrite (bool_decide_eq_true_2 (feature_counts _ = _)) by done.
  exists l4. split; [done|]. split; [exact S4|congruence].
Qed.

(** The loop of [_validate] on sound [RowStats] objects. *)
Lemma validate_loop_all idxs : ∀ s l a b c,
  DatasetStats._rows_stats s = Some l →
  rows_sound (DatasetStats.dataset s) l →
  DatasetStats._num_features s = Some a →
  DatasetStats._num_go_features s = Some b →
  DatasetStats._num_ppi_features s = Some c →
  if forallb (fun i => match DatasetStats.dataset s !! i with
                       | Some row => valid_row row &&
                                     bool_decide (feature_counts row = (a, b, c))
                       | None => false
                       end) idxs then
    ∃ l', for_each idxs DatasetStats._validate_loop s
          = (Ok tt, DatasetStats.set_rows_stats (Some l') s) ∧
          rows_sound (DatasetStats.dataset s) l' ∧ length l' = length l
  else is_ok (fst (for_each idxs DatasetStats._validate_loop s)) = false.
Proof.
  induction idxs as [|i idxs IH]; intros s l a b c Hl Hs Ha Hb Hc.
  - cbn. exists l. by rewrite set_rows_stats_id.
  - cbn [forallb for_each].
    destruct (DatasetStats.dataset s !! i) as [row|] eqn:Hi.
    + pose proof (validate_loop_sound i s l row a b c Hl Hs Ha Hb Hc Hi) as H.
      destruct (valid_row row && bool_decide _); cbn [andb].
      * destruct H as (l1 & E1 & S1 & L1). rewrite (bind_ok _ _ _ _ _ E1).
        specialize (IH (DatasetStats.set_rows_stats (Some l1) s) l1 a b c
                      eq_refl S1 Ha Hb Hc).
        change (DatasetStats.dataset (DatasetStats.set_rows_stats (Some l1) s))
          with (DatasetStats.dataset s) in IH.
        destruct (forallb _ idxs); [|exact IH].
        destruct IH as (l' & E & S' & L'). exists l'.
        split; [exact E|]. split; [exact S'|congruence].
      * destruct (DatasetStats._validate_loop i s) as [[u|e] s1] eqn:E;
          [done|]. by rewrite (bind_raise _ _ _ _ _ E).
    + cbn [andb].
      assert (E : DatasetStats.at_row i RowStats.validate s
                  = (Raise IndexError, s)).
      { unfold DatasetStats.at_row. rewrite Hl.
        destruct (l !! i) as [rs|] eqn:Hli; [|done].
        apply lookup_lt_Some in Hli. apply lookup_ge_None in Hi.
        rewrite (Forall2_length _ _ _ Hs) in Hi. lia. }
      unfold DatasetStats._validate_loop.
      by rewrite (bind_raise _ _ _ _ _ (bind_raise _ _ _ _ _ E)).
Qed.

Lemma forallb_ext_elem {A} (f g : A -> bool) (l : list A) :
  (∀ x, x ∈ l → f x = g x) → forallb f l = forallb g l.
Proof.
  induction l as [|x l IH]; intros H; cbn; [done|].
  rewrite (H x) by (by left). rewrite IH; [done|].
  intros y Hy. apply H. by right.
Qed.

Lemma forallb_seq_lookup {A} (f : A -> bool) (l : list A) :
  forallb (fun i => match l !! i with Some x => f x | None => false end)
    (seq 0 (length l))
  = forallb f l.
Proof.
  induction l as [|x l IH] using rev_ind; [done|].
  rewrite length_app. cbn [length]. rewrite Nat.add_1_r, seq_S, !forallb_app.
  cbn [forallb Nat.add]. rewrite lookup_app_r by lia.
  rewrite Nat.sub_diag. cbn [lookup list_lookup]. rewrite <- IH. f_equal.
  apply forallb_ext_elem. intros i Hi. apply elem_of_seq in Hi.
  by rewrite lookup_app_l by lia.
Qed.

(** [_validate] once the attributes are set: the loop over the
    [RowStats] objects. *)
Lemma validate_unfold_loop calc s l p n :
  DatasetStats._num_positive_instances s = Some p →
  DatasetStats._num_negative_instances s = Some n →
  DatasetStats._rows_stats s = Some l →
  DatasetStats._validate' calc s
  = for_each (seq 0 (length l)) DatasetStats._validate_loop s.
Proof.
  intros Hp Hn Hl. unfold DatasetStats._validate'.
  rewrite (bind_ok _ _ _ _ _ (num_instances_run calc s p n Hp Hn)).
  unfold DatasetStats.num_negative_instances'.
  rewrite (bind_ok _ _ _ _ _ (property_run calc _ s n Hn)).
  unfold DatasetStats.num_positive_instances'.
  rewrite (bind_ok _ _ _ _ _ (property_run calc _ s p Hp)).
  rewrite (proj2 (Z.eqb_eq _ _) (Z.add_comm p n)), bind_assert_true.
  unfold DatasetStats.rows_stats'.
  by rewrite (bind_ok _ _ _ _ _ (property_run calc _ s l Hl)).
Qed.

(** [_calculate] on a new object, up to [_validate]: the counts of the
    instances and the three numbers of features of the first row. *)
Lemma calculate_unfold_validate calc dataset row0 :
  dataset !! 0%nat = Some row0 → Forall has_class dataset →
  ∃ l, rows_sound dataset l ∧ length l = length dataset ∧
    DatasetStats._calculate' calc (DatasetStats.__init__ dataset)
    = DatasetStats._validate' calc
        (DatasetStats.mk dataset
           (Some (count_positive dataset)) (Some (count_negative dataset))
           (Some (RowStats.len (all_names row0)))
           (Some (RowStats.len (go_names row0)))
           (Some (RowStats.len (ppi_names row0)))
           (Some l) None).
Proof.
  intros H0 Hcls. unfold DatasetStats._calculate'.
  rewrite !bind_modify, bind_gets.
  set (s0 := DatasetStats.set_rows_stats (Some [])
               (DatasetStats.set_num_negative_instances (Some 0)
                  (DatasetStats.set_num_positive_instances (Some 0)
                     (DatasetStats.__init__ dataset)))).
  change (DatasetStats.dataset (DatasetStats.__init__ dataset)) with dataset.
  rewrite (bind_ok _ _ _ _ _
             (calculate_loop_run dataset s0 0 0 [] eq_refl eq_refl eq_refl Hcls)).
  cbn [app DatasetStats.dataset DatasetStats._num_features
       DatasetStats._num_go_features DatasetStats._num_ppi_features
       DatasetStats._avg_rows_stats s0 DatasetStats.set_rows_stats
       DatasetStats.set_num_negative_instances
       DatasetStats.set_num_positive_instances DatasetStats.__init__].
  rewrite !Z.add_0_l.
  set (s1 := DatasetStats.mk _ _ _ _ _ _ _ _).
  destruct (at_row_sound 0 RowStats.num_features s1 _ row0 _ eq_refl
              (rows_sound_init dataset) H0
              (fun rs H1 H2 => num_features_sound_ok rs row0 H1 H2))
    as (l2 & E2 & S2 & L2).
  rewrite (bind_ok _ _ _ _ _ E2), bind_modify.
  set (s2 := DatasetStats.set_num_features _ _).
  destruct (at_row_sound 0 RowStats.num_go_features s2 l2 row0 _ eq_refl
              S2 H0 (fun rs H1 H2 => num_go_features_sound_ok rs row0 H1 H2))
    as (l3 & E3 & S3 & L3).
  rewrite (bind_ok _ _ _ _ _ E3), bind_modify.
  set (s3 := DatasetStats.set_num_go_features _ _).
  destruct (at_row_sound 0 RowStats.num_ppi_features s3 l3 row0 _ eq_refl
              S3 H0 (fun rs H1 H2 => num_ppi_features_sound_ok rs row0 H1 H2))
    as (l4 & E4 & S4 & L4).
  rewrite (bind_ok _ _ _ _ _ E4), bind_modify.
  exists l4. split; [exact S4|]. split.
  { rewrite L4, L3, L2. apply length_map. }
  reflexivity.
Qed.

(** The outcome of [_calculate] on a new object whose rows all have a
    class. *)
Lemma calculate_outcome calc dataset row0 :
  dataset !! 0%nat = Some row0 → Forall has_class dataset →
  if forallb (fun row => valid_row row &&
                bool_decide (feature_counts row = feature_counts row0))
       dataset then
    ∃ l, rows_sound dataset l ∧ length l = length dataset ∧
      DatasetStats._calculate' calc (DatasetStats.__init__ dataset)
      = (Ok tt,
         DatasetStats.mk dataset
           (Some (count_positive dataset)) (Some (count_negative dataset))
           (Some (RowStats.len (all_names row0)))
           (Some (RowStats.len (go_names row0)))
           (Some (RowStats.len (ppi_names row0)))
           (Some l) None)
  else is_ok (fst (DatasetStats._calculate' calc
                     (DatasetStats.__init__ dataset))) = false.
Proof.
  intros H0 Hcls.
  destruct (calculate_unfold_validate calc dataset row0 H0 Hcls)
    as (l5 & S5 & L5 & ->).
  set (s5 := DatasetStats.mk _ _ _ _ _ _ _ _).
  rewrite (validate_unfold_loop calc s5 l5 _ _ eq_refl eq_refl eq_refl).
  pose proof (validate_loop_all (seq 0 (length l5)) s5 l5 _ _ _
                eq_refl S5 eq_refl eq_refl eq_refl) as H.
  change (DatasetStats.dataset s5) with dataset in H.
  rewrite L5 in H |- *.
  rewrite (forallb_seq_lookup
             (fun row => valid_row row &&
                bool_decide (feature_counts row
                  = (RowStats.len (all_names row0),
                     RowStats.len (go_names row0),
                     RowStats.len (ppi_names row0)))) dataset) in H.
  change (RowStats.len (all_names row0), RowStats.len (go_names row0),
          RowStats.len (ppi_names row0)) with (feature_counts row0) in H.
  destruct (forallb _ dataset); [|exact H].
  destruct H as (l' & E & S' & L'). exists l'.
  split; [exact S'|]. split; [congruence|exact E].
Qed.

Lemma valid_row_validate row :
  valid_row row = is_ok (fst (RowStats.validate (RowStats.__init__ row))).
Proof.
  destruct (valid_row row) eqn:Hv.
  - destruct (validate_sound_ok _ row (sound_init row) eq_refl Hv)
      as (rs' & -> & _). done.
  - symmetry. by apply (validate_sound_raise _ row (sound_init row)).
Qed.

(** X7.  [_calculate] returns on a new [DatasetStats] exactly when the
    dataset has a first row, every row has a [class] field, [validate]
    returns on a new [RowStats] of every row, and every row has the
    numbers of features, of GO features and of PPI features of the
    first row.  The three reference numbers are then those of the
    first row. *)
Theorem calculate_returns (dataset : list Row.t) :
  (is_ok (fst (DatasetStats._calculate (DatasetStats.__init__ dataset))) = true ↔
   ∃ row0, dataset !! 0%nat = Some row0 ∧
     Forall (fun row =>
       has_class row ∧
       is_ok (fst (RowStats.validate (RowStats.__init__ row))) = true ∧
       feature_counts row = feature_counts row0) dataset) ∧
  (∀ s', DatasetStats._calculate (DatasetStats.__init__ dataset) = (Ok tt, s') →
     ∃ row0, dataset !! 0%nat = Some row0 ∧
       DatasetStats.num_features s' = (Ok (RowStats.len (all_names row0)), s') ∧
       DatasetStats.num_go_features s'
         = (Ok (RowStats.len (go_names row0)), s') ∧
       DatasetStats.num_ppi_features s'
         = (Ok (RowStats.len (ppi_names row0)), s')).
Proof.
  split.
  - rewrite calculate_unfold. split.
    + destruct (DatasetStats._calculate' _ _) as [[[]|e] s'] eqn:E; [|done].
      intros _. pose proof E as E'.
      apply calculate_ok in E'
        as (_ & _ & Hcls & _ & _ & row0 & l' & H0 & _ & _ & _ & _ & _ & Hfc).
      cbn in Hcls, H0, Hfc. exists row0. split; [exact H0|].
      pose proof (calculate_outcome (DatasetStats._calculate_at 999)
                    dataset row0 H0 Hcls) as Ho.
      destruct (forallb _ dataset) eqn:Hall; [|by rewrite E in Ho].
      rewrite forallb_forall in Hall. rewrite Forall_forall in Hcls.
      apply Forall_forall. intros row Hrow.
      split; [by apply Hcls|]. split; [|by apply Hfc].
      rewrite <- valid_row_validate.
      apply list_elem_of_In in Hrow. by apply Hall, andb_true_iff in Hrow as [? _].
    + intros (row0 & H0 & Hall).
      assert (Hcls : Forall has_class dataset).
      { eapply Forall_impl; [exact Hall|]. by intros row (? & _). }
      pose proof (calculate_outcome (DatasetStats._calculate_at 999)
                    dataset row0 H0 Hcls) as Ho.
      destruct (forallb _ dataset) eqn:Hf.
      * by destruct Ho as (l & _ & _ & ->).
      * exfalso. apply not_true_iff_false in Hf. apply Hf.
        apply forallb_forall. intros row Hrow%list_elem_of_In.
        rewrite Forall_forall in Hall. destruct (Hall row Hrow) as (_ & Hv & Hfc).
        rewrite valid_row_validate, Hv. cbn. by apply bool_decide_eq_true_2.
  - intros s' E. rewrite calculate_unfold in E.
    apply calculate_ok in E
      as (_ & _ & _ & _ & _ & row0 & l' & H0 & A & B & C & _).
    cbn in H0. exists row0. split; [exact H0|].
    split_and!; by apply property_run.
Qed.

(** ** What [_calculate] leaves when it raises *)

Lemma pres_at_row {A} (P : DatasetStats.t -> Prop) i (c : M RowStats.t A) :
  (∀ s l, P s → P (DatasetStats.set_rows_stats (Some l) s)) →
  pres P (DatasetStats.at_row i c).
Proof.
  intros HP s r s' Hs H. unfold DatasetStats.at_row in H.
  destruct (DatasetStats._rows_stats s) as [l|]; [|by injection H as _ <-].
  destruct (l !! i) as [rs|]; [|by injection H as _ <-].
  destruct (c rs) as [r' rs']. injection H as _ <-. by apply HP.
Qed.

Lemma pres_validate_loop (P : DatasetStats.t -> Prop) i :
  (∀ s l, P s → P (DatasetStats.set_rows_stats (Some l) s)) →
  pres P (DatasetStats._validate_loop i).
Proof.
  intros HP. unfold DatasetStats._validate_loop.
  repeat first [ apply pres_bind; [|intros ?]
               | apply pres_at_row; exact HP
               | apply pres_gets
               | apply pres_assert ].
Qed.

(** X8.  [_calculate] sets the counts of the instances, the list of
    [RowStats] objects and the three reference numbers before it
    validates.  On a dataset with a first row whose rows all have a
    class, whatever the outcome of [_calculate], also when [_validate]
    raised, the properties read afterwards return these values without
    running [_calculate] again: the failure is not remembered. *)
Theorem calculate_sets_attributes (dataset : list Row.t) (row0 : Row.t)
  (r : result unit) (s' : DatasetStats.t)
  (H0 : dataset !! 0%nat = Some row0)
  (Hcls : Forall has_class dataset)
  (H : DatasetStats._calculate (DatasetStats.__init__ dataset) = (r, s')) :
  DatasetStats.num_positive_instances s' = (Ok (count_positive dataset), s') ∧
  DatasetStats.num_negative_instances s' = (Ok (count_negative dataset), s') ∧
  DatasetStats.num_instances s' = (Ok (Z.of_nat (length dataset)), s') ∧
  DatasetStats.num_features s' = (Ok (RowStats.len (all_names row0)), s') ∧
  DatasetStats.num_go_features s' = (Ok (RowStats.len (go_names row0)), s') ∧
  DatasetStats.num_ppi_features s'
    = (Ok (RowStats.len (ppi_names row0)), s') ∧
  is_ok (fst (DatasetStats.rows_stats s')) = true.
Proof.
  rewrite calculate_unfold in H.
  destruct (calculate_unfold_validate (DatasetStats._calculate_at 999)
              dataset row0 H0 Hcls) as (l5 & S5 & L5 & E).
  rewrite E in H. clear E.
  set (s5 := DatasetStats.mk _ _ _ _ _ _ _ _) in H.
  rewrite (validate_unfold_loop _ s5 l5 _ _ eq_refl eq_refl eq_refl) in H.
  assert (HP : same_but_rows s5 s' ∧ is_Some (DatasetStats._rows_stats s')).
  { eapply (pres_for_each
              (fun s => same_but_rows s5 s ∧ is_Some (DatasetStats._rows_stats s)));
      [|split; [apply same_but_rows_refl|by eexists]|exact H].
    intros i. apply pres_validate_loop. intros s l [F _].
    split; [|by eexists].
    eapply same_but_rows_trans; [exact F|apply same_but_rows_set]. }
  destruct HP as [(D & P & N & A & B & C & V) [l Hl]].
  cbn in D, P, N, A, B, C, V.
  split; [by apply property_run|]. split; [by apply property_run|].
  split.
  { unfold DatasetStats.num_instances.
    rewrite (num_instances_run _ s' _ _ P N). do 2 f_equal.
    by apply count_positive_negative. }
  split; [by apply property_run|]. split; [by apply property_run|].
  split; [by apply property_run|].
  unfold DatasetStats.rows_stats, DatasetStats.rows_stats'.
  by rewrite (property_run _ _ s' l Hl).
Qed.

(** X8, on a dataset whose second row has three GO features where the
    first has two: [_calculate] raises, and [num_instances] then
    returns 2. *)
Lemma calculate_sets_attributes_witness :
  fst (DatasetStats._calculate
         (DatasetStats.__init__ [Examples.row_2_2 "0"; Examples.row_3_2 "1"]))
    = Raise AssertionError ∧
  fst (DatasetStats.num_instances
         (snd (DatasetStats._calculate
                 (DatasetStats.__init__
                    [Examples.row_2_2 "0"; Examples.row_3_2 "1"]))))
    = Ok 2.
Proof.
  split; [vm_compute; reflexivity|].
  assert (Hcls : Forall has_class [Examples.row_2_2 "0"; Examples.row_3_2 "1"]).
  { repeat constructor; eexists; vm_compute; reflexivity. }
  destruct (calculate_sets_attributes
              [Examples.row_2_2 "0"; Examples.row_3_2 "1"]
              (Examples.row_2_2 "0") _ _ eq_refl Hcls
              (surjective_pairing _)) as (_ & _ & Hn & _).
  by rewrite Hn.
Defined.

(* ================================================================== *)
(** * Counter: the sum of the statistics of the rows *)
(* ================================================================== *)

Lemma keys_setitem_new {V} (d : dict V) k v :
  k ∉ keys d → keys (setitem d k v) = (keys d ++ [k])%list.
Proof.
  induction d as [|[k0 v0] d IH]; cbn; [done|].
  rewrite not_elem_of_cons. intros [Hne Hnotin].
  destruct (String.eqb k0 k) eqn:E.
  - apply String.eqb_eq in E. congruence.
  - cbn. f_equal. by apply IH.
Qed.

Lemma NoDup_keys_setitem {V} (d : dict V) k v :
  NoDup (keys d) → NoDup (keys (setitem d k v)).
Proof.
  intros H. destruct (decide (k ∈ keys d)) as [Hin|Hnotin].
  - by rewrite keys_setitem.
  - rewrite keys_setitem_new by done. apply NoDup_app.
    split; [done|]. split; [|apply NoDup_singleton].
    intros x Hx Hx'. apply list_elem_of_singleton in Hx'. by subst.
Qed.

Lemma elem_of_keys_setitem {V} (d : dict V) k v k' :
  k' ∈ keys (setitem d k v) ↔ k' = k ∨ k' ∈ keys d.
Proof.
  destruct (decide (k ∈ keys d)) as [Hin|Hnotin].
  - rewrite keys_setitem by done. split; [by right|]. by intros [->|?].
  - rewrite keys_setitem_new by done. rewrite elem_of_app, list_elem_of_singleton.
    tauto.
Qed.

Lemma dict_get_None_keys {V} (d : dict V) k :
  dict_get d k = None ↔ k ∉ keys d.
Proof.
  split.
  - intros H Hin. apply dict_get_Some_keys in Hin as [v Hv]. congruence.
  - intros H. destruct (dict_get d k) eqn:E; [|done].
    destruct H. apply dict_get_Some_keys. eauto.
Qed.

(** What [Counter_update_add] leaves under one key. *)
Lemma Counter_update_add_get other : ∀ self c key,
  Counter_update_add self other = Ok c → NoDup (keys other) →
  match dict_get other key with
  | Some count =>
      ∃ v, add (Counter_getitem self key) count = Ok v ∧
           dict_get c key = Some v
  | None => dict_get c key = dict_get self key
  end.
Proof.
  induction other as [|[elem count] other IH]; intros self c key H Hnd.
  - cbn in *. by injection H as ->.
  - cbn [Counter_update_add] in H. cbn [keys map fst] in Hnd.
    apply NoDup_cons in Hnd as [Hnotin Hnd].
    destruct (add (Counter_getitem self elem) count) as [v|e] eqn:Ea;
      [|discriminate H].
    cbn [rbind] in H. specialize (IH _ _ key H Hnd).
    cbn [dict_get]. destruct (String.eqb elem key) eqn:E.
    + apply String.eqb_eq in E as <-.
      assert (Hn : dict_get other elem = None) by (by apply dict_get_None_keys).
      rewrite Hn in IH. rewrite IH, dict_get_setitem_same. eauto.
    + destruct (dict_get other key) as [count'|] eqn:Ho.
      * destruct IH as (v' & Hv' & Hc). exists v'. split; [|done].
        unfold Counter_getitem in *. by rewrite dict_get_setitem, E in Hv'.
      * by rewrite IH, dict_get_setitem, E.
Qed.

Lemma Counter_update_add_NoDup other : ∀ self c,
  Counter_update_add self other = Ok c → NoDup (keys self) → NoDup (keys c).
Proof.
  induction other as [|[elem count] other IH]; intros self c H Hnd.
  - cbn in H. by injection H as <-.
  - cbn [Counter_update_add] in H.
    destruct (add _ count) as [v|e]; [|discriminate H]. cbn [rbind] in H.
    eapply IH; [exact H|]. by apply NoDup_keys_setitem.
Qed.

Lemma keys_filter_sublist (P : string * num -> Prop) `{!∀ x, Decision (P x)}
  (c : list (string * num)) : NoDup (keys c) → NoDup (keys (filter P c)).
Proof.
  induction c as [|[k v] c IH]; [done|]. cbn [keys map fst].
  intros [Hnotin Hnd]%NoDup_cons. rewrite filter_cons.
  destruct (decide (P (k, v))); [|by apply IH].
  cbn [keys map fst]. apply NoDup_cons. split; [|by apply IH].
  intros Hin. apply Hnotin. unfold keys in *.
  apply list_elem_of_fmap in Hin as ([k' v'] & -> & Hin).
  apply list_elem_of_filter in Hin as [_ Hin].
  apply list_elem_of_fmap. by exists (k', v').
Qed.

Lemma dict_get_filter (P : string * num -> Prop) `{!∀ x, Decision (P x)}
  (c : list (string * num)) key :
  NoDup (keys c) →
  dict_get (filter P c) key
  = match dict_get c key with
    | Some v => if decide (P (key, v)) then Some v else None
    | None => None
    end.
Proof.
  induction c as [|[k v] c IH]; [done|]. cbn [keys map fst].
  intros [Hnotin Hnd]%NoDup_cons. rewrite filter_cons. cbn [dict_get].
  destruct (String.eqb k key) eqn:E.
  - apply String.eqb_eq in E as ->.
    destruct (decide (P (key, v))).
    + cbn [dict_get]. by rewrite String.eqb_refl.
    + rewrite IH by done.
      by rewrite (proj2 (dict_get_None_keys c key) Hnotin).
  - destruct (decide (P (k, v))); [|by apply IH].
    cbn [dict_get]. rewrite E. by apply IH.
Qed.

(** What [self += other] leaves under one key: the sum, when it is
    positive. *)
Lemma Counter_iadd_get self other c key :
  Counter_iadd self other = Ok c → NoDup (keys self) → NoDup (keys other) →
  NoDup (keys c) ∧
  match dict_get other key with
  | Some count =>
      ∃ v, add (Counter_getitem self key) count = Ok v ∧
           dict_get c key = if gt0 v then Some v else None
  | None =>
      dict_get c key
      = match dict_get self key with
        | Some v => if gt0 v then Some v else None
        | None => None
        end
  end.
Proof.
  unfold Counter_iadd. intros H Hs Ho.
  destruct (Counter_update_add self other) as [c'|e] eqn:E; [|discriminate H].
  cbn [rbind] in H. injection H as <-.
  pose proof (Counter_update_add_NoDup _ _ _ E Hs) as Hnd.
  split; [by apply keys_filter_sublist|].
  pose proof (Counter_update_add_get _ _ _ key E Ho) as Hg.
  unfold _keep_positive. rewrite dict_get_filter by done. cbn [snd].
  destruct (dict_get other key) as [count|].
  - destruct Hg as (v & Hv & ->). exists v. split; [done|].
    destruct (gt0 v); by destruct (decide _).
  - rewrite Hg. destruct (dict_get self key) as [v|]; [|done].
    destruct (gt0 v); by destruct (decide _).
Qed.

(* ================================================================== *)
(** * DatasetStats: the averages *)
(* ================================================================== *)

Lemma get_stats_sound_ok rs row :
  sound rs → RowStats.row rs = row → valid_row row = true →
  ∃ rs', RowStats.get_stats rs = (row_stats row, rs') ∧ sound rs' ∧
         RowStats.row rs' = row.
Proof.
  intros Hs <- Hv. pose proof (get_stats_sound rs Hs) as H.
  unfold valid_row, valid_go, valid_ppi in Hv.
  apply andb_true_iff in Hv as [Hg Hp].
  destruct (classes (go_class _) _); [|done].
  destruct (classes (ppi_class _) _); [|done].
  exact H.
Qed.

Lemma fold_left_rbind_raise {A B} (f : A -> B -> result A) l e :
  fold_left (fun r x => rbind r (fun a => f a x)) l (Raise e) = Raise e.
Proof. induction l as [|x l IH]; [done|]. exact IH. Qed.

(** The first loop of [avg_rows_stats], on sound [RowStats] objects of
    valid rows: the sum of their statistics. *)
Lemma avg_sum_loop idxs : ∀ rows acc s l,
  Forall2 (fun i row => DatasetStats.dataset s !! i = Some row ∧
                        valid_row row = true) idxs rows →
  DatasetStats._rows_stats s = Some l →
  rows_sound (DatasetStats.dataset s) l →
  ∃ l', for_fold (B := list (string * num)) idxs acc
          DatasetStats.avg_rows_stats_sum s
        = (fold_left (fun summed row =>
                        rbind summed (fun acc =>
                        rbind (row_stats row) (fun stats =>
                          Counter_iadd acc stats))) rows (Ok acc),
           DatasetStats.set_rows_stats (Some l') s) ∧
        rows_sound (DatasetStats.dataset s) l' ∧ length l' = length l.
Proof.
  induction idxs as [|i idxs IH]; intros rows acc s l HF Hl Hs.
  - apply Forall2_nil_inv_l in HF as ->. cbn. exists l.
    by rewrite set_rows_stats_id.
  - apply Forall2_cons_inv_l in HF as (row & rows' & [Hi Hv] & HF & ->).
    cbn [for_fold fold_left rbind].
    destruct (rows_sound_lookup _ _ _ _ Hs Hi) as (rs & Hrs & Hr & Hsd).
    destruct (get_stats_sound_ok rs row Hsd Hr Hv) as (rs' & Hrun & Hsd' & Hr').
    unfold DatasetStats.avg_rows_stats_sum at 1.
    set (l1 := <[i := rs']> l).
    assert (S1 : rows_sound (DatasetStats.dataset s) l1)
      by (by eapply rows_sound_insert).
    assert (L1 : length l1 = length l) by apply length_insert.
    pose proof (at_row_run _ _ _ _ _ _ _ Hl Hrs Hrun) as Hat. fold l1 in Hat.
    destruct (row_stats row) as [stats|e].
    + unfold bind at 1. rewrite (bind_ok _ _ _ _ _ Hat).
      unfold lift. cbn [rbind].
      destruct (Counter_iadd acc stats) as [acc'|e].
      * destruct (IH rows' acc' (DatasetStats.set_rows_stats (Some l1) s) l1
                    HF eq_refl S1) as (l' & E & S' & L').
        exists l'. split; [exact E|]. split; [exact S'|congruence].
      * exists l1. split; [|done]. by rewrite fold_left_rbind_raise.
    + exists l1. split; [|done].
      unfold bind at 1. rewrite (bind_raise _ _ _ _ _ Hat).
      cbn [rbind]. by rewrite fold_left_rbind_raise.
Qed.

(** The second loop: each sum divided by the number of instances. *)
Lemma avg_div_loop calc summed ks : ∀ s avg p n,
  DatasetStats._avg_rows_stats s = Some avg →
  DatasetStats._num_positive_instances s = Some p →
  DatasetStats._num_negative_instances s = Some n →
  ∃ avg',
    for_each ks (DatasetStats.avg_rows_stats_div calc summed) s
    = (rbind (fold_left (fun avg key =>
                 rbind avg (fun d =>
                 rbind (truediv (Counter_getitem summed key) (NInt (p + n)))
                   (fun q => Ok (setitem d key q)))) ks (Ok avg))
             (fun _ => Ok tt),
       DatasetStats.set_avg_rows_stats (Some avg') s) ∧
    ∀ a, fold_left (fun avg key =>
                 rbind avg (fun d =>
                 rbind (truediv (Counter_getitem summed key) (NInt (p + n)))
                   (fun q => Ok (setitem d key q)))) ks (Ok avg) = Ok a →
         avg' = a.
Proof.
  induction ks as [|key ks IH]; intros s avg p n Ha Hp Hn.
  - cbn. exists avg. split; [|by intros a [= <-]].
    unfold ret. f_equal. destruct s; cbn in *. by subst.
  - cbn [for_each fold_left rbind].
    unfold DatasetStats.avg_rows_stats_div at 1.
    unfold bind at 1.
    rewrite (bind_ok _ _ _ _ _ (num_instances_run calc s p n Hp Hn)).
    unfold bind at 1. unfold lift at 1.
    destruct (truediv (Counter_getitem summed key) (NInt (p + n))) as [q|e].
    + rewrite (bind_ok _ _ _ _ _ (attr_run _ s avg Ha)).
      unfold modify at 1. cbn [rbind].
      destruct (IH (DatasetStats.set_avg_rows_stats (Some (setitem avg key q)) s)
                  (setitem avg key q) p n eq_refl Hp Hn) as (avg' & E & Hu).
      exists avg'. split; [exact E|exact Hu].
    + exists avg. cbn [rbind]. rewrite fold_left_rbind_raise. cbn [rbind].
      split; [|done]. f_equal. destruct s; cbn in *. by subst.
Qed.

Lemma Forall2_seq_lookup {A} (P : A -> Prop) (l : list A) :
  Forall P l →
  Forall2 (fun i x => l !! i = Some x ∧ P x) (seq 0 (length l)) l.
Proof.
  intros H. apply Forall2_same_length_lookup. split; [by rewrite length_seq|].
  intros i j x Hj Hx. apply lookup_seq in Hj as [-> _]. split; [done|].
  rewrite Forall_forall in H. apply H. by eapply list_elem_of_lookup_2.
Qed.

(** [avg_rows_stats] on the state a successful [_calculate] leaves: the
    sums of the statistics of the rows, divided by the number of
    instances; they are cached when they are computed. *)
Lemma avg_rows_stats_run calc dataset l p n a b c :
  rows_sound dataset l → length l = length dataset →
  Forall (fun row => valid_row row = true) dataset →
  ∃ l' avg',
    rows_sound dataset l' ∧ length l' = length dataset ∧
    DatasetStats.avg_rows_stats' calc
      (DatasetStats.mk dataset (Some p) (Some n) a b c (Some l) None)
    = (rbind (summed_rows_stats dataset)
             (fun summed => averaged summed (p + n)),
       DatasetStats.mk dataset (Some p) (Some n) a b c (Some l') (Some avg')) ∧
    ∀ avg, rbind (summed_rows_stats dataset)
                 (fun summed => averaged summed (p + n)) = Ok avg →
           avg' = avg.
Proof.
  intros Hs Hlen Hv. unfold DatasetStats.avg_rows_stats'.
  rewrite bind_gets. cbn [DatasetStats._avg_rows_stats].
  unfold bind at 1. rewrite bind_modify.
  set (s1 := DatasetStats.set_avg_rows_stats (Some []) _).
  unfold DatasetStats.rows_stats'.
  rewrite (bind_ok _ _ _ _ _
             (property_run calc DatasetStats._rows_stats s1 l eq_refl)).
  cbv beta.
  destruct (avg_sum_loop (seq 0 (length l)) dataset [] s1 l) as (l' & E & S' & L').
  { rewrite Hlen. by apply Forall2_seq_lookup. }
  { done. }
  { exact Hs. }
  unfold bind at 1. rewrite E. fold (summed_rows_stats dataset).
  destruct (summed_rows_stats dataset) as [summed|e]; cbn [rbind].
  - destruct (avg_div_loop calc summed (keys summed)
                (DatasetStats.set_rows_stats (Some l') s1) [] p n
                eq_refl eq_refl eq_refl) as (avg' & E2 & Hu).
    rewrite E2. exists l', avg'. split; [exact S'|]. split; [congruence|].
    split; [|exact Hu]. unfold averaged.
    destruct (fold_left _ (keys summed) _) as [avg|e]; cbn [rbind]; [|done].
    unfold DatasetStats.attr. cbn. by rewrite (Hu avg eq_refl).
  - exists l', []. split; [exact S'|]. split; [congruence|]. by split.
Qed.

Lemma bind_avg_of calc key s avg {B} (k : num -> M DatasetStats.t B) :
  DatasetStats._avg_rows_stats s = Some avg →
  bind (DatasetStats.avg_of calc key) k s
  = match getitem avg key with
    | Ok v => k v s
    | Raise e => (Raise e, s)
    end.
Proof.
  intros H. unfold DatasetStats.avg_of. unfold bind at 1.
  rewrite (bind_ok _ _ _ _ _ (avg_rows_stats_cached calc s avg H)).
  unfold lift. by destruct (getitem avg key).
Qed.

(** [get_stats] on a new object on which [_calculate] returns: the
    report of the dataset. *)
Lemma get_stats_run dataset row0 :
  dataset !! 0%nat = Some row0 → Forall has_class dataset →
  forallb (fun row => valid_row row &&
             bool_decide (feature_counts row = feature_counts row0))
    dataset = true →
  fst (DatasetStats.get_stats (DatasetStats.__init__ dataset))
  = dataset_stats dataset row0.
Proof.
  intros H0 Hcls Hall.
  pose proof (calculate_outcome (DatasetStats._calculate_at 999)
                dataset row0 H0 Hcls) as Ho.
  rewrite Hall in Ho. destruct Ho as (l & S & L & E).
  rewrite <- calculate_unfold in E.
  set (s1 := DatasetStats.mk _ _ _ _ _ _ _ _) in E.
  assert (Hv : Forall (fun row => valid_row row = true) dataset).
  { apply Forall_forall. intros row Hrow%list_elem_of_In.
    rewrite forallb_forall in Hall. by apply Hall, andb_true_iff in Hrow as [? _]. }
  unfold DatasetStats.get_stats, DatasetStats.get_stats', dataset_stats.
  cbv zeta.
  assert (Hi : DatasetStats.num_instances' DatasetStats._calculate
                 (DatasetStats.__init__ dataset)
               = (Ok (count_positive dataset + count_negative dataset), s1)).
  { unfold DatasetStats.num_instances', DatasetStats.num_positive_instances'.
    rewrite (bind_ok _ _ _ _ _
               (property_init_run _ _ _ s1 (count_positive dataset)
                  eq_refl E eq_refl)).
    unfold DatasetStats.num_negative_instances'.
    by rewrite (bind_ok _ _ _ _ _
                  (property_run _ _ s1 (count_negative dataset) eq_refl)). }
  rewrite (bind_ok _ _ _ _ _ Hi). cbv beta.
  unfold DatasetStats.num_positive_instances' at 1.
  rewrite (bind_ok _ _ _ _ _
             (property_run _ _ s1 (count_positive dataset) eq_refl)). cbv beta.
  unfold DatasetStats.num_negative_instances' at 1.
  rewrite (bind_ok _ _ _ _ _
             (property_run _ _ s1 (count_negative dataset) eq_refl)). cbv beta.
  unfold DatasetStats.num_go_features', DatasetStats.num_ppi_features',
    DatasetStats.num_features'.
  unfold bind at 1.
  rewrite (bind_ok _ _ _ _ _
             (property_run _ DatasetStats._num_go_features s1 _ eq_refl)).
  rewrite (bind_ok _ _ _ _ _
             (property_run _ DatasetStats._num_features s1 _ eq_refl)).
  unfold lift at 1.
  destruct (truediv (NInt (RowStats.len (go_names row0))) _) as [q4|e];
    cbn [rbind]; [|done].
  unfold bind at 1.
  rewrite (bind_ok _ _ _ _ _
             (property_run _ DatasetStats._num_ppi_features s1 _ eq_refl)).
  rewrite (bind_ok _ _ _ _ _
             (property_run _ DatasetStats._num_features s1 _ eq_refl)).
  unfold lift at 1.
  destruct (truediv (NInt (RowStats.len (ppi_names row0))) _) as [q5|e];
    cbn [rbind]; [|done].
  destruct (avg_rows_stats_run DatasetStats._calculate dataset l
              (count_positive dataset) (count_negative dataset)
              (Some (RowStats.len (all_names row0)))
              (Some (RowStats.len (go_names row0)))
              (Some (RowStats.len (ppi_names row0))) S L Hv)
    as (l' & avg' & S' & L' & Eavg & Hu).
  fold s1 in Eavg.
  unfold DatasetStats.avg_of at 1. unfold bind at 1. unfold bind at 1.
  rewrite Eavg.
  destruct (rbind (summed_rows_stats dataset) _) as [avg|e]; cbn [rbind];
    [|done].
  rewrite (Hu avg eq_refl). clear Hu Eavg.
  set (s2 := DatasetStats.mk _ _ _ _ _ _ _ (Some avg)).
  unfold lift at 1.
  destruct (getitem avg "%GO=0") as [v6|e]; [|done].
  rewrite (bind_avg_of _ "%GO=1" s2 avg) by done.
  destruct (getitem avg "%GO=1") as [v7|e]; [|done].
  rewrite (bind_avg_of _ "%PPI=0" s2 avg) by done.
  destruct (getitem avg "%PPI=0") as [v8|e]; [|done].
  rewrite (bind_avg_of _ "%PPI=(0;150]" s2 avg) by done.
  destruct (getitem avg "%PPI=(0;150]") as [v9|e]; [|done].
  rewrite (bind_avg_of _ "%PPI=(150;400]" s2 avg) by done.
  destruct (getitem avg "%PPI=(150;400]") as [v10|e]; [|done].
  rewrite (bind_avg_of _ "%PPI=(400;700]" s2 avg) by done.
  destruct (getitem avg "%PPI=(400;700]") as [v11|e]; [|done].
  rewrite (bind_avg_of _ "%PPI=(700;900]" s2 avg) by done.
  destruct (getitem avg "%PPI=(700;900]") as [v12|e]; [|done].
  rewrite (bind_avg_of _ "%PPI=(900;1000]" s2 avg) by done.
  destruct (getitem avg "%PPI=(900;1000]") as [v13|e]; [|done].
  done.
Qed.

(** ** The pure sums and averages *)

Lemma row_stats_keys row st :
  row_stats row = Ok st →
  keys st
  = ["#GO=0"; "#GO=1"; "#PPI=0"; "#PPI=(0;150]"; "#PPI=(150;400]";
     "#PPI=(400;700]"; "#PPI=(700;900]"; "#PPI=(900;1000]";
     "%GO=0"; "%GO=1"; "%PPI=0"; "%PPI=(0;150]"; "%PPI=(150;400]";
     "%PPI=(400;700]"; "%PPI=(700;900]"; "%PPI=(900;1000]"].
Proof.
  unfold row_stats. cbv zeta. intros H.
  repeat match type of H with
  | rbind (truediv ?a ?b) _ = Ok _ =>
      destruct (truediv a b); cbn [rbind] in H; [|discriminate H]
  end.
  by injection H as <-.
Qed.

Lemma row_stats_NoDup row st : row_stats row = Ok st → NoDup (keys st).
Proof.
  intros H. rewrite (row_stats_keys _ _ H).
  apply (bool_decide_unpack _). by vm_compute.
Qed.

(** The keys of the sum are distinct. *)
Lemma summed_fold_NoDup dataset : ∀ acc summed,
  NoDup (keys acc) →
  fold_left (fun summed row =>
               rbind summed (fun acc =>
               rbind (row_stats row) (fun stats => Counter_iadd acc stats)))
            dataset (Ok acc) = Ok summed →
  NoDup (keys summed).
Proof.
  induction dataset as [|row rows IH]; intros acc summed Hnd H.
  - cbn in H. by injection H as <-.
  - cbn [fold_left rbind] in H.
    destruct (row_stats row) as [st|e] eqn:Est; cbn [rbind] in H;
      [|by rewrite fold_left_rbind_raise in H].
    destruct (Counter_iadd acc st) as [acc'|e] eqn:Ei;
      [|by rewrite fold_left_rbind_raise in H].
    eapply IH; [|exact H].
    by destruct (Counter_iadd_get acc st acc' "" Ei Hnd (row_stats_NoDup _ _ Est)).
Qed.

Lemma summed_rows_stats_NoDup dataset summed :
  summed_rows_stats dataset = Ok summed → NoDup (keys summed).
Proof. apply summed_fold_NoDup. constructor. Qed.

(** A statistic that is 0.0 in every row is not a key of the sum. *)
Lemma summed_fold_absent key dataset : ∀ acc summed,
  NoDup (keys acc) → dict_get acc key = None →
  Forall (fun row => ∀ st, row_stats row = Ok st →
            dict_get st key = Some (NFloat (S754_zero false))) dataset →
  fold_left (fun summed row =>
               rbind summed (fun acc =>
               rbind (row_stats row) (fun stats => Counter_iadd acc stats)))
            dataset (Ok acc) = Ok summed →
  dict_get summed key = None.
Proof.
  induction dataset as [|row rows IH]; intros acc summed Hnd Hk Hz H.
  - cbn in H. by injection H as <-.
  - cbn [fold_left rbind] in H. apply Forall_cons in Hz as [Hz Hzs].
    destruct (row_stats row) as [st|e] eqn:Est; cbn [rbind] in H;
      [|by rewrite fold_left_rbind_raise in H].
    destruct (Counter_iadd acc st) as [acc'|e] eqn:Ei;
      [|by rewrite fold_left_rbind_raise in H].
    destruct (Counter_iadd_get acc st acc' key Ei Hnd (row_stats_NoDup _ _ Est))
      as [Hnd' Hg].
    eapply (IH acc'); [exact Hnd'| |exact Hzs|exact H].
    rewrite (Hz st eq_refl) in Hg. destruct Hg as (v & Hv & ->).
    unfold Counter_getitem in Hv. rewrite Hk in Hv.
    vm_compute in Hv. by injection Hv as <-.
Qed.

(** The averages: one key per key of the sum, holding the sum divided
    by the number of instances. *)
Lemma averaged_fold summed n ks : ∀ avg,
  NoDup ks →
  fold_left (fun avg key =>
               rbind avg (fun d =>
               rbind (truediv (Counter_getitem summed key) (NInt n)) (fun q =>
               Ok (setitem d key q)))) ks (Ok []) = Ok avg →
  keys avg = ks ∧
  ∀ key, key ∈ ks →
    getitem avg key = truediv (Counter_getitem summed key) (NInt n).
Proof.
  induction ks as [|k ks IH] using rev_ind; intros avg Hnd H.
  - cbn in H. injection H as <-. split; [done|].
    intros key Hk. by apply elem_of_nil in Hk.
  - rewrite fold_left_app in H. cbn [fold_left] in H.
    apply NoDup_app in Hnd as (Hnd & Hdisj & _).
    match type of H with rbind ?x _ = _ => destruct x as [d|e] end;
      [|discriminate H].
    cbn [rbind] in H. destruct (IH d Hnd eq_refl) as [Hk Hg].
    destruct (truediv (Counter_getitem summed k) (NInt n)) as [q|e] eqn:Eq;
      [|discriminate H].
    cbn [rbind] in H. injection H as <-.
    assert (Hnotin : k ∉ keys d).
    { rewrite Hk. intros Hin. apply (Hdisj k Hin). by left. }
    split; [by rewrite keys_setitem_new, Hk|].
    intros key [Hin| ->%list_elem_of_singleton]%elem_of_app.
    + unfold getitem. rewrite dict_get_setitem.
      destruct (String.eqb k key) eqn:E.
      * apply String.eqb_eq in E as ->. by rewrite <- Hk in Hin.
      * apply Hg in Hin. unfold getitem in Hin. exact Hin.
    + unfold getitem. by rewrite dict_get_setitem_same, Eq.
Qed.

Lemma averaged_spec summed n avg :
  NoDup (keys summed) → averaged summed n = Ok avg →
  keys avg = keys summed ∧
  ∀ key, key ∈ keys summed →
    getitem avg key = truediv (Counter_getitem summed key) (NInt n).
Proof. intros Hnd H. by apply averaged_fold. Qed.

(** When [get_stats] returns on a new object, it returns the report of
    the dataset. *)
Lemma get_stats_ok_dataset_stats dataset stats :
  fst (DatasetStats.get_stats (DatasetStats.__init__ dataset)) = Ok stats →
  ∃ row0, dataset !! 0%nat = Some row0 ∧ Forall has_class dataset ∧
    Forall (fun row => valid_row row = true ∧
                       feature_counts row = feature_counts row0) dataset ∧
    dataset_stats dataset row0 = Ok stats.
Proof.
  intros H.
  destruct (DatasetStats.get_stats (DatasetStats.__init__ dataset))
    as [r s'] eqn:Hg. cbn [fst] in H. subst r.
  destruct (get_stats_ok_calculate _ _ _ Hg) as [s1 E].
  pose proof E as E'. rewrite calculate_unfold in E'.
  apply calculate_ok in E'
    as (_ & _ & Hcls & _ & _ & row0 & l' & H0 & _).
  cbn in Hcls, H0. exists row0. split; [exact H0|]. split; [exact Hcls|].
  pose proof (calculate_outcome (DatasetStats._calculate_at 999)
                dataset row0 H0 Hcls) as Ho.
  rewrite <- calculate_unfold in Ho.
  destruct (forallb _ dataset) eqn:Hall; [|by rewrite E in Ho].
  split.
  - apply Forall_forall. intros row Hrow%list_elem_of_In.
    rewrite forallb_forall in Hall.
    apply Hall, andb_true_iff in Hrow as [Hv Hf].
    by apply bool_decide_eq_true in Hf.
  - rewrite <- (get_stats_run dataset row0 H0 Hcls Hall). by rewrite Hg.
Qed.

Lemma truediv_zero_count n q :
  0 <= n → truediv (NInt 0) (NInt n) = Ok q → q = NFloat (S754_zero false).
Proof.
  intros Hn H. destruct n as [|p|p]; [by rewrite truediv_zero in H| |lia].
  cbn in H. by injection H as <-.
Qed.

(** A value or bucket that no feature of the row has gives the
    statistic 0.0. *)
Lemma row_stats_zero row st :
  row_stats row = Ok st →
  let z := Some (NFloat (S754_zero false)) in
  (go_count row "0" = 0 → dict_get st "%GO=0" = z) ∧
  (go_count row "1" = 0 → dict_get st "%GO=1" = z) ∧
  (ppi_count row "0" = 0 → dict_get st "%PPI=0" = z) ∧
  (ppi_count row "001->150" = 0 → dict_get st "%PPI=(0;150]" = z) ∧
  (ppi_count row "151->400" = 0 → dict_get st "%PPI=(150;400]" = z) ∧
  (ppi_count row "401->700" = 0 → dict_get st "%PPI=(400;700]" = z) ∧
  (ppi_count row "701->900" = 0 → dict_get st "%PPI=(700;900]" = z) ∧
  (ppi_count row "901->1000" = 0 → dict_get st "%PPI=(900;1000]" = z).
Proof.
  unfold row_stats. cbv zeta. intros H.
  destruct (truediv (NInt (go_count row "0")) _) as [r1|] eqn:E1;
    cbn [rbind] in H; [|discriminate H].
  destruct (truediv (NInt (go_count row "1")) _) as [r2|] eqn:E2;
    cbn [rbind] in H; [|discriminate H].
  destruct (truediv (NInt (ppi_count row "0")) _) as [r3|] eqn:E3;
    cbn [rbind] in H; [|discriminate H].
  destruct (truediv (NInt (ppi_count row "001->150")) _) as [r4|] eqn:E4;
    cbn [rbind] in H; [|discriminate H].
  destruct (truediv (NInt (ppi_count row "151->400")) _) as [r5|] eqn:E5;
    cbn [rbind] in H; [|discriminate H].
  destruct (truediv (NInt (ppi_count row "401->700")) _) as [r6|] eqn:E6;
    cbn [rbind] in H; [|discriminate H].
  destruct (truediv (NInt (ppi_count row "701->900")) _) as [r7|] eqn:E7;
    cbn [rbind] in H; [|discriminate H].
  destruct (truediv (NInt (ppi_count row "901->1000")) _) as [r8|] eqn:E8;
    cbn [rbind] in H; [|discriminate H].
  injection H as <-.
  split_and!; intros Hz;
    match goal with
    | E : truediv (NInt ?c) _ = Ok ?r |- dict_get _ _ = Some _ =>
        match type of Hz with
        | c = 0 =>
            rewrite Hz in E;
            apply truediv_zero_count in E; [|apply len_nonneg];
            rewrite E; reflexivity
        end
    end.
Qed.

(** An average is there only if some row has a positive count. *)
Lemma avg_key_needs_row dataset summed avg n key (cnt : Row.t -> Z) :
  summed_rows_stats dataset = Ok summed →
  averaged summed n = Ok avg →
  is_ok (getitem avg key) = true →
  (∀ row, 0 <= cnt row) →
  (∀ row st, row_stats row = Ok st → cnt row = 0 →
             dict_get st key = Some (NFloat (S754_zero false))) →
  ∃ row, row ∈ dataset ∧ 0 < cnt row.
Proof.
  intros Hs Ha Hk Hpos Hz.
  destruct (decide (Exists (fun row => 0 < cnt row) dataset)) as [Hex|Hno].
  - apply Exists_exists in Hex as (row & Hin & Hlt). eauto.
  - exfalso. apply not_Exists_Forall in Hno; [|intros row; apply _].
    assert (Hnone : dict_get summed key = None).
    { eapply (summed_fold_absent key dataset []); [constructor|done| |exact Hs].
      eapply Forall_impl; [exact Hno|]. cbn. intros row Hrow st Hst.
      apply (Hz row st Hst). specialize (Hpos row). lia. }
    destruct (averaged_spec summed n avg
                (summed_rows_stats_NoDup _ _ Hs) Ha) as [Hkeys _].
    apply dict_get_None_keys in Hnone. rewrite <- Hkeys in Hnone.
    apply dict_get_None_keys in Hnone.
    unfold getitem in Hk. by rewrite Hnone in Hk.
Qed.

Lemma go_count_nonneg row v : 0 <= go_count row v.
Proof. apply count_where_bounds. Qed.

Lemma ppi_count_nonneg row k : 0 <= ppi_count row k.
Proof. apply count_where_bounds. Qed.

Lemma dataset_stats_inv dataset row0 stats :
  Forall has_class dataset →
  dataset_stats dataset row0 = Ok stats →
  ∃ s4 s5 summed avg s6 s7 s8 s9 s10 s11 s12 s13,
    truediv (NInt (RowStats.len (go_names row0)))
            (NInt (RowStats.len (all_names row0))) = Ok s4 ∧
    truediv (NInt (RowStats.len (ppi_names row0)))
            (NInt (RowStats.len (all_names row0))) = Ok s5 ∧
    summed_rows_stats dataset = Ok summed ∧
    averaged summed (Z.of_nat (length dataset)) = Ok avg ∧
    getitem avg "%GO=0" = Ok s6 ∧
    getitem avg "%GO=1" = Ok s7 ∧
    getitem avg "%PPI=0" = Ok s8 ∧
    getitem avg "%PPI=(0;150]" = Ok s9 ∧
    getitem avg "%PPI=(150;400]" = Ok s10 ∧
    getitem avg "%PPI=(400;700]" = Ok s11 ∧
    getitem avg "%PPI=(700;900]" = Ok s12 ∧
    getitem avg "%PPI=(900;1000]" = Ok s13 ∧
    stats =
      [("#Inst", NInt (Z.of_nat (length dataset)));
       ("#Pos", NInt (count_positive dataset));
       ("#Neg", NInt (count_negative dataset));
       ("%GO", s4); ("%PPI", s5);
       ("avg%GO=0", s6); ("avg%GO=1", s7); ("avg%PPI=0", s8);
       ("avg%PPI=(0;150]", s9); ("avg%PPI=(150;400]", s10);
       ("avg%PPI=(400;700]", s11); ("avg%PPI=(700;900]", s12);
       ("avg%PPI=(900;1000]", s13)].
Proof.
  intros Hcls H. unfold dataset_stats in H. cbv zeta in H.
  rewrite (count_positive_negative _ Hcls) in H.
  destruct (truediv (NInt (RowStats.len (go_names row0))) _) as [s4|] eqn:Q1;
    cbn [rbind] in H; [|discriminate H].
  destruct (truediv (NInt (RowStats.len (ppi_names row0))) _) as [s5|] eqn:Q2;
    cbn [rbind] in H; [|discriminate H].
  destruct (summed_rows_stats dataset) as [summed|] eqn:Q3;
    cbn [rbind] in H; [|discriminate H].
  destruct (averaged summed _) as [avg|] eqn:Q4; cbn [rbind] in H; [|discriminate H].
  destruct (getitem avg "%GO=0") as [s6|] eqn:Q5; cbn [rbind] in H; [|discriminate H].
  destruct (getitem avg "%GO=1") as [s7|] eqn:Q6; cbn [rbind] in H; [|discriminate H].
  destruct (getitem avg "%PPI=0") as [s8|] eqn:Q7; cbn [rbind] in H; [|discriminate H].
  destruct (getitem avg "%PPI=(0;150]") as [s9|] eqn:Q8;
    cbn [rbind] in H; [|discriminate H].
  destruct (getitem avg "%PPI=(150;400]") as [s10|] eqn:Q9;
    cbn [rbind] in H; [|discriminate H].
  destruct (getitem avg "%PPI=(400;700]") as [s11|] eqn:Q10;
    cbn [rbind] in H; [|discriminate H].
  destruct (getitem avg "%PPI=(700;900]") as [s12|] eqn:Q11;
    cbn [rbind] in H; [|discriminate H].
  destruct (getitem avg "%PPI=(900;1000]") as [s13|] eqn:Q12;
    cbn [rbind] in H; [|discriminate H].
  injection H as <-.
  exists s4, s5, summed, avg, s6, s7, s8, s9, s10, s11, s12, s13.
  by split_and!.
Qed.

Lemma avg_field summed n avg key v :
  NoDup (keys summed) → averaged summed n = Ok avg →
  getitem avg key = Ok v →
  key ∈ keys summed ∧ truediv (Counter_getitem summed key) (NInt n) = Ok v.
Proof.
  intros Hnd Ha Hv. destruct (averaged_spec _ _ _ Hnd Ha) as [Hk Hg].
  assert (Hin : key ∈ keys summed).
  { rewrite <- Hk. apply dict_get_Some_keys. unfold getitem in Hv.
    destruct (dict_get avg key); [eauto|discriminate Hv]. }
  split; [exact Hin|]. by rewrite <- (Hg key Hin).
Qed.

(** X9.  The values of the report of [DatasetStats.get_stats], when it
    returns one on a new object: "%GO" and "%PPI" are the numbers of GO
    and of PPI features of the first row divided by its number of
    features; each of the eight "avg%..." fields is the sum, over the
    rows in order, of the statistic "%..." of [RowStats.get_stats]
    (added as [Counter]s, and a key of that sum), divided by the number
    of rows. *)
Theorem dataset_get_stats_spec (dataset : list Row.t) (stats : dict num)
  (H : fst (DatasetStats.get_stats (DatasetStats.__init__ dataset))
       = Ok stats) :
  ∃ row0 summed,
    dataset !! 0%nat = Some row0 ∧
    summed_rows_stats dataset = Ok summed ∧
    getitem stats "%GO"
    = truediv (NInt (RowStats.len (go_names row0)))
              (NInt (RowStats.len (all_names row0))) ∧
    getitem stats "%PPI"
    = truediv (NInt (RowStats.len (ppi_names row0)))
              (NInt (RowStats.len (all_names row0))) ∧
    Forall (fun key =>
              key ∈ keys summed ∧
              getitem stats ("avg" ++ key)
              = truediv (Counter_getitem summed key)
                        (NInt (Z.of_nat (length dataset))))
           ["%GO=0"; "%GO=1"; "%PPI=0"; "%PPI=(0;150]"; "%PPI=(150;400]";
            "%PPI=(400;700]"; "%PPI=(700;900]"; "%PPI=(900;1000]"].
Proof.
  destruct (get_stats_ok_dataset_stats _ _ H)
    as (row0 & H0 & Hcls & _ & Hd).
  destruct (dataset_stats_inv _ _ _ Hcls Hd)
    as (s4 & s5 & summed & avg & s6 & s7 & s8 & s9 & s10 & s11 & s12 & s13
        & E4 & E5 & Es & Ea & E6 & E7 & E8 & E9 & E10 & E11 & E12 & E13
        & ->).
  pose proof (summed_rows_stats_NoDup _ _ Es) as Hnd.
  exists row0, summed. split; [exact H0|]. split; [exact Es|].
  split; [by rewrite E4|]. split; [by rewrite E5|].
  repeat (apply Forall_cons; split;
          [match goal with
           | |- ?k ∈ _ ∧ _ =>
               match goal with
               | E : getitem avg k = Ok _ |- _ =>
                   destruct (avg_field _ _ _ _ _ Hnd Ea E) as [Hin ->];
                   split; [exact Hin|reflexivity]
               end
           end|]).
  apply Forall_nil_2.
Qed.

(** X9, on the three-row dataset [Examples.dataset_full]. *)
Lemma dataset_get_stats_spec_witness :
  fst (DatasetStats.get_stats
         (DatasetStats.__init__ Examples.dataset_full))
    = Ok Examples.stats_full ∧
  ∃ row0 summed,
    Examples.dataset_full !! 0%nat = Some row0 ∧
    summed_rows_stats Examples.dataset_full = Ok summed ∧
    getitem Examples.stats_full "avg%GO=0"
    = truediv (Counter_getitem summed "%GO=0") (NInt 3).
Proof.
  assert (H : fst (DatasetStats.get_stats
                     (DatasetStats.__init__ Examples.dataset_full))
              = Ok Examples.stats_full) by (vm_compute; reflexivity).
  split; [exact H|].
  generalize (dataset_get_stats_spec _ _ H).
  intros (row0 & summed & H0 & Hs & _ & _ & Hall).
  exists row0, summed. split; [exact H0|]. split; [exact Hs|].
  apply Forall_cons in Hall as [[_ Hg] _].
  exact Hg.
Defined.

(** X10.  [DatasetStats.get_stats] returns a report on a new object only
    if each of the two GO values and each of the six PPI buckets is
    the value of some feature of some row: an "avg%..." field whose
    statistic is 0.0 in every row is missing from the sum, and looking
    it up raises [KeyError]. *)
Theorem get_stats_needs_every_value (dataset : list Row.t)
  (H : is_ok (fst (DatasetStats.get_stats (DatasetStats.__init__ dataset)))
       = true) :
  (∀ v, v ∈ go_keys → ∃ row, row ∈ dataset ∧ 0 < go_count row v) ∧
  (∀ k, k ∈ ppi_keys → ∃ row, row ∈ dataset ∧ 0 < ppi_count row k).
Proof.
  destruct (fst (DatasetStats.get_stats (DatasetStats.__init__ dataset)))
    as [stats|e] eqn:Hg; [clear H|discriminate H].
  destruct (get_stats_ok_dataset_stats _ _ Hg)
    as (row0 & H0 & Hcls & _ & Hd).
  destruct (dataset_stats_inv _ _ _ Hcls Hd)
    as (s4 & s5 & summed & avg & s6 & s7 & s8 & s9 & s10 & s11 & s12 & s13
        & E4 & E5 & Es & Ea & E6 & E7 & E8 & E9 & E10 & E11 & E12 & E13
        & _).
  assert (Hneed : ∀ key cnt v,
            getitem avg key = Ok v → (∀ row, 0 <= cnt row) →
            (∀ row st, row_stats row = Ok st → cnt row = 0 →
               dict_get st key = Some (NFloat (S754_zero false))) →
            ∃ row, row ∈ dataset ∧ 0 < cnt row).
  { intros key cnt v Hv Hpos Hz.
    eapply (avg_key_needs_row dataset summed avg _ key cnt); try done.
    by rewrite Hv. }
  split.
  - intros v Hv. unfold go_keys in Hv.
    repeat (apply elem_of_cons in Hv as [->|Hv]);
      [| |by apply elem_of_nil in Hv].
    + apply (Hneed "%GO=0" (fun row => go_count row "0") _ E6);
        [intros; apply go_count_nonneg|].
      intros row st Hst. apply (row_stats_zero row st Hst).
    + apply (Hneed "%GO=1" (fun row => go_count row "1") _ E7);
        [intros; apply go_count_nonneg|].
      intros row st Hst. apply (row_stats_zero row st Hst).
  - intros k Hk. unfold ppi_keys in Hk.
    repeat (apply elem_of_cons in Hk as [->|Hk]);
      [| | | | | |by apply elem_of_nil in Hk].
    + apply (Hneed "%PPI=0" (fun row => ppi_count row "0") _ E8);
        [intros; apply ppi_count_nonneg|].
      intros row st Hst. apply (row_stats_zero row st Hst).
    + apply (Hneed "%PPI=(0;150]" (fun row => ppi_count row "001->150") _ E9);
        [intros; apply ppi_count_nonneg|].
      intros row st Hst. apply (row_stats_zero row st Hst).
    + apply (Hneed "%PPI=(150;400]"
               (fun row => ppi_count row "151->400") _ E10);
        [intros; apply ppi_count_nonneg|].
      intros row st Hst. apply (row_stats_zero row st Hst).
    + apply (Hneed "%PPI=(400;700]"
               (fun row => ppi_count row "401->700") _ E11);
        [intros; apply ppi_count_nonneg|].
      intros row st Hst. apply (row_stats_zero row st Hst).
    + apply (Hneed "%PPI=(700;900]"
               (fun row => ppi_count row "701->900") _ E12);
        [intros; apply ppi_count_nonneg|].
      intros row st Hst. apply (row_stats_zero row st Hst).
    + apply (Hneed "%PPI=(900;1000]"
               (fun row => ppi_count row "901->1000") _ E13);
        [intros; apply ppi_count_nonneg|].
      intros row st Hst. apply (row_stats_zero row st Hst).
Qed.

(** X10, on the three-row dataset [Examples.dataset_full]. *)
Lemma get_stats_needs_every_value_witness :
  is_ok (fst (DatasetStats.get_stats
                (DatasetStats.__init__ Examples.dataset_full))) = true ∧
  ∃ row, row ∈ Examples.dataset_full ∧ 0 < ppi_count row "901->1000".
Proof.
  assert (H : is_ok (fst (DatasetStats.get_stats
                            (DatasetStats.__init__ Examples.dataset_full)))
              = true) by (vm_compute; reflexivity).
  split; [exact H|].
  generalize (get_stats_needs_every_value _ H). intros [_ Hp].
  apply Hp. unfold ppi_keys. repeat constructor.
Defined.

(** ** A file that fails *)

(** A file that does not load, or whose statistics are not computed,
    ends the body of the loop with its exception before anything is
    written. *)
Lemma main_body_raise arff_load path e p :
  arff_load path = Raise e ∨
  (∃ dataset, arff_load path = Ok dataset ∧
     fst (DatasetStats.get_stats (DatasetStats.__init__ dataset)) = Raise e) →
  main_body arff_load path p = (Raise e, p).
Proof.
  intros [Hl|(dataset & Hl & Hs)].
  - unfold bind at 1. unfold lift at 1. by rewrite Hl.
  - unfold bind at 1. unfold lift at 1. rewrite Hl.
    unfold bind at 1. unfold Main.new_dataset_stats, lift. by rewrite Hs.
Qed.

(** The files that are reported, from the start of [main]. *)
Lemma main_prefix_run arff_load paths reports :
  Forall2 (fun path r => ∃ dataset stats,
             arff_load path = Ok dataset ∧
             fst (DatasetStats.get_stats (DatasetStats.__init__ dataset))
               = Ok stats ∧
             r = Main.report path stats) paths reports →
  ∃ p, for_each paths (main_body arff_load)
         (Main.set_print_header true (Main.set_w [] Main.start)) = (Ok tt, p) ∧
       Main.stdout p
       = match reports with
         | [] => []
         | _ :: _ => Main.Header report_fieldnames
                     :: map (fun r => Main.Record (values r)) reports
         end.
Proof.
  intros Hfiles.
  destruct Hfiles as [|path r paths reports (ds & st & Hl & Hs & ->) HF].
  - by eexists.
  - cbn [for_each].
    destruct (main_body_run arff_load path ds st
                (Main.set_print_header true (Main.set_w [] Main.start)) Hl Hs)
      as (_ & Hstep & _).
    rewrite (bind_ok _ _ _ _ _ (Hstep eq_refl)).
    rewrite (main_loop_run arff_load paths reports _ HF); [|reflexivity..].
    by eexists.
Qed.

(** X11.  [main] stops at the first file that does not load or whose
    statistics are not computed: it raises the exception of that file,
    the files after it are not read, and the output holds the header
    and the records of the files before it, or nothing when the first
    file fails. *)
Theorem main_stops_at_failure (arff_load : string -> result (list Row.t))
  (prog : string) (paths : list string) (reports : list (dict Main.val))
  (path : string) (rest : list string) (e : exn)
  (Hfiles : Forall2 (fun path r => ∃ dataset stats,
               arff_load path = Ok dataset ∧
               fst (DatasetStats.get_stats (DatasetStats.__init__ dataset))
                 = Ok stats ∧
               r = Main.report path stats) paths reports)
  (Hfail : arff_load path = Raise e ∨
           ∃ dataset, arff_load path = Ok dataset ∧
             fst (DatasetStats.get_stats (DatasetStats.__init__ dataset))
               = Raise e) :
  fst (Main.main arff_load (prog :: paths ++ path :: rest) Main.start)
    = Raise e ∧
  Main.stdout (snd (Main.main arff_load (prog :: paths ++ path :: rest)
                      Main.start))
  = match reports with
    | [] => []
    | _ :: _ => Main.Header report_fieldnames
                :: map (fun r => Main.Record (values r)) reports
    end.
Proof.
  rewrite main_unfold. cbn [tail].
  destruct (main_prefix_run arff_load paths reports Hfiles) as (p & Hp & Hout).
  rewrite for_each_app. rewrite (bind_ok _ _ _ _ _ Hp).
  cbn [for_each].
  rewrite (bind_raise _ _ _ _ _ (main_body_raise arff_load path e p Hfail)).
  by split.
Qed.

(** X11, on a good file followed by one whose rows have no PPI feature
    and by one that is never read. *)
Lemma main_stops_at_failure_witness :
  fst (Main.main (fun path => if String.eqb path Examples.path
                              then Ok Examples.dataset_full
                              else Ok [Examples.one_go "0"])
         ["stats.py"; Examples.path; "b"; "c"] Main.start)
    = Raise ZeroDivisionError ∧
  Main.stdout (snd (Main.main (fun path => if String.eqb path Examples.path
                                           then Ok Examples.dataset_full
                                           else Ok [Examples.one_go "0"])
                      ["stats.py"; Examples.path; "b"; "c"] Main.start))
  = [Main.Header report_fieldnames;
     Main.Record (values (Main.report Examples.path Examples.stats_full))].
Proof.
  refine (main_stops_at_failure
            (fun path => if String.eqb path Examples.path
                         then Ok Examples.dataset_full
                         else Ok [Examples.one_go "0"])
            "stats.py" [Examples.path]
            [Main.report Examples.path Examples.stats_full]
            "b" ["c"] ZeroDivisionError _ _).
  - assert (H : fst (DatasetStats.get_stats
                       (DatasetStats.__init__ Examples.dataset_full))
                = Ok Examples.stats_full) by (vm_compute; reflexivity).
    repeat constructor. exists Examples.dataset_full, Examples.stats_full.
    split; [reflexivity|]. split; [exact H|reflexivity].
  - right. exists [Examples.one_go "0"]. split; [reflexivity|].
    vm_compute. reflexivity.
Defined.
